(** * Imabari emergency-duty schedule: the reshape-and-classify pipeline

    A shallow embedding of [streamlit_app.py]: the functions [process_table],
    [split_text], [melt_and_split], [filter_data], [categorize_data],
    [add_missing_rows] and the date resolution at the end of [load_data].
    [load_data] here starts where the table has been read from the PDF: it
    takes the table and the year-month of the page address.

    A pandas DataFrame is a list of records, one record type per column
    layout; a column operation is a [map] over the rows, a boolean selection
    a [filter]; NaN / None in an object column is [None].  A Python exception
    is the [Raise] outcome of the [result] type.  Python strings are lists of
    Unicode code points.  The pandas operations are those of pandas 2
    ([str.replace] without regular expressions, time stamps counted in
    nanoseconds).  The day column has the dtype [pd.to_numeric] infers
    (int64, uint64 or float64, the doubles with their rounding) and is cast
    to int64; the other integers are small. *)

From Stdlib Require Import Strings.String Strings.Ascii.
From Stdlib Require Import List NArith ZArith Bool Lia.
From Stdlib Require Import Sorting.Permutation Sorting.Sorted.
Import ListNotations.

(** ** Python strings *)

Module PyStr.

(** A [str] is a sequence of code points. *)
Definition pystr := list N.

Fixpoint bytes_of_string (s : string) : list N :=
  match s with
  | EmptyString => []
  | String c s' => N_of_ascii c :: bytes_of_string s'
  end.

(** UTF-8 decoding, so that literals can be written as they are in the
    source file. *)
Fixpoint utf8_decode (l : list N) : pystr :=
  match l with
  | [] => []
  | b :: t =>
      if (b <? 128)%N then b :: utf8_decode t
      else if (b <? 224)%N then
        match t with
        | b1 :: t1 => ((b - 192) * 64 + (b1 - 128))%N :: utf8_decode t1
        | _ => []
        end
      else if (b <? 240)%N then
        match t with
        | b1 :: b2 :: t2 =>
            ((b - 224) * 4096 + (b1 - 128) * 64 + (b2 - 128))%N :: utf8_decode t2
        | _ => []
        end
      else
        match t with
        | b1 :: b2 :: b3 :: t3 =>
            ((b - 240) * 262144 + (b1 - 128) * 4096 + (b2 - 128) * 64 + (b3 - 128))%N
              :: utf8_decode t3
        | _ => []
        end
  end.

Definition u (s : string) : pystr := utf8_decode (bytes_of_string s).
Arguments u s%_string.

Fixpoint str_eqb (a b : pystr) : bool :=
  match a, b with
  | [], [] => true
  | x :: a', y :: b' => (x =? y)%N && str_eqb a' b'
  | _, _ => false
  end.

(** [s.startswith(p)] *)
Fixpoint startswith (p s : pystr) : bool :=
  match p, s with
  | [], _ => true
  | x :: p', y :: s' => (x =? y)%N && startswith p' s'
  | _ :: _, [] => false
  end.

(** [p in s] *)
Fixpoint contains (p s : pystr) : bool :=
  startswith p s ||
  match s with
  | [] => false
  | _ :: s' => contains p s'
  end.

(** [s.replace(old, new)]: the occurrences of [old] are found from the left
    and do not overlap.  [skip] counts the characters of a match still to be
    passed over.  For an empty [old] Python puts [new] before every
    character and at the end. *)
Fixpoint replace_from (old new : pystr) (skip : nat) (s : pystr) : pystr :=
  match s with
  | [] => []
  | c :: s' =>
      match skip with
      | S k => replace_from old new k s'
      | O =>
          if startswith old s
          then new ++ replace_from old new (length old - 1) s'
          else c :: replace_from old new 0 s'
      end
  end.

Definition replace (old new s : pystr) : pystr :=
  match old with
  | [] => new ++ flat_map (fun c => c :: new) s
  | _ :: _ => replace_from old new 0 s
  end.

(** [str.isspace] for one code point: the characters [str.split()] and
    [str.strip()] treat as white space. *)
Definition isspace (c : N) : bool :=
  ((9 <=? c) && (c <=? 13) || (28 <=? c) && (c <=? 32)
   || (c =? 133) || (c =? 160) || (c =? 5760)
   || (8192 <=? c) && (c <=? 8202)
   || (c =? 8232) || (c =? 8233) || (c =? 8239) || (c =? 8287)
   || (c =? 12288))%N.

Fixpoint lstrip_by (p : N -> bool) (s : pystr) : pystr :=
  match s with
  | [] => []
  | c :: s' => if p c then lstrip_by p s' else s
  end.

Definition strip_by (p : N -> bool) (s : pystr) : pystr :=
  rev (lstrip_by p (rev (lstrip_by p s))).

(** [s.strip()] *)
Definition strip (s : pystr) : pystr := strip_by isspace s.

(** [s.strip(chars)] *)
Definition strip_chars (chars s : pystr) : pystr :=
  strip_by (fun c => existsb (N.eqb c) chars) s.

(** [s.split()]: maximal runs of characters that are not white space.
    [cur] is the token being read, reversed. *)
Fixpoint split_ws_from (cur : pystr) (s : pystr) : list pystr :=
  match s with
  | [] => match cur with [] => [] | _ => [rev cur] end
  | c :: s' =>
      if isspace c
      then match cur with
           | [] => split_ws_from [] s'
           | _ => rev cur :: split_ws_from [] s'
           end
      else split_ws_from (c :: cur) s'
  end.

Definition split_ws (s : pystr) : list pystr := split_ws_from [] s.

(** [re.split("(?<!\))\(", s)]: cut at every opening parenthesis that is
    not immediately preceded by a closing one.  [prev] is the character
    before the current position, [cur] the piece being read, reversed. *)
Fixpoint re_split_from (prev : option N) (cur : pystr) (s : pystr) : list pystr :=
  match s with
  | [] => [rev cur]
  | c :: s' =>
      if (c =? 40)%N && negb (match prev with Some 41%N => true | _ => false end)
      then rev cur :: re_split_from (Some c) [] s'
      else re_split_from (Some c) (c :: cur) s'
  end.

Definition re_split (s : pystr) : list pystr := re_split_from None [] s.

(** [sep.join(parts)] *)
Fixpoint join (sep : pystr) (parts : list pystr) : pystr :=
  match parts with
  | [] => []
  | [p] => p
  | p :: rest => p ++ sep ++ join sep rest
  end.

End PyStr.
Import PyStr.

(** ** Exceptions *)

Inductive exn : Set :=
| IndexError
| ValueError
| KeyError
| AttributeError
| IntCastingNaNError
| OutOfBoundsDatetime
| OutOfBoundsTimedelta
| OverflowError.

Inductive result (A : Type) : Type :=
| Ok (a : A)
| Raise (e : exn).
Arguments Ok {A} a.
Arguments Raise {A} e.

Definition bind {A B : Type} (r : result A) (k : A -> result B) : result B :=
  match r with
  | Ok a => k a
  | Raise e => Raise e
  end.

Notation "x <- e ;; k" := (bind e (fun x => k))
  (at level 61, e at next level, right associativity).

(** Runs [f] over a column, stopping at the first exception. *)
Fixpoint mapM {A B : Type} (f : A -> result B) (l : list A) : result (list B) :=
  match l with
  | [] => Ok []
  | x :: l' => y <- f x ;; ys <- mapM f l' ;; Ok (y :: ys)
  end.

(** ** pandas helpers *)

(** [DataFrame.sort_values] on several keys is a stable sort: rows with
    equal keys keep their order.  [le] is the order on the keys. *)
Section Sort.
Variable A : Type.
Variable le : A -> A -> bool.

Fixpoint insert_by (x : A) (l : list A) : list A :=
  match l with
  | [] => [x]
  | y :: l' => if le x y then x :: l else y :: insert_by x l'
  end.

Fixpoint sort_by (l : list A) : list A :=
  match l with
  | [] => []
  | x :: l' => insert_by x (sort_by l')
  end.
End Sort.
Arguments insert_by {A} le x l.
Arguments sort_by {A} le l.

Definition max_length {A : Type} (l : list (list A)) : nat :=
  fold_right (fun x m => Nat.max (length x) m) 0%nat l.

(** ** Numbers: [pd.to_numeric(..., errors="coerce")] and [astype(int)] *)

Module Numeric.

Local Open Scope Z_scope.

(** *** float64

    A double is NaN, an infinity, or the number [m * 2 ^ e].  A result is
    rounded to the nearest double, ties to even, with the 53 bits of a
    double, its gradual underflow below [2 ^ -1022] and its overflow to an
    infinity.  Zero carries no sign: no step below looks at it. *)
Inductive float64 : Set :=
| FNaN
| FInf (negative : bool)
| FFin (m e : Z).

Definition bitlen (a : Z) : Z := if a =? 0 then 0 else Z.log2 (Z.abs a) + 1.

(** [a / 2 ^ k] rounded to the nearest integer, ties to even. *)
Definition shift_rne (a k : Z) : Z :=
  let q := a / 2 ^ k in
  let r := a mod 2 ^ k in
  let half := 2 ^ (k - 1) in
  if (half <? r) || ((r =? half) && Z.odd q) then q + 1 else q.

(** The double nearest to [m * 2 ^ e]. *)
Definition fround (m e : Z) : float64 :=
  let a := Z.abs m in
  let k := Z.max (bitlen a - 53) (-1074 - e) in
  let q := if 0 <? k then shift_rne a k else a in
  let e' := if 0 <? k then e + k else e in
  if 1024 <? bitlen q + e' then FInf (m <? 0)
  else FFin (if m <? 0 then - q else q) e'.

Definition fneg (x : float64) : float64 :=
  match x with
  | FNaN => FNaN
  | FInf s => FInf (negb s)
  | FFin m e => FFin (- m) e
  end.

Definition fmul (x y : float64) : float64 :=
  match x, y with
  | FFin m1 e1, FFin m2 e2 => fround (m1 * m2) (e1 + e2)
  | FInf s, FFin m _ | FFin m _, FInf s => if m =? 0 then FNaN else FInf (xorb s (m <? 0))
  | FInf s1, FInf s2 => FInf (xorb s1 s2)
  | _, _ => FNaN
  end.

Definition fadd (x y : float64) : float64 :=
  match x, y with
  | FFin m1 e1, FFin m2 e2 =>
      let e := Z.min e1 e2 in
      fround (m1 * 2 ^ (e1 - e) + m2 * 2 ^ (e2 - e)) e
  | FInf s, FFin _ _ | FFin _ _, FInf s => FInf s
  | FInf s1, FInf s2 => if Bool.eqb s1 s2 then FInf s1 else FNaN
  | _, _ => FNaN
  end.

(** The quotient is exact when the mantissas divide; otherwise it is taken
    with 56 bits or more and a last bit that tells whether a remainder is
    left, which is enough to round it. *)
Definition fdiv (x y : float64) : float64 :=
  match x, y with
  | FFin m1 e1, FFin m2 e2 =>
      if m2 =? 0 then (if m1 =? 0 then FNaN else FInf (m1 <? 0))
      else if m1 mod m2 =? 0 then fround (m1 / m2) (e1 - e2)
      else
        let a := Z.abs m1 in
        let b := Z.abs m2 in
        let s := Z.max 0 (bitlen b - bitlen a + 56) in
        let q := (a * 2 ^ s) / b in
        let t := 2 * q + (if (a * 2 ^ s) mod b =? 0 then 0 else 1) in
        fround (if Bool.eqb (m1 <? 0) (m2 <? 0) then t else - t) (e1 - e2 - s - 1)
  | FInf s, FFin m _ => FInf (xorb s (m <? 0))
  | FFin _ _, FInf _ => FFin 0 0
  | _, _ => FNaN
  end.

Definition is_nan (x : float64) : bool :=
  match x with FNaN => true | _ => false end.

Definition is_finite (x : float64) : bool :=
  match x with FFin _ _ => true | _ => false end.

Definition INT64_MIN : Z := - 2 ^ 63.
Definition INT64_MAX : Z := 2 ^ 63 - 1.
Definition UINT64_MAX : Z := 2 ^ 64 - 1.

(** The cast of a double to int64 truncates; a value out of range gives
    the smallest int64, as the conversion instruction of x86-64 does. *)
Definition float_to_int64 (x : float64) : Z :=
  match x with
  | FFin m e =>
      let t := if 0 <=? e then m * 2 ^ e else Z.quot m (2 ^ (- e)) in
      if (INT64_MIN <=? t) && (t <=? INT64_MAX) then t else INT64_MIN
  | _ => INT64_MIN
  end.

(** The cast of a uint64 to int64, and the arithmetic of a C [int], which
    wraps as compiled. *)
Definition wrap64 (z : Z) : Z := (z + 2 ^ 63) mod 2 ^ 64 - 2 ^ 63.

Definition wrap32 (z : Z) : Z := (z + 2 ^ 31) mod 2 ^ 32 - 2 ^ 31.

(** *** The number parser of pandas: [precise_xstrtod] of tokenizer.c *)

Definition isdigit (c : N) : bool := ((48 <=? c) && (c <=? 57))%N.

Definition isspace_ascii (c : N) : bool := ((c =? 32) || (9 <=? c) && (c <=? 13))%N.

Fixpoint span_digits (s : pystr) : pystr * pystr :=
  match s with
  | [] => ([], [])
  | c :: s' =>
      if isdigit c
      then let (d, r) := span_digits s' in (c :: d, r)
      else ([], s)
  end.

Definition digits_value (d : pystr) : Z :=
  fold_left (fun acc c => acc * 10 + (Z.of_N c - 48)) d 0.

(** An optional sign: "-" or "+". *)
Definition read_sign (s : pystr) : bool * pystr :=
  match s with
  | c :: r =>
      if (c =? 45)%N then (true, r)
      else if (c =? 43)%N then (false, r)
      else (false, s)
  | [] => (false, [])
  end.

Definition lower (c : N) : N :=
  if ((65 <=? c) && (c <=? 90))%N then (c + 32)%N else c.

(** [e[k]], the table of the powers of ten as doubles. *)
Definition pow10 (k : Z) : float64 := fround (10 ^ k) 0.

(** [number * 10. + digit]: a product and a sum, each rounded (no fused
    multiply-add, as the code is compiled for x86-64). *)
Definition push_digit (number : float64) (c : N) : float64 :=
  fadd (fmul number (FFin 10 0)) (FFin (Z.of_N c - 48) 0).

(** The digits before the decimal point: the first 17 go into the number,
    every further one counts as a power of ten. *)
Fixpoint read_digits (s : pystr) (number : float64) (num_digits exponent : Z)
  : float64 * Z * Z * pystr :=
  match s with
  | [] => (number, num_digits, exponent, [])
  | c :: s' =>
      if isdigit c then
        if num_digits <? 17
        then read_digits s' (push_digit number c) (num_digits + 1) exponent
        else read_digits s' number num_digits (exponent + 1)
      else (number, num_digits, exponent, s)
  end.

(** The digits after the decimal point, as long as 17 digits are not
    reached. *)
Fixpoint read_decimals (s : pystr) (number : float64) (num_digits num_decimals : Z)
  : float64 * Z * Z * pystr :=
  match s with
  | [] => (number, num_digits, num_decimals, [])
  | c :: s' =>
      if isdigit c && (num_digits <? 17)
      then read_decimals s' (push_digit number c) (num_digits + 1) (num_decimals + 1)
      else (number, num_digits, num_decimals, s)
  end.

Fixpoint skip_digits (s : pystr) : pystr :=
  match s with
  | [] => []
  | c :: s' => if isdigit c then skip_digits s' else s
  end.

(** The digits of the exponent, at most 17, in a C [int]. *)
Fixpoint read_exponent_digits (s : pystr) (n num_digits : Z) : Z * Z * pystr :=
  match s with
  | [] => (n, num_digits, [])
  | c :: s' =>
      if isdigit c && (num_digits <? 17)
      then read_exponent_digits s' (wrap32 (n * 10 + (Z.of_N c - 48))) (num_digits + 1)
      else (n, num_digits, s)
  end.

(** The last step: the number times or divided by the power of ten. *)
Definition scale (number : float64) (exponent : Z) : float64 :=
  if 0 <? exponent then fmul number (pow10 exponent)
  else if exponent <? -308 then
    if exponent <? -616 then FFin 0 0
    else fdiv (fdiv number (pow10 (-308 - exponent))) (pow10 308)
  else fdiv number (pow10 (- exponent)).

(** [to_double]: the double read from the whole of a C string and whether
    the string may be an integer (no decimal point, no exponent), or
    [None] when the string is not a number, is out of range, or is not
    read to its end. *)
Definition precise_xstrtod (str : pystr) : option (float64 * bool) :=
  let p := lstrip_by isspace_ascii str in
  let (negative, p) := read_sign p in
  let '(number, num_digits, exponent, p) := read_digits p (FFin 0 0) 0 0 in
  let '(number, num_digits, exponent, maybe_int, p) :=
    match p with
    | c :: p' =>
        if (c =? 46)%N then
          let '(number, num_digits, num_decimals, p') :=
            read_decimals p' number num_digits 0 in
          (number, num_digits, exponent - num_decimals, false,
           if 17 <=? num_digits then skip_digits p' else p')
        else (number, num_digits, exponent, true, p)
    | [] => (number, num_digits, exponent, true, p)
    end in
  if num_digits =? 0 then None
  else
    let number := if negative then fneg number else number in
    let '(exponent, maybe_int, p, has_digits) :=
      match p with
      | c :: p' =>
          if (lower c =? 101)%N then
            let (exp_negative, p') := read_sign p' in
            let '(n, exp_digits, p') := read_exponent_digits p' 0 0 in
            (wrap32 (if exp_negative then exponent - n else exponent + n),
             false, p', negb (exp_digits =? 0))
          else (exponent, maybe_int, p, true)
      | [] => (exponent, maybe_int, p, true)
      end in
    if negb has_digits then None
    else if 308 <? exponent then None
    else
      let number := scale number exponent in
      if is_finite number && forallb isspace_ascii p
      then Some (number, maybe_int)
      else None.

(** *** One value: [floatify] and the loop body of [maybe_convert_numeric] *)

(** The literals [floatify] accepts when the parser fails: "inf" and
    "infinity" in any case, with an optional sign. *)
Definition inf_literal (s : pystr) : option bool :=
  let (negative, r) := read_sign s in
  let r := map lower r in
  if str_eqb r (u "inf") || str_eqb r (u "infinity") then Some negative else None.

(** The bytes a C function sees: the string up to its first NUL. *)
Fixpoint c_string (s : pystr) : pystr :=
  match s with
  | [] => []
  | c :: s' => if (c =? 0)%N then [] else c :: c_string s'
  end.

(** A lone surrogate has no UTF-8 encoding. *)
Definition is_surrogate (c : N) : bool := ((55296 <=? c) && (c <=? 57343))%N.

(** [int(val)] for a string the parser read as an integer: white space
    around it, an optional sign, digits. *)
Definition python_int (s : pystr) : Z :=
  let (negative, r) := read_sign (lstrip_by isspace_ascii s) in
  let v := digits_value (fst (span_digits r)) in
  if negative then - v else v.

(** What the loop keeps of one value: nothing (a missing value or a string
    that is not a number), an integer with the double read from the same
    string, or a double. *)
Inductive parsed : Set :=
| PNull
| PInt (z : Z) (f : float64)
| PFloat (f : float64).

Definition parse_value (v : option pystr) : parsed :=
  match v with
  | None => PNull
  | Some tok =>
      if existsb is_surrogate tok then PNull
      else
        let cs := c_string tok in
        match precise_xstrtod cs with
        | Some (f, true) =>
            if existsb (N.eqb 0) tok then PNull else PInt (python_int cs) f
        | Some (f, false) => PFloat f
        | None =>
            match inf_literal cs with
            | Some negative => PFloat (FInf negative)
            | None => PNull
            end
        end
  end.

(** *** The column: the dtype [maybe_convert_numeric] settles on *)

Inductive dtype : Set := Int64 | UInt64 | Float64.

Definition saw_float (p : parsed) : bool :=
  match p with
  | PNull | PFloat _ => true
  | PInt z _ => (z <? INT64_MIN) || (UINT64_MAX <? z)
  end.

Definition saw_uint (p : parsed) : bool :=
  match p with
  | PInt z _ => (INT64_MAX <? z) && (z <=? UINT64_MAX)
  | _ => false
  end.

Definition saw_sint (p : parsed) : bool :=
  match p with
  | PInt z _ => (INT64_MIN <=? z) && (z <? 0)
  | _ => false
  end.

(** A column is float64 as soon as one value is missing, is no integer, is
    an integer outside the 64 bits, or the column holds both a negative
    integer and one above the largest int64; it is uint64 when some integer
    is above the largest int64; else int64. *)
Definition infer_dtype (ps : list parsed) : dtype :=
  if existsb saw_float ps || (existsb saw_uint ps && existsb saw_sint ps) then Float64
  else if existsb saw_uint ps then UInt64
  else Int64.

Definition float_of (p : parsed) : float64 :=
  match p with
  | PNull => FNaN
  | PInt _ f => f
  | PFloat f => f
  end.

Definition int_of (p : parsed) : Z :=
  match p with
  | PInt z _ => z
  | _ => 0
  end.

(** [pd.to_numeric(values, errors="coerce")]: the dtype, and for every
    value what the arrays of the loop hold. *)
Definition to_numeric (values : list (option pystr)) : dtype * list parsed :=
  let ps := map parse_value values in
  (infer_dtype ps, ps).

(** [isna] on a value of the column: only a float64 column holds NaN. *)
Definition isna (t : dtype) (p : parsed) : bool :=
  match t with
  | Float64 => is_nan (float_of p)
  | _ => false
  end.

(** [astype(int)] on a column, [int] being int64 (Linux, macOS): a float64
    column with an infinity is refused, its other values are truncated; a
    uint64 column wraps. *)
Definition astype_int (t : dtype) (ps : list parsed) : result (list Z) :=
  match t with
  | Int64 => Ok (map int_of ps)
  | UInt64 => Ok (map (fun p => wrap64 (int_of p)) ps)
  | Float64 =>
      if forallb (fun p => is_finite (float_of p)) ps
      then Ok (map (fun p => float_to_int64 (float_of p)) ps)
      else Raise IntCastingNaNError
  end.

(** The tokens Python's [int] would read: an optional sign and ASCII
    digits. *)
Definition int_literal (tok : pystr) : option Z :=
  let (neg, r0) := read_sign tok in
  match span_digits r0 with
  | ([], _) => None
  | (d, []) => Some (if neg then - digits_value d else digits_value d)%Z
  | (_, _ :: _) => None
  end.

End Numeric.
Import Numeric.


(** ** Calendar dates *)

Module Calendar.

Record date : Set := mkdate { year : Z; month : Z; dom : Z }.

Local Open Scope Z_scope.

Definition is_leap (y : Z) : bool :=
  ((y mod 4 =? 0) && negb (y mod 100 =? 0)) || (y mod 400 =? 0).

Definition days_in_month (y m : Z) : Z :=
  if m =? 2 then (if is_leap y then 29 else 28)
  else if (m =? 4) || (m =? 6) || (m =? 9) || (m =? 11) then 30
  else 31.

(** The day after and the day before a date. *)
Definition next_day (d : date) : date :=
  if dom d <? days_in_month (year d) (month d)
  then mkdate (year d) (month d) (dom d + 1)
  else if month d <? 12
       then mkdate (year d) (month d + 1) 1
       else mkdate (year d + 1) 1 1.

Definition prev_day (d : date) : date :=
  if 1 <? dom d
  then mkdate (year d) (month d) (dom d - 1)
  else if 1 <? month d
       then mkdate (year d) (month d - 1) (days_in_month (year d) (month d - 1))
       else mkdate (year d - 1) 12 31.

Fixpoint iterate (n : nat) (f : date -> date) (d : date) : date :=
  match n with
  | O => d
  | S k => f (iterate k f d)
  end.

(** The date [k] days after [d] (before it when [k] is negative). *)
Definition add_days (d : date) (k : Z) : date :=
  if 0 <=? k
  then iterate (Z.to_nat k) next_day d
  else iterate (Z.to_nat (- k)) prev_day d.

(** Days since 1970-01-01 of a date of the proleptic Gregorian calendar:
    the integer a [Timestamp] holds, counted in days.  It serves to place a
    date in the time range below. *)
Definition days_from_civil (y m d : Z) : Z :=
  let y' := if m <=? 2 then y - 1 else y in
  let era := y' / 400 in
  let yoe := y' - era * 400 in
  let doy := (153 * (if 2 <? m then m - 3 else m + 9) + 2) / 5 + d - 1 in
  let doe := yoe * 365 + yoe / 4 - yoe / 100 + doy in
  era * 146097 + doe - 719468.

Definition day_number (d : date) : Z := days_from_civil (year d) (month d) (dom d).

(** A nanosecond [Timestamp] at midnight holds the days -106751 .. 106751
    (1677-09-22 .. 2262-04-11), a nanosecond [Timedelta] the same number of
    days either way. *)
Definition max_days : Z := 106751.

Definition in_bounds (n : Z) : bool := (- max_days <=? n) && (n <=? max_days).

(** The year-month context: the month whose first day
    [pd.to_datetime(f"{yyyymm}01")] denotes. *)
Record year_month : Set := mkym { ym_year : Z; ym_month : Z }.

Definition first_day (ym : year_month) : date := mkdate (ym_year ym) (ym_month ym) 1.

(** [pd.to_datetime(f"{yyyymm}01")] *)
Definition to_datetime (ym : year_month) : result date :=
  if (1 <=? ym_month ym) && (ym_month ym <=? 12)
  then
    if in_bounds (day_number (first_day ym)) then Ok (first_day ym)
    else Raise OutOfBoundsDatetime
  else Raise ValueError.

(** [pd.to_timedelta(day - 1, unit="D")] for one row. *)
Definition to_timedelta (k : Z) : result Z :=
  if in_bounds k then Ok k else Raise OutOfBoundsTimedelta.

(** [Timestamp + Timedelta], checked for overflow, and [.dt.date]. *)
Definition add_timedelta (base : date) (k : Z) : result date :=
  if in_bounds (day_number base + k) then Ok (add_days base k) else Raise OverflowError.

End Calendar.
Import Calendar.

(** ** The pipeline *)

(** The raw grid: rows of cells as pdfplumber's [extract_table] returns
    them; a cell is a string or [None]. *)
Definition cell := option pystr.
Definition raw_grid := list (list cell).

Definition SUNDAY : pystr := u "日".

(** *** Reshaper: [process_table] *)

(** A row of the long form: [number] is the position of the data row in
    the table (the index of the frame, which [reset_index] turns into a
    column), [lr_week] the label of the column the cell comes from. *)
Record long_row : Type := mklong { number : nat; lr_week : pystr; text : pystr }.

(** One row of [df.stack()]: the cells of the row paired with the column
    labels, the [None] cells left out.  Every column is stacked, the first
    one too. *)
Definition stack_row (header : list cell) (i : nat) (cells : list cell)
  : list (nat * cell * pystr) :=
  flat_map (fun hc : cell * cell =>
              match snd hc with
              | Some t => [(i, fst hc, t)]
              | None => []
              end) (combine header cells).

Fixpoint stack_from (header : list cell) (i : nat) (rows : list (list cell))
  : list (nat * cell * pystr) :=
  match rows with
  | [] => []
  | r :: rows' => stack_row header i r ++ stack_from header (S i) rows'
  end.

(** [df["week"].fillna("日")] *)
Definition fillna_week (h : cell) : pystr :=
  match h with
  | Some w => w
  | None => SUNDAY
  end.

(** The chain of string methods on [df["text"]]; the mask tests the text as
    it was before the chain. *)
Definition normalize_text (t : pystr) : option pystr :=
  let t1 := replace (u "~") (u "～") t in
  let t2 := replace (u " ") [] t1 in
  let t3 := strip t2 in
  let t4 := replace [10%N; 40%N] (u "(") t3 in
  if str_eqb t [] then None else Some t4.

(** [pd.DataFrame(table[1:], columns=table[0])] pads short rows with [None]
    and raises when the longest row and the header differ in length; an
    empty table has no header to read.  A frame without a column stacks to
    an empty column of floats, on which [.str] raises. *)
Definition process_table (table : raw_grid) : result (list long_row) :=
  match table with
  | [] => Raise IndexError
  | header :: rows =>
      let well_shaped :=
        match rows with
        | [] => true
        | _ :: _ => Nat.eqb (max_length rows) (length header)
        end in
      if well_shaped then
        match header with
        | [] => Raise AttributeError
        | _ :: _ =>
            Ok (flat_map (fun x : nat * cell * pystr =>
                            match normalize_text (snd x) with
                            | Some t => [mklong (fst (fst x)) (fillna_week (snd (fst x))) t]
                            | None => []
                            end) (stack_from header 0 rows))
        end
      else Raise ValueError
  end.

(** *** DaySplitter: [split_text] *)

Record day_row : Type := mkdayrow { dr_week : pystr; dr_day : Z; slots : list cell }.

(** The frame [split_text] returns: the columns [week], [day] and the slot
    columns 1 .. [slot_columns]; every row holds one cell per slot column. *)
Record day_frame : Type := mkdayframe { slot_columns : nat; day_rows : list day_row }.

(** The cell of column [j] of [str.split(expand=True)]: rows with fewer
    tokens are filled with [None]. *)
Definition token_at (toks : list pystr) (j : nat) : cell := nth_error toks j.

(** The first token of every row is the column 0, renamed [day]; a row
    without a token has a missing value there.  With no token at all there
    is no column to rename and [df["day"]] raises.  [pd.to_numeric] reads
    the column as a whole, the rows whose day is NaN are dropped, then the
    column is cast to [int]. *)
Definition split_text (df : list long_row) : result day_frame :=
  let toks := map (fun r => (r, split_ws (text r))) df in
  let ncols := max_length (map snd toks) in
  match ncols with
  | O => Raise KeyError
  | S k =>
      let (t, days) := to_numeric (map (fun rt => token_at (snd rt) 0) toks) in
      let kept := filter (fun x : (long_row * list pystr) * parsed => negb (isna t (snd x)))
                         (combine toks days) in
      days <- astype_int t (map snd kept) ;;
      Ok (mkdayframe k
            (map (fun x : (long_row * list pystr) * Z =>
                    mkdayrow (lr_week (fst (fst x))) (snd x)
                             (map (token_at (snd (fst x))) (seq 1 k)))
                 (combine (map fst kept) days)))
  end.

(** *** SlotExpander: [melt_and_split] *)

Record slot_row : Type :=
  mkslot { s_day : Z; s_week : pystr; s_variable : Z; s_name : pystr; s_time : cell }.

(** [pd.melt(df, id_vars=["day", "week"])]: one block per slot column, the
    rows in their order inside each block. *)
Definition melt (f : day_frame) : list (Z * pystr * Z * cell) :=
  flat_map (fun v => map (fun r => (dr_day r, dr_week r, Z.of_nat v,
                                    nth (v - 1) (slots r) None))
                         (day_rows f))
           (seq 1 (slot_columns f)).

Definition le_day_variable (a b : Z * pystr * Z * pystr) : bool :=
  let '(d1, _, v1, _) := a in
  let '(d2, _, v2, _) := b in
  ((d1 <? d2) || ((d1 =? d2) && (v1 <=? v2)))%Z.

Definition clean_time (t : pystr) : pystr :=
  replace (u ")(") (u " / ") (strip_chars (u "()") t).

(** The melted rows with a value, sorted by (day, variable), then the value
    split into name and time.  Without a slot column the value column of
    [melt] is an empty column of floats, on which [.str] raises; the
    assignment to the two columns [name] and [time] raises unless the split
    gives exactly two columns, that is unless the values have at most two
    pieces and one of them has two. *)
Definition melt_and_split (f : day_frame) : result (list slot_row) :=
  match slot_columns f with
  | O => Raise AttributeError
  | S _ =>
      let values :=
        flat_map (fun x : Z * pystr * Z * cell =>
                    let '(d, w, v, c) := x in
                    match c with
                    | Some s => [(d, w, v, s)]
                    | None => []
                    end) (melt f) in
      let sorted := sort_by le_day_variable values in
      let pieces := map (fun x : Z * pystr * Z * pystr =>
                           let '(d, w, v, s) := x in (d, w, v, re_split s)) sorted in
      if Nat.eqb (max_length (map snd pieces)) 2 then
        Ok (map (fun x : Z * pystr * Z * list pystr =>
                   let '(d, w, v, ps) := x in
                   mkslot d w v (nth 0 ps []) (option_map clean_time (nth_error ps 1)))
                pieces)
      else Raise ValueError
  end.

(** *** Filter: [filter_data] *)

Definition keep_row (r : slot_row) : bool :=
  negb (str_eqb (s_week r) SUNDAY && contains (u "歯科") (s_name r))
  && negb (str_eqb (s_name r) (u "献血") || str_eqb (s_name r) (u "市民会館前")).

Definition filter_data (df : list slot_row) : list slot_row := filter keep_row df.

(** *** Classifier: [categorize_data] *)

Record row : Type :=
  mkrow { day : Z; week : pystr; variable : Z; name : pystr; time : cell; type : Z }.

Definition island : list pystr :=
  [ u "しのざき整形外科";
    u "はかた外科胃腸科";
    u "喜多嶋診療所";
    u "斎藤クリニック";
    u "大三島中央病院";
    u "片山医院";
    u "有津むらかみクリニック" ].

Definition pediatrics : list pystr :=
  [ u "あおい小児科";
    u "丹こどもクリニック";
    u "まつうらバンビクリニック";
    u "みぶ小児科";
    u "医師会市民病院";
    u "県立今治病院";
    u "済生会今治病院" ].

(** [Series.isin] *)
Definition isin (x : pystr) (l : list pystr) : bool := existsb (str_eqb x) l.

Definition time_isna (r : row) : bool :=
  match time r with None => true | Some _ => false end.

(** [df["time"] == s]: a missing time equals no string. *)
Definition time_eq (r : row) (s : pystr) : bool :=
  match time r with None => false | Some t => str_eqb t s end.

(** One row of [Series.mask(cond, v)] on the column [type], on the column
    [time], and of [str.replace] on the column [time]. *)
Definition mask_type_row (cond : row -> bool) (v : Z) (r : row) : row :=
  if cond r then mkrow (day r) (week r) (variable r) (name r) (time r) v else r.

Definition mask_time_row (cond : row -> bool) (s : pystr) (r : row) : row :=
  if cond r then mkrow (day r) (week r) (variable r) (name r) (Some s) (type r) else r.

Definition replace_time_row (old new : pystr) (r : row) : row :=
  mkrow (day r) (week r) (variable r) (name r)
        (option_map (replace old new) (time r)) (type r).

(** [df["type"] = df["type"].mask(cond, v)] *)
Definition mask_type (cond : row -> bool) (v : Z) (df : list row) : list row :=
  map (mask_type_row cond v) df.

(** [df["time"] = df["time"].mask(cond, s)] *)
Definition mask_time (cond : row -> bool) (s : pystr) (df : list row) : list row :=
  map (mask_time_row cond s) df.

(** [df["time"] = df["time"].str.replace(old, new)] *)
Definition replace_time (old new : pystr) (df : list row) : list row :=
  map (replace_time_row old new) df.

Definition T_PEDIATRIC : pystr := u "09:00～12:00 / 14:00～17:00".

Local Open Scope Z_scope.

(** The conditions of the masks, in the order of the source.  A missing
    time is the empty string for rule 3 ([fillna("")]). *)
Definition rule2 (r : row) : bool := isin (name r) island.

Definition rule3 (r : row) : bool :=
  (1 <? variable r) && isin (name r) pediatrics
  && negb (contains (u "翌") (match time r with Some t => t | None => [] end)).

Definition rule4 (r : row) : bool := time_isna r && (type r =? 7).

Definition rule5 (r : row) : bool := time_isna r && (type r =? 9).

Definition rule6 (r : row) : bool := time_isna r && (variable r =? 1).

Definition rule7 (r : row) : bool := type r =? 0.

Definition rule9 (r : row) : bool :=
  (variable r =? 1) && (type r =? 8) && time_eq r (u "08:30～17:30").

Definition rule10 (r : row) : bool :=
  (variable r =? 2) && (type r =? 8) && time_eq r (u "17:30～翌08:30").

Definition rule11 (r : row) : bool :=
  (variable r =? 1) && (type r =? 8)
  && time_eq r (u "08:30～17:15 / 22:30～翌08:30")
  && str_eqb (name r) (u "県立今治病院").

Definition rule12 (r : row) : bool :=
  (variable r =? 2) && (type r =? 8)
  && time_eq r (u "17:15～22:30")
  && str_eqb (name r) (u "今治セントラルクリニック").

(** [df["type"] = 8] *)
Definition rule1 (r : slot_row) : row :=
  mkrow (s_day r) (s_week r) (s_variable r) (s_name r) (s_time r) 8.

Definition categorize_data (df0 : list slot_row) : list row :=
  let df := map rule1 df0 in
  let df := mask_type rule2 9 df in
  let df := mask_type rule3 7 df in
  let df := mask_time rule4 T_PEDIATRIC df in
  let df := mask_time rule5 (u "09:00～17:00") df in
  let df := mask_type rule6 0 df in
  let df := mask_time rule7 (u "8:30～翌8:30") df in
  let df := replace_time (u "8:30") (u "08:30") df in
  let df := mask_type rule9 1 df in
  let df := mask_type rule10 2 df in
  let df := mask_type rule11 3 df in
  let df := mask_type rule12 4 df in
  df.

(** The same steps on one row: every step of [categorize_data] works row
    by row.  [before_padding] is the row when the zero-padding step runs. *)
Definition before_padding (r : slot_row) : row :=
  mask_time_row rule7 (u "8:30～翌8:30")
    (mask_type_row rule6 0
       (mask_time_row rule5 (u "09:00～17:00")
          (mask_time_row rule4 T_PEDIATRIC
             (mask_type_row rule3 7 (mask_type_row rule2 9 (rule1 r)))))).

Definition after_padding (r : row) : row :=
  mask_type_row rule12 4
    (mask_type_row rule11 3 (mask_type_row rule10 2 (mask_type_row rule9 1 r))).

Definition categorize_row (r : slot_row) : row :=
  after_padding (replace_time_row (u "8:30") (u "08:30") (before_padding r)).

(** *** GapFiller: [add_missing_rows] *)

Definition HOSPITAL : pystr := u "医師会市民病院".

Definition le_day_variable_type (a b : row) : bool :=
  (day a <? day b)
  || ((day a =? day b)
      && ((variable a <? variable b)
          || ((variable a =? variable b) && (type a <=? type b)))).

Definition new_rows_for (d : Z) : list row :=
  [ mkrow d SUNDAY 1 HOSPITAL (Some (u "09:00～17:30")) 6;
    mkrow d SUNDAY 1 HOSPITAL (Some T_PEDIATRIC) 7 ].

(** The row the GapFiller looks for, and the island row of slot 2. *)
Definition is_gap_row (r : row) : bool :=
  str_eqb (week r) SUNDAY && (variable r =? 1)
  && str_eqb (name r) HOSPITAL && (type r =? 0).

Definition filtered_days (df : list row) : list Z :=
  map day (filter is_gap_row df).

Definition island_days (df : list row) : list Z :=
  map day (filter (fun r => existsb (Z.eqb (day r)) (filtered_days df)
                            && (variable r =? 2) && (type r =? 9)) df).

Definition add_missing_rows (df : list row) : list row :=
  let new_rows := flat_map new_rows_for (island_days df) in
  sort_by le_day_variable_type (df ++ new_rows).

(** *** DateResolver and the whole of [load_data] after the table is read *)

Record schedule_record : Type :=
  mkrecord { date : Calendar.date; r_name : pystr; r_type : Z; r_time : cell }.

Definition resolve_dates (ym : year_month) (df : list row) : result (list schedule_record) :=
  base <- to_datetime ym ;;
  deltas <- mapM (fun r => to_timedelta (day r - 1)) df ;;
  dates <- mapM (add_timedelta base) deltas ;;
  Ok (map (fun rd : row * Calendar.date =>
             mkrecord (snd rd) (name (fst rd)) (type (fst rd)) (time (fst rd)))
          (combine df dates)).

Definition load_data (table : raw_grid) (ym : year_month) : result (list schedule_record) :=
  df <- process_table table ;;
  df <- split_text df ;;
  df <- melt_and_split df ;;
  let df := filter_data df in
  let df := categorize_data df in
  let df := add_missing_rows df in
  resolve_dates ym df.

(** The stages up to the SlotExpander, and up to the Classifier. *)
Definition slot_rows (table : raw_grid) : result (list slot_row) :=
  df <- process_table table ;;
  df <- split_text df ;;
  melt_and_split df.

Definition classify (table : raw_grid) : result (list row) :=
  df <- slot_rows table ;;
  Ok (categorize_data (filter_data df)).

(** ** Running the pipeline on sample grids *)

Definition header_week : list cell :=
  map (fun s => Some s) [u ""; u "月"; u "火"; u "水"; u "木"; u "金"; u "土"; u "日"].

Definition NL : pystr := [10%N].

(** The grid of the scenario, tokens separated by spaces. *)
Definition scenario_grid : raw_grid :=
  [ header_week;
    map (fun s => Some s)
      [u "1"; u "1 A病院(08:30～17:30) B病院(17:30～翌08:30)"; u ""; u ""; u ""; u ""; u ""; u ""] ].

(** The same cell as the published table has it: tokens on lines of their
    own, hours without a leading zero. *)
Definition scenario_grid_lines : raw_grid :=
  [ header_week;
    map (fun s => Some s)
      [u "1"; join NL [u "1"; u "A病院(8:30～17:30)"; u "B病院(17:30～翌8:30)"];
       u ""; u ""; u ""; u ""; u ""; u ""] ].

Definition june_2024 : year_month := mkym 2024 6.

(** ** Definitions used in the statements *)

(** The zero-padding step of the Classifier on one time. *)
Definition zero_pad (t : pystr) : pystr := replace (u "8:30") (u "08:30") t.

(** The record of a row, and the condition under which its date is inside
    the time range. *)
Definition record_of (base : Calendar.date) (r : row) : schedule_record :=
  mkrecord (add_days base (day r - 1)) (name r) (type r) (time r).

Definition day_in_range (base : Calendar.date) (r : row) : bool :=
  in_bounds (day r - 1) && in_bounds (day_number base + (day r - 1)).

(** The two records of the scenario. *)
Definition scenario_records : list schedule_record :=
  [ mkrecord (mkdate 2024 6 1) (u "A病院") 1 (Some (u "08:30～17:30"));
    mkrecord (mkdate 2024 6 1) (u "B病院") 2 (Some (u "17:30～翌08:30")) ].

(** The cell with its tokens on lines of their own and the hours already
    zero-padded. *)
Definition scenario_grid_padded : raw_grid :=
  [ header_week;
    map (fun s => Some s)
      [u "1"; join NL [u "1"; u "A病院(08:30～17:30)"; u "B病院(17:30～翌08:30)"];
       u ""; u ""; u ""; u ""; u ""; u ""] ].

(** The condition of the Filter in the words of the specification. *)
Definition dropped (r : slot_row) : Prop :=
  (s_week r = SUNDAY /\ exists a b, s_name r = a ++ u "歯科" ++ b)
  \/ (s_name r = u "献血" \/ s_name r = u "市民会館前").

(** The duty-category codes of the table of the specification. *)
Definition type_codes : list Z := [0; 1; 2; 3; 4; 6; 7; 8; 9].

(** The times the rules 9 to 12 compare with. *)
Definition fixed_schedule_times : list pystr :=
  [ u "08:30～17:30"; u "17:30～翌08:30"; u "08:30～17:15 / 22:30～翌08:30"; u "17:15～22:30" ].

(** A grid whose only slot has the time "8:38:30". *)
Definition unpadded_grid : raw_grid :=
  [ header_week;
    map (fun s => Some s)
      [u ""; join NL [u "1"; u "A病院(8:38:30)"]; u ""; u ""; u ""; u ""; u ""; u ""] ].

(** A grid with two cells for day 7: the Sunday cell with the hospital
    without hours and an island facility, the Monday cell with another
    island facility in its second slot. *)
Definition gap_grid : raw_grid :=
  [ header_week;
    map (fun s => Some s)
      [u ""; join NL [u "7"; u "A病院(8:30～17:30)"; u "片山医院"];
       u ""; u ""; u ""; u ""; u "";
       join NL [u "7"; u "医師会市民病院"; u "喜多嶋診療所"]] ].

(** What the loop of [pd.to_numeric] keeps of the first token of a row,
    and the dtype of the day column of a frame. *)
Definition first_token_parse (lr : long_row) : parsed :=
  parse_value (token_at (split_ws (text lr)) 0).

Definition day_dtype (df : list long_row) : dtype :=
  infer_dtype (map first_token_parse df).

(** The day the cast gives a value of a column of dtype [t]. *)
Definition cast_day (t : dtype) (p : parsed) : Z :=
  match t with
  | Int64 => int_of p
  | UInt64 => wrap64 (int_of p)
  | Float64 => float_to_int64 (float_of p)
  end.

(** The rows the DaySplitter keeps: those whose first token is read as a
    number. *)
Definition is_kept (lr : long_row) : bool :=
  match first_token_parse lr with PNull => false | _ => true end.

(** The row [dr] is the row [lr] kept by the DaySplitter, with [k] slot
    columns. *)
Definition kept_as (k : nat) (lr : long_row) (dr : day_row) : Prop :=
  dr_week dr = lr_week lr
  /\ slots dr = map (token_at (split_ws (text lr))) (seq 1 k).

(** Three rows: a day out of range, a legend, a day with two slots. *)
Definition split_text_sample : list long_row :=
  [ mklong 0 (u "月") (join NL [u "32"; u "A病院(8:30～17:30)"]);
    mklong 0 (u "火") (u "凡例");
    mklong 1 (u "月") (join NL [u "7"; u "B病院"; u "C病院(17:30～翌8:30)"]) ].

(** Months counted from the year 0. *)
Definition month_index (d : Calendar.date) : Z := (12 * year d + month d)%Z.

Definition valid_month (d : Calendar.date) : Prop := (1 <= month d <= 12)%Z.

(** A grid with a cell for day 31. *)
Definition overflow_grid : raw_grid :=
  [ header_week;
    map (fun s => Some s)
      [u ""; join NL [u "31"; u "A病院(8:30～17:30)"]; u ""; u ""; u ""; u ""; u ""; u ""] ].

(** ** Definitions for the further properties *)

(** [s.split(sep)] for a separator of one character: the pieces between
    the separators, empty ones included; there is always one piece. *)
Fixpoint split_char_from (sep : N) (cur : pystr) (s : pystr) : list pystr :=
  match s with
  | [] => [rev cur]
  | c :: s' =>
      if (c =? sep)%N
      then rev cur :: split_char_from sep [] s'
      else split_char_from sep (c :: cur) s'
  end.

Definition split_char (sep : N) (s : pystr) : list pystr := split_char_from sep [] s.

(** The year-month of [load_data]:
    [urlparse(response.url).path.strip("/").split("/")[-1]], from the path of
    the address. *)
Definition yyyymm_of_path (path : pystr) : pystr :=
  last (split_char 47 (strip_chars (u "/") path)) [].

(** The row [process_table] makes of the cell of data row [i] and column
    [j]: none for a missing cell or the empty string. *)
Definition row_of_cell (header : list cell) (rows : list (list cell)) (i j : nat)
  : list long_row :=
  match nth_error rows i with
  | Some cells =>
      match nth_error header j, nth_error cells j with
      | Some h, Some (Some t) =>
          match normalize_text t with
          | Some t' => [mklong i (fillna_week h) t']
          | None => []
          end
      | _, _ => []
      end
  | None => []
  end.

(** A string without white space. *)
Definition no_space (t : pystr) : bool := forallb (fun c => negb (isspace c)) t.

(** A token as [str.split()] returns them. *)
Definition is_token (t : pystr) : Prop := t <> [] /\ no_space t = true.



(** The key [sort_values] compares in [melt_and_split]. *)
Definition le_slot (a b : slot_row) : bool :=
  ((s_day a <? s_day b) || ((s_day a =? s_day b) && (s_variable a <=? s_variable b)))%Z.

(** The melted rows that hold a value: [pd.melt(...).dropna(subset="value")]. *)
Definition melted_values (f : day_frame) : list (Z * pystr * Z * pystr) :=
  flat_map (fun x : Z * pystr * Z * cell =>
              let '(d, w, v, c) := x in
              match c with
              | Some s => [(d, w, v, s)]
              | None => []
              end) (melt f).

(** The row made of one melted value: the value split into name and time. *)
Definition slot_of_value (x : Z * pystr * Z * pystr) : slot_row :=
  let '(d, w, v, s) := x in
  mkslot d w v (nth 0 (re_split s) []) (option_map clean_time (nth_error (re_split s) 1)).

(** The Classifier as one decision per row.  [type_table] reads the code of
    a row off its slot, name and time; [time_table] its time. *)
Definition type_table (r : slot_row) : Z :=
  if rule3 (rule1 r) then 7
  else if isin (s_name r) island then 9
  else match s_time r with
       | None => if (s_variable r =? 1)%Z then 0 else 8
       | Some t =>
           if (s_variable r =? 1)%Z && str_eqb (zero_pad t) (u "08:30～17:30") then 1
           else if (s_variable r =? 2)%Z && str_eqb (zero_pad t) (u "17:30～翌08:30") then 2
           else if (s_variable r =? 1)%Z
                   && str_eqb (zero_pad t) (u "08:30～17:15 / 22:30～翌08:30")
                   && str_eqb (s_name r) (u "県立今治病院") then 3
           else if (s_variable r =? 2)%Z
                   && str_eqb (zero_pad t) (u "17:15～22:30")
                   && str_eqb (s_name r) (u "今治セントラルクリニック") then 4
           else 8
       end%Z.

Definition time_table (r : slot_row) : cell :=
  match s_time r with
  | Some t => Some (zero_pad t)
  | None =>
      if rule3 (rule1 r) then Some T_PEDIATRIC
      else if isin (s_name r) island then Some (u "09:00～17:00")
      else if (s_variable r =? 1)%Z then Some (u "08:30～翌08:30")
      else None
  end.

(** The order by (day, variable) on classified rows. *)
Definition le_row (a b : row) : bool :=
  ((day a <? day b) || ((day a =? day b) && (variable a <=? variable b)))%Z.

(** The rows of a frame with the sort key [(d, v, t)]. *)
Definition has_key (d v t : Z) (r : row) : bool :=
  ((day r =? d) && (variable r =? v) && (type r =? t))%Z.

(** A week as the published table prints it: a weekday cell with a
    hospital of two shifts, an evening clinic and a pediatric clinic, and a
    Sunday cell with the hospital without hours, an island facility, a
    dentist and the blood donation. *)
Definition sample_grid : raw_grid :=
  [ header_week;
    map (fun s => Some s)
      [ u "";
        join NL [u "3"; u "県立今治病院(8:30～17:15)(22:30～翌8:30)";
                 u "今治セントラルクリニック(17:15～22:30)"; u "あおい小児科"];
        u ""; u ""; u ""; u ""; u "";
        join NL [u "7"; u "医師会市民病院"; u "喜多嶋診療所";
                 u "歯科医院(09:00～12:00)"; u "献血"] ] ].

(** * Properties *)

Example sample_grid_records :
  load_data sample_grid june_2024
  = Ok [ mkrecord (mkdate 2024 6 3) (u "県立今治病院") 3
                  (Some (u "08:30～17:15 / 22:30～翌08:30"));
         mkrecord (mkdate 2024 6 3) (u "今治セントラルクリニック") 4 (Some (u "17:15～22:30"));
         mkrecord (mkdate 2024 6 3) (u "あおい小児科") 7 (Some T_PEDIATRIC);
         mkrecord (mkdate 2024 6 7) (u "医師会市民病院") 0 (Some (u "08:30～翌08:30"));
         mkrecord (mkdate 2024 6 7) (u "医師会市民病院") 6 (Some (u "09:00～17:30"));
         mkrecord (mkdate 2024 6 7) (u "医師会市民病院") 7 (Some T_PEDIATRIC);
         mkrecord (mkdate 2024 6 7) (u "喜多嶋診療所") 9 (Some (u "09:00～17:00")) ].
Proof. vm_compute. reflexivity. Qed.

Example parse_value_examples :
  map (fun t => parse_value (Some t))
      [u "1"; u "31"; u "-2"; u "1.5"; u "1e2"; u "A病院"; u "1A"; u "."; u "inf"; u "1e400"]
  = [PInt 1 (FFin 1 0); PInt 31 (FFin 31 0); PInt (-2) (FFin (-2) 0);
     PFloat (FFin 6755399441055744 (-52)); PFloat (FFin 100 0);
     PNull; PNull; PNull; PFloat (FInf false); PNull].
Proof. vm_compute. reflexivity. Qed.

(** One row with the day 2^63: the column is uint64 and the cast wraps.
    With a second row that is no number the column is float64: the day
    9007199254740993 is rounded. *)
Example split_text_large_days :
  split_text [mklong 0 (u "月") (u "9223372036854775808 A病院(8:30～17:30)")]
  = Ok (mkdayframe 1 [mkdayrow (u "月") (- 2 ^ 63) [Some (u "A病院(8:30～17:30)")]])
  /\ split_text [mklong 0 (u "月") (u "9007199254740993 A病院(8:30～17:30)");
                 mklong 0 (u "火") (u "凡例")]
     = Ok (mkdayframe 1 [mkdayrow (u "月") 9007199254740992 [Some (u "A病院(8:30～17:30)")]]).
Proof. split; vm_compute; reflexivity. Qed.


(** ** Strings *)

Section StrFacts.

Lemma str_eqb_eq (a b : pystr) : str_eqb a b = true <-> a = b.
Proof.
  revert b; induction a as [|x a IH]; intros [|y b]; simpl; split;
    try discriminate; try reflexivity.
  - intros H. apply andb_true_iff in H as [H1 H2].
    apply N.eqb_eq in H1. apply IH in H2. congruence.
  - intros H. injection H as -> ->. rewrite N.eqb_refl. simpl. now apply IH.
Qed.

Lemma str_eqb_neq (a b : pystr) : str_eqb a b = false <-> a <> b.
Proof.
  split.
  - intros H E. apply str_eqb_eq in E. congruence.
  - intros H. destruct (str_eqb a b) eqn:E; [|reflexivity].
    apply str_eqb_eq in E. contradiction.
Qed.

Lemma startswith_spec (p s : pystr) :
  startswith p s = true <-> exists r, s = p ++ r.
Proof.
  revert s; induction p as [|x p IH]; intros s; simpl.
  - split; [intros _; now exists s | reflexivity].
  - destruct s as [|y s].
    + split; [discriminate | intros [r H]; discriminate].
    + rewrite andb_true_iff, N.eqb_eq, IH. split.
      * intros [-> [r ->]]. now exists r.
      * intros [r H]. injection H as -> ->. split; [reflexivity | now exists r].
Qed.

Lemma contains_spec (p s : pystr) :
  contains p s = true <-> exists a b, s = a ++ p ++ b.
Proof.
  induction s as [|c s IH].
  - simpl. rewrite orb_false_r, startswith_spec. split.
    + intros [r H]. exists [], r. exact H.
    + intros [a [b H]]. destruct a; [now exists b | discriminate].
  - cbn [contains]. rewrite orb_true_iff, startswith_spec, IH. split.
    + intros [[r H] | [a [b H]]].
      * exists [], r. exact H.
      * exists (c :: a), b. now rewrite H.
    + intros [[|x a] [b H]].
      * left. now exists b.
      * right. injection H as -> ->. now exists a, b.
Qed.

Lemma replace_from_skipn (old new : pystr) (k : nat) (s : pystr) :
  replace_from old new k s = replace_from old new 0 (skipn k s).
Proof.
  revert k; induction s as [|c s IH]; intros [|k]; try reflexivity.
  cbn [replace_from skipn]. apply IH.
Qed.

(** The two equations of [replace] for a pattern that is not empty. *)
Lemma replace_match (o : N) (old new r : pystr) :
  replace (o :: old) new ((o :: old) ++ r) = new ++ replace (o :: old) new r.
Proof.
  unfold replace. cbn [app replace_from].
  replace (startswith (o :: old) (o :: old ++ r)) with true.
  2:{ symmetry. apply startswith_spec. now exists r. }
  f_equal. rewrite replace_from_skipn. f_equal.
  replace (length (o :: old) - 1)%nat with (length old) by (simpl; lia).
  rewrite skipn_app, skipn_all, Nat.sub_diag. reflexivity.
Qed.

Lemma replace_nomatch (o : N) (old new : pystr) (c : N) (s : pystr) :
  startswith (o :: old) (c :: s) = false ->
  replace (o :: old) new (c :: s) = c :: replace (o :: old) new s.
Proof.
  intros H. unfold replace. cbn [replace_from]. now rewrite H.
Qed.

End StrFacts.

(** ** The zero-padding step, [str.replace("8:30", "08:30")] *)

Section ZeroPad.

Local Open Scope N_scope.

Local Notation "'PAT'" := [56; 58; 51; 48].
Local Notation "'PADDED'" := [48; 56; 58; 51; 48].

Lemma zero_pad_nil : zero_pad [] = [].
Proof. reflexivity. Qed.

Lemma zero_pad_match (r : pystr) : zero_pad (PAT ++ r) = PADDED ++ zero_pad r.
Proof. apply (replace_match 56 [58; 51; 48] PADDED r). Qed.

Lemma zero_pad_cons (c : N) (s : pystr) :
  startswith PAT (c :: s) = false -> zero_pad (c :: s) = c :: zero_pad s.
Proof. apply (replace_nomatch 56 [58; 51; 48] PADDED c s). Qed.

(** How a string starts decides the first step of the rewriting. *)
Lemma zero_pad_cases (s : pystr) :
  s = [] \/
  (exists r, s = PAT ++ r /\ zero_pad s = PADDED ++ zero_pad r) \/
  (exists c s', s = c :: s' /\ startswith PAT s = false /\ zero_pad s = c :: zero_pad s').
Proof.
  destruct s as [|c s']; [now left | right].
  destruct (startswith PAT (c :: s')) eqn:E.
  - left. apply startswith_spec in E as [r Hr]. exists r. split; [exact Hr|].
    rewrite Hr. apply zero_pad_match.
  - right. exists c, s'. split; [reflexivity|]. split; [reflexivity|]. now apply zero_pad_cons.
Qed.

Lemma startswith_PAT (r : pystr) : startswith PAT (PAT ++ r) = true.
Proof. apply startswith_spec. now exists r. Qed.

(** Occurrences of the pattern do not overlap, so the rewriting of a string
    that holds the pattern splits at that occurrence. *)
Lemma zero_pad_app (a b : pystr) :
  zero_pad (a ++ PAT ++ b) = zero_pad a ++ PADDED ++ zero_pad b.
Proof.
  remember (length a) as n eqn:Hn. revert a Hn.
  induction n as [n IH] using lt_wf_ind. intros a Hn.
  destruct (zero_pad_cases a) as [-> | [[r [-> Hr]] | [c [a' [-> [E Hc]]]]]].
  - apply zero_pad_match.
  - rewrite Hr, <- !app_assoc, zero_pad_match.
    rewrite (IH (length r)) with (a := r); [reflexivity | | reflexivity].
    subst n. rewrite length_app. simpl. lia.
  - rewrite Hc.
    change ((c :: a') ++ PAT ++ b) with (c :: (a' ++ PAT ++ b)).
    change ((c :: zero_pad a') ++ PADDED ++ zero_pad b)
      with (c :: (zero_pad a' ++ PADDED ++ zero_pad b)).
    rewrite zero_pad_cons.
    + rewrite (IH (length a')) with (a := a'); [reflexivity | | reflexivity].
      subst n. simpl. lia.
    + destruct (startswith PAT (c :: a' ++ PAT ++ b)) eqn:E'; [|reflexivity].
      exfalso. apply startswith_spec in E' as [r Hr].
      destruct a' as [|c1 [|c2 [|c3 a3]]]; cbn [app] in Hr; try congruence.
      injection Hr as -> -> -> -> _. now vm_compute in E.
Qed.

(** After the rewriting, a string that ended in "0" still does. *)
Lemma zero_pad_last_zero (a : pystr) :
  exists a', zero_pad (a ++ [48]) = a' ++ [48].
Proof.
  remember (length a) as n eqn:Hn. revert a Hn.
  induction n as [n IH] using lt_wf_ind. intros a Hn.
  destruct (zero_pad_cases (a ++ [48])) as [H | [[r [H Hr]] | [c [s' [H [E Hc]]]]]].
  - destruct a; discriminate.
  - rewrite Hr.
    destruct a as [|c0 [|c1 [|c2 [|c3 a4]]]]; cbn [app] in H; try congruence.
    + injection H as _ _ _ <-. now exists [48; 56; 58; 51].
    + injection H as -> -> -> -> <-.
      destruct (IH (length a4)) with (a := a4) as [a' Ha']; [subst n; simpl; lia | reflexivity |].
      rewrite Ha'. exists (PADDED ++ a'). now rewrite <- app_assoc.
  - rewrite Hc. destruct a as [|c0 a0]; cbn [app] in H.
    + injection H as <- <-. now exists [].
    + injection H as <- <-.
      destruct (IH (length a0)) with (a := a0) as [a' Ha']; [subst n; simpl; lia | reflexivity |].
      rewrite Ha'. now exists (c0 :: a').
Qed.

(** An occurrence of "8:30" in a rewritten string either follows a "0" or
    is made of "8:3" and the "0" put before the next occurrence. *)
Lemma zero_pad_occurrence (s pre post : pystr) :
  zero_pad s = pre ++ PAT ++ post ->
  (exists pre', pre = pre' ++ [48]) \/ (exists post', post = PAT ++ post').
Proof.
  remember (length s) as n eqn:Hn. revert s pre post Hn.
  induction n as [n IH] using lt_wf_ind. intros s pre post Hn H.
  destruct (zero_pad_cases s) as [-> | [[r [-> Hr]] | [c [s' [-> [E Hc]]]]]].
  - rewrite zero_pad_nil in H. destruct pre; discriminate.
  - rewrite Hr in H.
    destruct pre as [|p0 [|p1 [|p2 [|p3 [|p4 pre5]]]]]; cbn [app] in H; try congruence.
    + left. exists []. cbn. congruence.
    + injection H as <- <- <- <- <- H.
      destruct (IH (length r)) with (s := r) (pre := pre5) (post := post)
        as [[pre' ->] | Hpost]; [subst n; rewrite length_app; simpl; lia | reflexivity | exact H | |].
      * left. exists ([48; 56; 58; 51; 48] ++ pre'). reflexivity.
      * now right.
  - rewrite Hc in H. destruct pre as [|p0 pre1]; cbn [app] in H.
    + right. injection H as -> H.
      destruct (zero_pad_cases s') as [-> | [[r1 [-> Hr1]] | [c1 [s1 [-> [E1 Hc1]]]]]];
        [discriminate | rewrite Hr1 in H; discriminate | rewrite Hc1 in H].
      injection H as -> H.
      destruct (zero_pad_cases s1) as [-> | [[r2 [-> Hr2]] | [c2 [s2 [-> [E2 Hc2]]]]]];
        [discriminate | rewrite Hr2 in H; discriminate | rewrite Hc2 in H].
      injection H as -> H.
      destruct (zero_pad_cases s2) as [-> | [[r3 [-> Hr3]] | [c3 [s3 [-> [E3 Hc3]]]]]];
        [discriminate | rewrite Hr3 in H | rewrite Hc3 in H].
      * injection H as <-. now exists (zero_pad r3).
      * injection H as -> _. now vm_compute in E.
    + injection H as <- H.
      destruct (IH (length s')) with (s := s') (pre := pre1) (post := post)
        as [[pre' ->] | Hpost]; [subst n; simpl; lia | reflexivity | exact H | |].
      * left. now exists (c :: pre').
      * now right.
Qed.

End ZeroPad.

(** ** Sorting *)

Section SortFacts.
Variable A : Type.
Variable le : A -> A -> bool.

Lemma insert_by_perm (x : A) (l : list A) :
  Permutation (insert_by le x l) (x :: l).
Proof.
  induction l as [|y l IH]; simpl; [reflexivity|].
  destruct (le x y); [reflexivity|].
  rewrite IH. apply perm_swap.
Qed.

Lemma sort_by_perm (l : list A) : Permutation (sort_by le l) l.
Proof.
  induction l as [|x l IH]; simpl; [reflexivity|].
  rewrite insert_by_perm. now constructor.
Qed.

Lemma sort_by_In (x : A) (l : list A) : In x (sort_by le l) <-> In x l.
Proof.
  split; apply Permutation_in; [|symmetry]; apply sort_by_perm.
Qed.

Lemma sort_by_length (l : list A) : length (sort_by le l) = length l.
Proof. apply Permutation_length, sort_by_perm. Qed.

Hypothesis le_total : forall a b, le a b = false -> le b a = true.

Lemma insert_by_sorted (x : A) (l : list A) :
  Sorted (fun a b => le a b = true) l ->
  Sorted (fun a b => le a b = true) (insert_by le x l).
Proof.
  induction 1 as [|y l Hs IH Hd]; simpl.
  - repeat constructor.
  - destruct (le x y) eqn:E.
    + constructor; [now constructor | now constructor].
    + constructor; [exact IH|].
      destruct l as [|z l]; simpl.
      * constructor. now apply le_total.
      * destruct (le x z); constructor; [now apply le_total | now inversion Hd].
Qed.

Lemma sort_by_sorted (l : list A) :
  Sorted (fun a b => le a b = true) (sort_by le l).
Proof.
  induction l as [|x l IH]; simpl; [constructor | now apply insert_by_sorted].
Qed.

Hypothesis le_trans : forall a b c, le a b = true -> le b c = true -> le a c = true.

Lemma sort_by_strongly_sorted (l : list A) :
  StronglySorted (fun a b => le a b = true) (sort_by le l).
Proof.
  apply Sorted_StronglySorted; [|apply sort_by_sorted].
  intros a b c. apply le_trans.
Qed.
End SortFacts.

(** ** Exceptions and columns *)

Lemma mapM_ok {A B : Type} (f : A -> result B) (l : list A) (out : list B) :
  mapM f l = Ok out <-> Forall2 (fun x y => f x = Ok y) l out.
Proof.
  revert out; induction l as [|x l IH]; intros out; simpl.
  - split.
    + intros H. injection H as <-. constructor.
    + intros H. now inversion H.
  - destruct (f x) as [y|e] eqn:Ex; simpl.
    + destruct (mapM f l) as [ys|e] eqn:El; simpl.
      * split.
        -- intros H. injection H as <-. constructor; [exact Ex | now apply IH].
        -- intros H. inversion H as [|? y' ? ys' Hy Hys]; subst.
           apply IH in Hys. congruence.
      * split; [discriminate|].
        intros H. inversion H as [|? y' ? ys' Hy Hys]; subst.
        apply IH in Hys. discriminate.
    + split; [discriminate|].
      intros H. inversion H; subst. congruence.
Qed.

(** ** The date resolver *)

Lemma mapM_to_timedelta (df : list row) :
  forallb (fun r => in_bounds (day r - 1)) df = true ->
  mapM (fun r => to_timedelta (day r - 1)) df = Ok (map (fun r => day r - 1) df).
Proof.
  induction df as [|r df IH]; simpl; [reflexivity|].
  intros H. apply andb_true_iff in H as [H1 H2].
  unfold to_timedelta at 1. rewrite H1. simpl. now rewrite IH.
Qed.

Lemma mapM_add_timedelta (base : Calendar.date) (l : list Z) :
  forallb (fun k => in_bounds (day_number base + k)) l = true ->
  mapM (add_timedelta base) l = Ok (map (add_days base) l).
Proof.
  induction l as [|k l IH]; cbn [forallb mapM map]; [reflexivity|].
  intros H. apply andb_true_iff in H as [H1 H2].
  unfold add_timedelta at 1. rewrite H1. cbn [bind]. now rewrite IH.
Qed.

Lemma resolve_dates_ok (ym : year_month) (base : Calendar.date) (df : list row) :
  to_datetime ym = Ok base ->
  forallb (day_in_range base) df = true ->
  resolve_dates ym df = Ok (map (record_of base) df).
Proof.
  intros Hb Hr. unfold resolve_dates. rewrite Hb. cbn [bind].
  rewrite mapM_to_timedelta.
  2:{ rewrite forallb_forall in *. intros r Hin. specialize (Hr r Hin).
      unfold day_in_range in Hr. now apply andb_true_iff in Hr. }
  cbn [bind]. rewrite mapM_add_timedelta.
  2:{ rewrite forallb_forall in *. intros k Hin. apply in_map_iff in Hin as [r [<- Hin]].
      specialize (Hr r Hin). unfold day_in_range in Hr. now apply andb_true_iff in Hr. }
  cbn [bind]. f_equal. clear Hr.
  induction df as [|r df IH]; [reflexivity|].
  cbn [map combine fst snd]. f_equal. exact IH.
Qed.

Lemma mapM_to_timedelta_inv (df : list row) (out : list Z) :
  mapM (fun r => to_timedelta (day r - 1)) df = Ok out ->
  forallb (fun r => in_bounds (day r - 1)) df = true /\ out = map (fun r => day r - 1) df.
Proof.
  rewrite mapM_ok. induction 1 as [|r k df out H _ [IH1 IH2]]; simpl; [now split|].
  unfold to_timedelta in H. destruct (in_bounds (day r - 1)); [|discriminate].
  injection H as <-. now subst.
Qed.

Lemma mapM_add_timedelta_inv (base : Calendar.date) (l : list Z) (out : list Calendar.date) :
  mapM (add_timedelta base) l = Ok out ->
  forallb (fun k => in_bounds (day_number base + k)) l = true
  /\ out = map (add_days base) l.
Proof.
  rewrite mapM_ok. induction 1 as [|k n l out H _ [IH1 IH2]]; cbn [forallb map]; [now split|].
  unfold add_timedelta in H. destruct (in_bounds (day_number base + k)); [|discriminate].
  injection H as <-. now subst.
Qed.

Lemma resolve_dates_inv (ym : year_month) (df : list row) (out : list schedule_record) :
  resolve_dates ym df = Ok out ->
  exists base, to_datetime ym = Ok base
               /\ forallb (day_in_range base) df = true
               /\ out = map (record_of base) df.
Proof.
  unfold resolve_dates. destruct (to_datetime ym) as [base|e] eqn:Hb; [|discriminate].
  cbn [bind]. destruct (mapM _ df) as [deltas|e] eqn:Hd; [|discriminate]. cbn [bind].
  destruct (mapM _ deltas) as [dates|e] eqn:Hs; [|discriminate]. cbn [bind].
  intros H. injection H as <-.
  apply mapM_to_timedelta_inv in Hd as [Hd1 ->].
  apply mapM_add_timedelta_inv in Hs as [Hs1 ->].
  assert (Hr : forallb (day_in_range base) df = true).
  { rewrite forallb_forall in *. intros r Hin. unfold day_in_range.
    rewrite (Hd1 r Hin). apply (Hs1 (day r - 1)). apply in_map_iff. now exists r. }
  exists base. repeat split; [exact Hr|].
  clear. induction df as [|r df IH]; [reflexivity|].
  cbn [map combine fst snd]. f_equal. exact IH.
Qed.

Lemma load_data_eq (table : raw_grid) (ym : year_month) :
  load_data table ym =
  (df <- classify table ;; resolve_dates ym (add_missing_rows df)).
Proof.
  unfold load_data, classify, slot_rows.
  destruct (process_table table) as [d1|e]; [simpl|reflexivity].
  destruct (split_text d1) as [d2|e]; [simpl|reflexivity].
  destruct (melt_and_split d2) as [d3|e]; reflexivity.
Qed.

Lemma categorize_data_map (df : list slot_row) :
  categorize_data df = map categorize_row df.
Proof.
  unfold categorize_data, mask_type, mask_time, replace_time. cbv zeta.
  rewrite !map_map. apply map_ext. intros r.
  unfold categorize_row, after_padding, before_padding. reflexivity.
Qed.

(** ** The scenario of the two hospitals (C1) *)

(** C1, as stated, fails: on the grid of the scenario [process_table]
    removes the spaces, the cell is one token that is no day number, only
    the bare "1" of the first column is left and it has no slot; the
    pipeline raises and produces no record. *)
Lemma scenario_grid_raises :
  (df <- process_table scenario_grid ;; split_text df)
    = Ok (mkdayframe 0 [mkdayrow (u "") 1 []])
  /\ load_data scenario_grid june_2024 = Raise AttributeError
  /\ load_data scenario_grid june_2024 <> Ok scenario_records.
Proof.
  assert (H : load_data scenario_grid june_2024 = Raise AttributeError)
    by (vm_compute; reflexivity).
  split; [vm_compute; reflexivity|]. split; [exact H|].
  rewrite H. discriminate.
Qed.

(** C1, amended: the grid as given raises; with the tokens of the cell on
    separate lines and the hours written "8:30" the pipeline produces
    exactly the two records of the scenario; with the tokens on separate
    lines and the hours already padded it produces two records of type 8
    whose times read "008:30". *)
Theorem scenario_two_hospitals :
  load_data scenario_grid june_2024 = Raise AttributeError
  /\ load_data scenario_grid_lines june_2024 = Ok scenario_records
  /\ load_data scenario_grid_padded june_2024 =
       Ok [ mkrecord (mkdate 2024 6 1) (u "A病院") 8 (Some (u "008:30～17:30"));
            mkrecord (mkdate 2024 6 1) (u "B病院") 8 (Some (u "17:30～翌008:30")) ].
Proof.
  repeat split; vm_compute; reflexivity.
Qed.

(** ** Filter (C8) *)

Lemma keep_row_false (r : slot_row) : keep_row r = false <-> dropped r.
Proof.
  unfold keep_row, dropped.
  rewrite andb_false_iff, !negb_false_iff, andb_true_iff, orb_true_iff.
  rewrite !str_eqb_eq, contains_spec. reflexivity.
Qed.

Lemma keep_row_true (r : slot_row) : keep_row r = true <-> ~ dropped r.
Proof.
  rewrite <- keep_row_false. destruct (keep_row r); split; congruence.
Qed.

(** C8: a row is dropped exactly when it is a Sunday row whose name holds
    "歯科", or its name is "献血" or "市民会館前"; the test looks at the row
    alone (the Filter distributes over concatenation and keeps the order);
    the slot "歯科医院(09:00～12:00)" of a Sunday column is parsed to the name
    "歯科医院" and dropped. *)
Theorem filter_data_drops :
  (forall df r, In r (filter_data df) <-> In r df /\ ~ dropped r)
  /\ (forall df1 df2, filter_data (df1 ++ df2) = filter_data df1 ++ filter_data df2)
  /\ (forall r, filter_data [r] = [] <-> dropped r)
  /\ melt_and_split (mkdayframe 1 [mkdayrow SUNDAY 1 [Some (u "歯科医院(09:00～12:00)")]])
       = Ok [mkslot 1 SUNDAY 1 (u "歯科医院") (Some (u "09:00～12:00"))]
  /\ (forall d v t, filter_data [mkslot d SUNDAY v (u "歯科医院") t] = []).
Proof.
  split; [|split; [|split; [|split]]].
  - intros df r. unfold filter_data. rewrite filter_In, keep_row_true. reflexivity.
  - intros df1 df2. apply filter_app.
  - intros r. rewrite <- keep_row_false. unfold filter_data. simpl.
    destruct (keep_row r); split; congruence.
  - vm_compute. reflexivity.
  - intros d v t. reflexivity.
Qed.

(** ** Duty-category codes (C9) *)

Lemma mask_type_row_type (cond : row -> bool) (v : Z) (r : row) :
  type (mask_type_row cond v r) = v \/ type (mask_type_row cond v r) = type r.
Proof. unfold mask_type_row. destruct (cond r); simpl; auto. Qed.

Lemma mask_time_row_type (cond : row -> bool) (s : pystr) (r : row) :
  type (mask_time_row cond s r) = type r.
Proof. unfold mask_time_row. now destruct (cond r). Qed.

Lemma before_padding_type (r : slot_row) :
  In (type (before_padding r)) [0; 7; 8; 9].
Proof.
  unfold before_padding.
  rewrite mask_time_row_type.
  destruct (mask_type_row_type rule6 0
              (mask_time_row rule5 (u "09:00～17:00")
                 (mask_time_row rule4 T_PEDIATRIC
                    (mask_type_row rule3 7 (mask_type_row rule2 9 (rule1 r))))))
    as [-> | ->]; [simpl; auto 10|].
  rewrite !mask_time_row_type.
  destruct (mask_type_row_type rule3 7 (mask_type_row rule2 9 (rule1 r)))
    as [-> | ->]; [simpl; auto 10|].
  destruct (mask_type_row_type rule2 9 (rule1 r)) as [-> | ->]; simpl; auto 10.
Qed.

Lemma after_padding_type (r : row) :
  type (after_padding r) = type r \/ In (type (after_padding r)) [1; 2; 3; 4].
Proof.
  unfold after_padding.
  destruct (mask_type_row_type rule12 4
              (mask_type_row rule11 3 (mask_type_row rule10 2 (mask_type_row rule9 1 r))))
    as [-> | ->]; [simpl; auto 10|].
  destruct (mask_type_row_type rule11 3 (mask_type_row rule10 2 (mask_type_row rule9 1 r)))
    as [-> | ->]; [simpl; auto 10|].
  destruct (mask_type_row_type rule10 2 (mask_type_row rule9 1 r))
    as [-> | ->]; [simpl; auto 10|].
  destruct (mask_type_row_type rule9 1 r) as [-> | ->]; simpl; auto 10.
Qed.

Lemma categorize_row_type (r : slot_row) :
  In (type (categorize_row r)) [0; 1; 2; 3; 4; 7; 8; 9].
Proof.
  unfold categorize_row.
  pose proof (before_padding_type r) as Hb.
  generalize dependent (before_padding r). intros b Hb.
  destruct (after_padding_type (replace_time_row (u "8:30") (u "08:30") b)) as [E | H].
  - rewrite E. change (type (replace_time_row (u "8:30") (u "08:30") b)) with (type b).
    clear E. generalize dependent (type b). intros t Ht.
    cbn [In] in Ht |- *. intuition auto.
  - generalize dependent (type (after_padding (replace_time_row (u "8:30") (u "08:30") b))).
    intros t Ht. cbn [In] in Ht |- *. intuition auto.
Qed.

Lemma add_missing_rows_In (df : list row) (r : row) :
  In r (add_missing_rows df) <->
  In r df \/ exists d, In d (island_days df) /\ In r (new_rows_for d).
Proof.
  unfold add_missing_rows. rewrite sort_by_In, in_app_iff, in_flat_map. reflexivity.
Qed.

Lemma add_missing_rows_type (df : list row) :
  (forall r, In r df -> In (type r) [0; 1; 2; 3; 4; 7; 8; 9]) ->
  forall r, In r (add_missing_rows df) -> In (type r) type_codes.
Proof.
  intros H r Hr. apply add_missing_rows_In in Hr as [Hr | [d [_ Hr]]].
  - specialize (H r Hr). unfold type_codes. cbn [In] in H |- *. tauto.
  - cbn [In new_rows_for] in Hr. destruct Hr as [<- | [<- | []]]; cbn [type]; unfold type_codes; cbn [In]; auto 10.
Qed.

(** What a successful run returns: the classified rows with the rows of
    the GapFiller, each with its date. *)
Lemma load_data_inv (table : raw_grid) (ym : year_month) (out : list schedule_record) :
  load_data table ym = Ok out ->
  exists slots base,
    slot_rows table = Ok slots
    /\ to_datetime ym = Ok base
    /\ out = map (record_of base)
               (add_missing_rows (map categorize_row (filter_data slots))).
Proof.
  rewrite load_data_eq. unfold classify.
  destruct (slot_rows table) as [slots|e]; [simpl|discriminate].
  intros H. apply resolve_dates_inv in H as [base [Hb [_ ->]]].
  exists slots, base. now rewrite categorize_data_map.
Qed.

(** C9: every record of the output carries one of the codes 0, 1, 2, 3, 4,
    6, 7, 8, 9. *)
Theorem output_types (table : raw_grid) (ym : year_month)
        (out : list schedule_record) (rec : schedule_record) :
  load_data table ym = Ok out ->
  In rec out ->
  In (r_type rec) type_codes.
Proof.
  intros H Hin. apply load_data_inv in H as [slots [base [_ [_ ->]]]].
  apply in_map_iff in Hin as [r [<- Hr]].
  change (r_type (record_of base r)) with (type r).
  revert r Hr. apply add_missing_rows_type.
  intros r Hr. apply in_map_iff in Hr as [s [<- _]]. apply categorize_row_type.
Qed.

Lemma output_types_witness :
  In (r_type (mkrecord (mkdate 2024 6 1) (u "A病院") 1 (Some (u "08:30～17:30"))))
     type_codes.
Proof.
  apply (@output_types scenario_grid_lines june_2024 scenario_records).
  - vm_compute. reflexivity.
  - left. reflexivity.
Defined.

(** ** Zero-padding of a time that is already padded (C2) *)

Lemma mask_type_row_false (cond : row -> bool) (v : Z) (r : row) :
  cond r = false -> mask_type_row cond v r = r.
Proof. unfold mask_type_row. now intros ->. Qed.

Lemma time_eq_false (r : row) (t s : pystr) :
  time r = Some t -> t <> s -> time_eq r s = false.
Proof.
  intros Ht Hne. unfold time_eq. rewrite Ht. now apply str_eqb_neq.
Qed.

Lemma not_contains_neq (p s t : pystr) (a b : pystr) :
  contains p s = false -> t = a ++ p ++ b -> t <> s.
Proof.
  intros Hc Ht E. subst s. rewrite Ht in Hc.
  assert (contains p (a ++ p ++ b) = true) by (apply contains_spec; now exists a, b).
  congruence.
Qed.

(** Rule 7 has given every row of type 0 its time. *)
Lemma before_padding_type0 (r : slot_row) :
  type (before_padding r) = 0 -> time (before_padding r) = Some (u "8:30～翌8:30").
Proof.
  unfold before_padding.
  generalize (mask_type_row rule6 0
                (mask_time_row rule5 (u "09:00～17:00")
                   (mask_time_row rule4 T_PEDIATRIC
                      (mask_type_row rule3 7 (mask_type_row rule2 9 (rule1 r)))))).
  intros x. unfold mask_time_row, rule7.
  destruct (type x =? 0) eqn:E; cbn [type time]; [reflexivity|].
  intros H. rewrite H in E. discriminate.
Qed.

(** Without rule 2 and rule 3 the type at the zero-padding step is 8, or 0
    from rule 6. *)
Lemma before_padding_default (r : slot_row) :
  isin (s_name r) island = false ->
  rule3 (rule1 r) = false ->
  type (before_padding r) = 8 \/ type (before_padding r) = 0.
Proof.
  intros H2 H3. unfold before_padding.
  rewrite mask_time_row_type.
  rewrite (mask_type_row_false rule2 9 (rule1 r)) by exact H2.
  rewrite (mask_type_row_false rule3 7 (rule1 r)) by exact H3.
  destruct (mask_type_row_type rule6 0
              (mask_time_row rule5 (u "09:00～17:00")
                 (mask_time_row rule4 T_PEDIATRIC (rule1 r)))) as [-> | ->];
    [now right | left].
  now rewrite !mask_time_row_type.
Qed.

(** One row: when its time holds "08:30" at the moment of the zero-padding
    step, the step rewrites that occurrence too and the time then holds
    "008:30" there; the time equals none of the four strings of the rules 9
    to 12, none of these rules changes the row, and the row keeps the type
    it had. *)
Lemma padded_row_keeps_type (r : slot_row) (pre post : pystr) :
  time (before_padding r) = Some (pre ++ u "08:30" ++ post) ->
  (exists a, zero_pad (pre ++ u "0") = a ++ u "0"
             /\ time (categorize_row r) = Some (a ++ u "008:30" ++ zero_pad post))
  /\ (forall s, In s fixed_schedule_times -> time (categorize_row r) <> Some s)
  /\ categorize_row r = replace_time_row (u "8:30") (u "08:30") (before_padding r)
  /\ type (categorize_row r) = type (before_padding r)
  /\ In (type (categorize_row r)) [7; 8; 9]
  /\ (isin (s_name r) island = false -> rule3 (rule1 r) = false ->
      type (categorize_row r) = 8).
Proof.
  intros Ht.
  pose proof (before_padding_type r) as Hty.
  pose proof (before_padding_type0 r) as Hty0.
  pose proof (before_padding_default r) as Hdef.
  unfold categorize_row.
  generalize dependent (before_padding r). intros b Ht Hty Hty0 Hdef.
  destruct (zero_pad_last_zero pre) as [a Ha].
  set (p := replace_time_row (u "8:30") (u "08:30") b).
  assert (Hp : time p = Some (a ++ u "008:30" ++ zero_pad post)).
  { unfold p, replace_time_row. cbn [time]. rewrite Ht. cbn [option_map]. f_equal.
    change (replace (u "8:30") (u "08:30") (pre ++ u "08:30" ++ post))
      with (zero_pad (pre ++ [48%N] ++ [56; 58; 51; 48]%N ++ post)).
    rewrite app_assoc, zero_pad_app, Ha, <- !app_assoc. reflexivity. }
  assert (Hne : forall s, In s fixed_schedule_times ->
                          a ++ u "008:30" ++ zero_pad post <> s).
  { intros s Hs. apply (@not_contains_neq (u "008:30") s _ a (zero_pad post)); [|reflexivity].
    cbn [In fixed_schedule_times] in Hs.
    destruct Hs as [<- | [<- | [<- | [<- | []]]]]; vm_compute; reflexivity. }
  assert (Hp_type : type p = type b) by reflexivity.
  assert (Hafter : after_padding p = p).
  { unfold after_padding.
    rewrite (mask_type_row_false rule9 1 p).
    2:{ unfold rule9. rewrite (time_eq_false p _ _ Hp); [apply andb_false_r|].
        apply Hne. cbn; auto. }
    rewrite (mask_type_row_false rule10 2 p).
    2:{ unfold rule10. rewrite (time_eq_false p _ _ Hp); [apply andb_false_r|].
        apply Hne. cbn; auto. }
    rewrite (mask_type_row_false rule11 3 p).
    2:{ unfold rule11. rewrite (time_eq_false p _ _ Hp);
          [rewrite andb_false_r; reflexivity|].
        apply Hne. cbn; auto. }
    apply mask_type_row_false.
    unfold rule12. rewrite (time_eq_false p _ _ Hp);
      [rewrite andb_false_r; reflexivity|].
    apply Hne. cbn; auto 6. }
  assert (Hnot0 : type b <> 0).
  { intros E. specialize (Hty0 E). rewrite Ht in Hty0. injection Hty0 as Hty0.
    revert Hty0. apply (@not_contains_neq (u "08:30") _ _ pre post); [|reflexivity].
    vm_compute. reflexivity. }
  rewrite Hafter, Hp_type.
  split; [exists a; split; [exact Ha | exact Hp]|].
  split; [intros s Hs; rewrite Hp; intros E; injection E as E; revert E; now apply Hne|].
  split; [reflexivity|]. split; [reflexivity|].
  split.
  - revert Hty Hnot0. generalize (type b). intros t Hty Hnot0.
    cbn [In] in Hty |- *. intuition auto.
  - intros H2 H3. destruct (Hdef H2 H3) as [E | E]; [exact E | contradiction].
Qed.

Example padded_time_example :
  categorize_row (mkslot 1 (u "月") 1 (u "A病院") (Some (u "08:30～17:30")))
  = mkrow 1 (u "月") 1 (u "A病院") (Some (u "008:30～17:30")) 8.
Proof. vm_compute. reflexivity. Qed.

(** ** Unpadded "8:30" in the output (C3) *)

Lemma mask_type_row_time (cond : row -> bool) (v : Z) (r : row) :
  time (mask_type_row cond v r) = time r.
Proof. unfold mask_type_row. now destruct (cond r). Qed.

Lemma categorize_row_time (s : slot_row) :
  time (categorize_row s) = option_map zero_pad (time (before_padding s)).
Proof.
  unfold categorize_row, after_padding. rewrite !mask_type_row_time. reflexivity.
Qed.

(** Every time of the output is a result of the zero-padding step: the two
    times of the GapFiller are left as they are by it. *)
Lemma output_time_zero_pad (df : list slot_row) (r : row) (t : pystr) :
  In r (add_missing_rows (map categorize_row df)) ->
  time r = Some t ->
  exists t0, t = zero_pad t0.
Proof.
  intros Hr Ht. apply add_missing_rows_In in Hr as [Hr | [d [_ Hr]]].
  - apply in_map_iff in Hr as [s [<- _]].
    rewrite categorize_row_time in Ht.
    destruct (time (before_padding s)) as [t0|]; [|discriminate].
    injection Ht as <-. now exists t0.
  - cbn [In new_rows_for] in Hr. destruct Hr as [<- | [<- | []]];
      cbn [time] in Ht; injection Ht as <-.
    + exists (u "09:00～17:30"). vm_compute. reflexivity.
    + exists T_PEDIATRIC. vm_compute. reflexivity.
Qed.

(** C3, as stated, fails: the time "8:38:30" of the grid becomes
    "8:308:30", which starts with an "8:30" that no "0" precedes. *)
Lemma unpadded_time_in_output :
  load_data unpadded_grid june_2024
    = Ok [mkrecord (mkdate 2024 6 1) (u "A病院") 8 (Some ([] ++ u "8:30" ++ u "8:30"))]
  /\ ~ (exists pre', ([] : pystr) = pre' ++ u "0").
Proof.
  split; [vm_compute; reflexivity|].
  intros [pre' H]. destruct pre'; discriminate.
Qed.

(** C3, amended: in every record of the output, an occurrence of "8:30" in
    the time either follows a "0" or is followed at once by another
    "8:30" (it is then made of "8:3" and of the "0" put before that next
    occurrence). *)
Theorem output_time_padding (table : raw_grid) (ym : year_month)
        (out : list schedule_record) (rec : schedule_record) (pre post : pystr) :
  load_data table ym = Ok out ->
  In rec out ->
  r_time rec = Some (pre ++ u "8:30" ++ post) ->
  (exists pre', pre = pre' ++ u "0") \/ (exists post', post = u "8:30" ++ post').
Proof.
  intros H Hin Ht. apply load_data_inv in H as [slots [base [_ [_ ->]]]].
  apply in_map_iff in Hin as [r [<- Hr]].
  change (r_time (record_of base r)) with (time r) in Ht.
  destruct (output_time_zero_pad _ _ _ Hr Ht) as [t0 Ht0].
  apply (zero_pad_occurrence t0 pre post). symmetry. exact Ht0.
Qed.

Lemma output_time_padding_witness :
  (exists pre', u "0" = pre' ++ u "0")
  \/ (exists post', u "～17:30" = u "8:30" ++ post').
Proof.
  apply (@output_time_padding scenario_grid_lines june_2024 scenario_records
           (mkrecord (mkdate 2024 6 1) (u "A病院") 1 (Some (u "08:30～17:30")))
           (u "0") (u "～17:30")).
  - vm_compute. reflexivity.
  - left. reflexivity.
  - reflexivity.
Defined.

(** ** GapFiller (C4) *)

Lemma le_dvt_total (a b : row) :
  le_day_variable_type a b = false -> le_day_variable_type b a = true.
Proof.
  unfold le_day_variable_type.
  generalize (day a) (day b) (variable a) (variable b) (type a) (type b).
  intros d1 d2 v1 v2 t1 t2.
  destruct (d1 <? d2) eqn:E1, (d1 =? d2) eqn:E2, (d2 <? d1) eqn:E3, (d2 =? d1) eqn:E4,
    (v1 <? v2) eqn:E5, (v1 =? v2) eqn:E6, (v2 <? v1) eqn:E7, (v2 =? v1) eqn:E8,
    (t1 <=? t2) eqn:E9, (t2 <=? t1) eqn:E10; cbn; try reflexivity; try discriminate; lia.
Qed.

Lemma le_dvt_trans (a b c : row) :
  le_day_variable_type a b = true -> le_day_variable_type b c = true ->
  le_day_variable_type a c = true.
Proof.
  unfold le_day_variable_type.
  generalize (day a) (day b) (day c) (variable a) (variable b) (variable c)
             (type a) (type b) (type c).
  intros d1 d2 d3 v1 v2 v3 t1 t2 t3.
  rewrite !orb_true_iff, !andb_true_iff, !orb_true_iff, !andb_true_iff.
  rewrite !Z.ltb_lt, !Z.eqb_eq, !Z.leb_le. lia.
Qed.

(** The days for which rows are synthesized: each island row of slot 2 on a
    day that has a gap row counts once. *)
Lemma island_days_count (G : list Z) (l : list row) (d : Z) :
  filter (Z.eqb d)
         (map day (filter (fun r => existsb (Z.eqb (day r)) G
                                    && (variable r =? 2) && (type r =? 9)) l))
  = repeat d (if existsb (Z.eqb d) G
              then length (filter (fun r => (day r =? d) && (variable r =? 2) && (type r =? 9)) l)
              else 0%nat).
Proof.
  induction l as [|r l IH]; cbn [filter map].
  - now destruct (existsb (Z.eqb d) G).
  - destruct (day r =? d) eqn:Ed.
    + assert (Ed' : day r = d) by now apply Z.eqb_eq.
      rewrite Ed'.
      destruct (existsb (Z.eqb d) G) eqn:EG; cbn [andb].
      * destruct ((variable r =? 2) && (type r =? 9)); cbn [map filter length repeat].
        -- rewrite Ed', Z.eqb_refl. now rewrite IH.
        -- exact IH.
      * exact IH.
    + cbn [andb].
      destruct (existsb (Z.eqb (day r)) G && (variable r =? 2) && (type r =? 9));
        cbn [map filter]; [|exact IH].
      rewrite Z.eqb_sym, Ed. exact IH.
Qed.

Lemma filtered_days_has (df : list row) (d : Z) :
  existsb (Z.eqb d) (filtered_days df)
  = existsb (fun r => (day r =? d) && is_gap_row r) df.
Proof.
  unfold filtered_days. induction df as [|r df IH]; cbn [filter map existsb]; [reflexivity|].
  destruct (is_gap_row r); cbn [map existsb]; rewrite IH.
  - now rewrite (Z.eqb_sym d), andb_true_r.
  - now rewrite andb_false_r.
Qed.

Lemma filter_new_rows (d : Z) (l : list Z) :
  filter (fun r => day r =? d) (flat_map new_rows_for l)
  = flat_map new_rows_for (filter (Z.eqb d) l).
Proof.
  induction l as [|x l IH]; [reflexivity|].
  cbn [flat_map filter new_rows_for app day]. rewrite (Z.eqb_sym d x).
  destruct (x =? d); cbn [flat_map new_rows_for app]; now rewrite IH.
Qed.

(** C4, as stated, fails: when two cells of the grid carry the same day,
    the day can have two island rows of slot 2, and the GapFiller adds the
    two rows once for each of them: four rows for day 7 here. *)
Lemma gap_filler_adds_four_rows :
  exists df,
    classify gap_grid = Ok df
    /\ existsb (fun r => (day r =? 7) && is_gap_row r) df = true
    /\ existsb (fun r => (day r =? 7) && (variable r =? 2) && (type r =? 9)) df = true
    /\ length (filter (fun r => day r =? 7) df) = 4%nat
    /\ length (filter (fun r => day r =? 7) (add_missing_rows df)) = 8%nat.
Proof.
  eexists. split; [vm_compute; reflexivity|].
  repeat split; vm_compute; reflexivity.
Qed.

(** C4, amended: the GapFiller returns the rows it was given together with
    the synthesized rows, sorted by (day, slot, type); for a day the
    synthesized rows are the pair (type 6, "09:00～17:30"), (type 7,
    "09:00～12:00 / 14:00～17:00") of slot 1 and the hospital, once for each
    island row (type 9) of slot 2 of that day when the day has a gap row,
    and none otherwise: exactly two rows when there is one such island
    row. *)
Theorem add_missing_rows_spec (df : list row) :
  Permutation (add_missing_rows df) (df ++ flat_map new_rows_for (island_days df))
  /\ StronglySorted (fun a b => le_day_variable_type a b = true) (add_missing_rows df)
  /\ (forall d,
        new_rows_for d =
        [ mkrow d (u "日") 1 (u "医師会市民病院") (Some (u "09:00～17:30")) 6;
          mkrow d (u "日") 1 (u "医師会市民病院") (Some (u "09:00～12:00 / 14:00～17:00")) 7 ])
  /\ (forall d,
        filter (fun r => day r =? d) (flat_map new_rows_for (island_days df))
        = flat_map new_rows_for
            (repeat d
               (if existsb (fun r => (day r =? d) && is_gap_row r) df
                then length (filter (fun r => (day r =? d) && (variable r =? 2)
                                              && (type r =? 9)) df)
                else 0%nat))).
Proof.
  split; [apply sort_by_perm|].
  split; [apply sort_by_strongly_sorted; [apply le_dvt_total | apply le_dvt_trans]|].
  split; [reflexivity|].
  intros d. rewrite filter_new_rows. f_equal.
  unfold island_days. rewrite island_days_count, filtered_days_has. reflexivity.
Qed.

(** ** Rule 3 and rule 6 *)

Lemma mask_type_row_true (cond : row -> bool) (v : Z) (r : row) :
  cond r = true ->
  mask_type_row cond v r = mkrow (day r) (week r) (variable r) (name r) (time r) v.
Proof. unfold mask_type_row. now intros ->. Qed.

Lemma mask_time_row_true (cond : row -> bool) (s : pystr) (r : row) :
  cond r = true ->
  mask_time_row cond s r = mkrow (day r) (week r) (variable r) (name r) (Some s) (type r).
Proof. unfold mask_time_row. now intros ->. Qed.

Lemma mask_time_row_false (cond : row -> bool) (s : pystr) (r : row) :
  cond r = false -> mask_time_row cond s r = r.
Proof. unfold mask_time_row. now intros ->. Qed.

(** Rule 3 asks for a slot after the first, rule 6 for the first slot: no
    row satisfies both predicates. *)
Lemma rule3_rule6_disjoint :
  ~ (exists r : row, rule3 r = true /\ rule6 r = true).
Proof.
  intros [r [H3 H6]]. unfold rule3, rule6 in *.
  apply andb_true_iff in H3 as [H3 _]. apply andb_true_iff in H3 as [H3 _].
  apply andb_true_iff in H6 as [_ H6].
  apply Z.ltb_lt in H3. apply Z.eqb_eq in H6. lia.
Qed.


(** ** Numbers *)

Section NumericFacts.
Local Open Scope Z_scope.

Lemma bitlen_small (a : Z) : 0 <= a < 2 ^ 53 -> bitlen a <= 53.
Proof.
  intros H. unfold bitlen. destruct (a =? 0) eqn:E; [lia|].
  apply Z.eqb_neq in E. rewrite Z.abs_eq by lia.
  assert (Z.log2 a < 53) by (apply Z.log2_lt_pow2; lia). lia.
Qed.

(** An integer below [2 ^ 53] is a double. *)
Lemma fround_small (m : Z) : Z.abs m < 2 ^ 53 -> fround m 0 = FFin m 0.
Proof.
  intros H. unfold fround.
  pose proof (bitlen_small (Z.abs m)) as Hb.
  assert (Hk : Z.max (bitlen (Z.abs m) - 53) (-1074 - 0) <= 0) by lia.
  replace (0 <? Z.max (bitlen (Z.abs m) - 53) (-1074 - 0)) with false
    by (symmetry; apply Z.ltb_ge; exact Hk).
  replace (1024 <? bitlen (Z.abs m) + 0) with false
    by (symmetry; apply Z.ltb_ge; lia).
  f_equal. destruct (m <? 0) eqn:E; [apply Z.ltb_lt in E | apply Z.ltb_ge in E]; lia.
Qed.

Lemma push_digit_small (v : Z) (c : N) :
  0 <= v -> v * 10 + 9 < 2 ^ 53 -> isdigit c = true ->
  push_digit (FFin v 0) c = FFin (v * 10 + (Z.of_N c - 48)) 0.
Proof.
  intros Hv Hb Hc. unfold isdigit in Hc. apply andb_true_iff in Hc as [H1 H2].
  apply N.leb_le in H1, H2.
  unfold push_digit, fmul. rewrite fround_small by lia.
  unfold fadd. cbn [Z.min Z.add Z.sub Z.compare Z.opp Z.pow Z.pow_pos Pos.iter].
  change (0 - 0) with 0. change (2 ^ 0) with 1. rewrite !Z.mul_1_r.
  apply fround_small. lia.
Qed.

Lemma read_digits_small (ds : pystr) (v n ex : Z) :
  forallb isdigit ds = true ->
  0 <= n -> 0 <= v < 10 ^ n -> n + Z.of_nat (length ds) <= 15 ->
  read_digits ds (FFin v 0) n ex
  = (FFin (fold_left (fun acc c => acc * 10 + (Z.of_N c - 48)) ds v) 0,
     n + Z.of_nat (length ds), ex, [])
  /\ 0 <= fold_left (fun acc c => acc * 10 + (Z.of_N c - 48)) ds v
     < 10 ^ (n + Z.of_nat (length ds)).
Proof.
  revert v n. induction ds as [|c ds IH]; intros v n Hd Hn Hv Hlen.
  - cbn [read_digits fold_left length Z.of_nat]. rewrite Z.add_0_r. auto.
  - cbn [forallb] in Hd. apply andb_true_iff in Hd as [Hc Hd].
    cbn [length] in Hlen. rewrite Nat2Z.inj_succ in Hlen.
    assert (Hp : 10 ^ n <= 10 ^ 14) by (apply Z.pow_le_mono_r; lia).
    assert (Hp' : 10 ^ (n + 1) = 10 ^ n * 10) by (rewrite Z.pow_add_r by lia; lia).
    cbn [read_digits fold_left]. rewrite Hc.
    replace (n <? 17) with true by (symmetry; apply Z.ltb_lt; lia).
    rewrite push_digit_small by (try exact Hc; lia).
    pose proof Hc as Hc'. unfold isdigit in Hc'. apply andb_true_iff in Hc' as [H1 H2].
    apply N.leb_le in H1, H2.
    destruct (IH (v * 10 + (Z.of_N c - 48)) (n + 1)) as [IH1 IH2];
      [exact Hd | lia | lia | lia |].
    cbn [length]. rewrite Nat2Z.inj_succ.
    replace (n + Z.succ (Z.of_nat (length ds))) with (n + 1 + Z.of_nat (length ds)) by lia.
    split; [exact IH1 | exact IH2].
Qed.

Lemma span_digits_all (s d : pystr) :
  span_digits s = (d, []) -> s = d /\ forallb isdigit d = true.
Proof.
  revert d. induction s as [|c s IH]; intros d; cbn [span_digits].
  - intros H. injection H as <-. auto.
  - destruct (isdigit c) eqn:Hc; [|discriminate].
    destruct (span_digits s) as [d' r] eqn:E. intros H. injection H as <- ->.
    destruct (IH d' eq_refl) as [-> Hd]. cbn [forallb]. rewrite Hc, Hd. auto.
Qed.

Lemma c_string_id (s : pystr) : existsb (N.eqb 0) s = false -> c_string s = s.
Proof.
  induction s as [|c s IH]; [reflexivity|]. cbn [existsb c_string].
  intros H. apply orb_false_iff in H as [Hc Hs].
  rewrite N.eqb_sym, Hc. now rewrite IH.
Qed.

Lemma digits_plain (d : pystr) :
  forallb isdigit d = true ->
  existsb (N.eqb 0) d = false /\ existsb is_surrogate d = false.
Proof.
  induction d as [|c d IH]; [auto|]. cbn [forallb existsb]. intros H.
  apply andb_true_iff in H as [Hc Hd]. destruct (IH Hd) as [-> ->].
  unfold isdigit in Hc. apply andb_true_iff in Hc as [H1 H2]. apply N.leb_le in H1, H2.
  unfold is_surrogate.
  replace (0 =? c)%N with false by (symmetry; apply N.eqb_neq; lia).
  replace (55296 <=? c)%N with false by (symmetry; apply N.leb_gt; lia).
  auto.
Qed.

(** The shape of an integer literal: an optional sign, then digits. *)
Lemma int_literal_shape (tok : pystr) (z : Z) :
  int_literal tok = Some z ->
  exists neg d,
    read_sign tok = (neg, d) /\ d <> [] /\ forallb isdigit d = true
    /\ z = (if neg then - digits_value d else digits_value d)
    /\ (tok = d \/ exists c, tok = c :: d /\ (c = 45 \/ c = 43)%N).
Proof.
  unfold int_literal. destruct (read_sign tok) as [neg r0] eqn:Es.
  destruct (span_digits r0) as [d rest] eqn:Ed.
  destruct d as [|c d]; [discriminate|]. destruct rest; [|discriminate].
  intros H. injection H as <-.
  apply span_digits_all in Ed as [-> Hd].
  exists neg, (c :: d). repeat split; try assumption; try discriminate.
  unfold read_sign in Es. destruct tok as [|x tok]; [discriminate|].
  destruct (N.eqb_spec x 45) as [-> | _].
  { injection Es as _ E. right. exists 45%N. split; [congruence | auto]. }
  destruct (N.eqb_spec x 43) as [-> | _].
  { injection Es as _ E. right. exists 43%N. split; [congruence | auto]. }
  injection Es as _ E. left. congruence.
Qed.

Lemma digits_value_bound (d : pystr) :
  forallb isdigit d = true -> (length d <= 15)%nat ->
  0 <= digits_value d < 10 ^ 15.
Proof.
  intros Hd Hlen.
  destruct (read_digits_small d 0 0 0 Hd) as [_ H]; [lia | cbn; lia | lia |].
  unfold digits_value. split; [lia|].
  apply Z.lt_le_trans with (m := 10 ^ (0 + Z.of_nat (length d))); [lia|].
  apply Z.pow_le_mono_r; lia.
Qed.

Lemma lstrip_token (c : N) (s : pystr) :
  isspace_ascii c = false -> lstrip_by isspace_ascii (c :: s) = c :: s.
Proof. intros H. cbn [lstrip_by]. now rewrite H. Qed.

Lemma digit_not_space (c : N) : isdigit c = true -> isspace_ascii c = false.
Proof.
  unfold isdigit, isspace_ascii. intros H. apply andb_true_iff in H as [H1 H2].
  apply N.leb_le in H1, H2.
  replace (c =? 32)%N with false by (symmetry; apply N.eqb_neq; lia).
  replace (c <=? 13)%N with false by (symmetry; apply N.leb_gt; lia).
  now rewrite andb_false_r.
Qed.

Lemma lstrip_int_literal (tok : pystr) (z : Z) :
  int_literal tok = Some z -> lstrip_by isspace_ascii tok = tok.
Proof.
  intros H. destruct (int_literal_shape tok z H) as [neg [d [_ [Hne [Hd [_ Hshape]]]]]].
  destruct Hshape as [-> | [c [-> [-> | ->]]]].
  - destruct d as [|c d]; [congruence|]. apply lstrip_token.
    cbn [forallb] in Hd. apply andb_true_iff in Hd as [Hc _]. now apply digit_not_space.
  - now apply lstrip_token.
  - now apply lstrip_token.
Qed.

(** The parser reads an integer literal of at most 15 characters as that
    integer, without rounding. *)
Lemma precise_xstrtod_int (tok : pystr) (z : Z) :
  int_literal tok = Some z -> (length tok <= 15)%nat ->
  precise_xstrtod tok = Some (FFin z 0, true).
Proof.
  intros H Hlen. pose proof (lstrip_int_literal tok z H) as Hl.
  destruct (int_literal_shape tok z H) as [neg [d [Hs [Hne [Hd [Hz Hshape]]]]]].
  assert (Hdl : (length d <= 15)%nat).
  { destruct Hshape as [-> | [c [-> _]]]; [exact Hlen | cbn [length] in Hlen; lia]. }
  pose proof (digits_value_bound d Hd Hdl) as Hb.
  unfold precise_xstrtod. rewrite Hl, Hs.
  destruct (read_digits_small d 0 0 0 Hd) as [Hr _]; [lia | cbn; lia | lia |].
  rewrite Hr. fold (digits_value d).
  replace (0 + Z.of_nat (length d) =? 0) with false
    by (symmetry; apply Z.eqb_neq; destruct d; [congruence | cbn [length]; lia]).
  cbn [negb forallb andb].
  change (308 <? 0) with false. cbv iota.
  assert (Hscale : forall v, Z.abs v < 2 ^ 53 -> scale (FFin v 0) 0 = FFin v 0).
  { intros v Hv. unfold scale. change (0 <? 0) with false. change (0 <? -308) with false.
    cbv iota. change (pow10 (- 0)) with (FFin 1 0). unfold fdiv.
    change (1 =? 0) with false. cbv iota. rewrite Z.mod_1_r. change (0 =? 0) with true.
    cbv iota. rewrite Z.div_1_r. change (0 - 0) with 0. now apply fround_small. }
  destruct neg; cbn [fneg]; rewrite Hscale by lia; cbn [is_finite]; subst z; reflexivity.
Qed.

Lemma python_int_literal (tok : pystr) (z : Z) :
  int_literal tok = Some z -> python_int tok = z.
Proof.
  intros H. pose proof (lstrip_int_literal tok z H) as Hl.
  unfold python_int. rewrite Hl. unfold int_literal in H.
  destruct (read_sign tok) as [neg r0].
  destruct (span_digits r0) as [d rest].
  destruct d as [|c d]; [discriminate|]. destruct rest; [|discriminate].
  injection H as <-. reflexivity.
Qed.

Lemma int_literal_plain (tok : pystr) (z : Z) :
  int_literal tok = Some z ->
  existsb (N.eqb 0) tok = false /\ existsb is_surrogate tok = false.
Proof.
  intros H. destruct (int_literal_shape tok z H) as [neg [d [_ [_ [Hd [_ Hshape]]]]]].
  destruct (digits_plain d Hd) as [H0 Hsur].
  destruct Hshape as [-> | [c [-> [-> | ->]]]]; cbn [existsb]; rewrite ?H0, ?Hsur; auto.
Qed.

(** What [pd.to_numeric] keeps of an integer literal of at most 15
    characters: the integer and the same number as a double. *)
Lemma parse_value_int (tok : pystr) (z : Z) :
  int_literal tok = Some z -> (length tok <= 15)%nat ->
  parse_value (Some tok) = PInt z (FFin z 0) /\ Z.abs z < 10 ^ 15.
Proof.
  intros H Hlen. destruct (int_literal_plain tok z H) as [H0 Hsur].
  unfold parse_value. rewrite Hsur, (c_string_id tok H0), H0.
  rewrite (precise_xstrtod_int tok z H Hlen), (python_int_literal tok z H).
  split; [reflexivity|].
  destruct (int_literal_shape tok z H) as [neg [d [_ [_ [Hd [Hz Hshape]]]]]].
  assert (Hdl : (length d <= 15)%nat).
  { destruct Hshape as [-> | [c [-> _]]]; [exact Hlen | cbn [length] in Hlen; lia]. }
  pose proof (digits_value_bound d Hd Hdl). destruct neg; lia.
Qed.

(** Whatever the dtype of the column, the cast gives such an integer
    back. *)
Lemma cast_day_int (t : dtype) (z : Z) :
  Z.abs z < 10 ^ 15 -> cast_day t (PInt z (FFin z 0)) = z.
Proof.
  intros H. assert (H63 : - 2 ^ 63 <= z <= 2 ^ 63 - 1) by lia.
  destruct t; cbn [cast_day int_of float_of].
  - reflexivity.
  - unfold wrap64. rewrite Z.mod_small by lia. lia.
  - unfold float_to_int64. change (0 <=? 0) with true. cbv iota.
    change (2 ^ 0) with 1. rewrite Z.mul_1_r. unfold INT64_MIN, INT64_MAX.
    replace (- 2 ^ 63 <=? z) with true by (symmetry; apply Z.leb_le; lia).
    replace (z <=? 2 ^ 63 - 1) with true by (symmetry; apply Z.leb_le; lia).
    reflexivity.
Qed.

End NumericFacts.

Section ParserFacts.
Local Open Scope Z_scope.

(** What the parser returns is a finite double. *)
Lemma precise_xstrtod_finite (s : pystr) (f : float64) (b : bool) :
  precise_xstrtod s = Some (f, b) -> is_finite f = true.
Proof.
  unfold precise_xstrtod.
  repeat match goal with
         | |- context [match ?x with _ => _ end] => destruct x eqn:?
         end;
    intros H; try discriminate; injection H as <- _;
    match goal with
    | E : is_finite _ && _ = true |- _ => now apply andb_true_iff in E as [E _]
    end.
Qed.

(** A string the parser reads starts, after white space, with a digit, a
    sign or the decimal point. *)
Lemma precise_xstrtod_first (s : pystr) (f : float64) (b : bool) :
  precise_xstrtod s = Some (f, b) ->
  exists c r, lstrip_by isspace_ascii s = c :: r
              /\ (isdigit c = true \/ c = 43%N \/ c = 45%N \/ c = 46%N).
Proof.
  unfold precise_xstrtod.
  destruct (lstrip_by isspace_ascii s) as [|c r]; [discriminate|].
  intros H. exists c, r. split; [reflexivity|].
  destruct (isdigit c) eqn:Ed; [now left | right].
  destruct (N.eqb_spec c 43) as [E43 | E43]; [now left | right].
  destruct (N.eqb_spec c 45) as [E45 | E45]; [now left | right].
  destruct (N.eqb_spec c 46) as [E46 | E46]; [exact E46 | exfalso].
  unfold read_sign in H.
  replace (c =? 45)%N with false in H by (symmetry; now apply N.eqb_neq).
  replace (c =? 43)%N with false in H by (symmetry; now apply N.eqb_neq).
  cbn [read_digits] in H. rewrite Ed in H.
  replace (c =? 46)%N with false in H by (symmetry; now apply N.eqb_neq).
  discriminate.
Qed.

Lemma parse_value_nan (v : option pystr) :
  is_nan (float_of (parse_value v)) = match parse_value v with PNull => true | _ => false end.
Proof.
  unfold parse_value. destruct v as [tok|]; [|reflexivity].
  destruct (existsb is_surrogate tok); [reflexivity|].
  destruct (precise_xstrtod (c_string tok)) as [[f b]|] eqn:E.
  - apply precise_xstrtod_finite in E.
    destruct b; [destruct (existsb (N.eqb 0) tok)|]; cbn [float_of]; try reflexivity;
      now destruct f.
  - now destruct (inf_literal (c_string tok)).
Qed.

(** A value read as a finite number starts with a digit, a sign or the
    decimal point, unless white space or a NUL stands before. *)
Lemma parse_value_first (tok : pystr) :
  is_finite (float_of (parse_value (Some tok))) = true ->
  exists c r, lstrip_by isspace_ascii (c_string tok) = c :: r
              /\ (isdigit c = true \/ c = 43%N \/ c = 45%N \/ c = 46%N).
Proof.
  unfold parse_value.
  destruct (existsb is_surrogate tok); [discriminate|].
  destruct (precise_xstrtod (c_string tok)) as [[f b]|] eqn:E.
  - intros _. now apply precise_xstrtod_first in E.
  - destruct (inf_literal (c_string tok)); discriminate.
Qed.

Lemma parse_value_int_finite (v : option pystr) (z : Z) (f : float64) :
  parse_value v = PInt z f -> is_finite f = true.
Proof.
  unfold parse_value. destruct v as [tok|]; [|discriminate].
  destruct (existsb is_surrogate tok); [discriminate|].
  destruct (precise_xstrtod (c_string tok)) as [[x b]|] eqn:E.
  - apply precise_xstrtod_finite in E.
    destruct b; [destruct (existsb (N.eqb 0) tok); [discriminate|]|discriminate].
    intros H. injection H as _ <-. exact E.
  - destruct (inf_literal (c_string tok)); discriminate.
Qed.

End ParserFacts.
(** ** DaySplitter (C6) *)

Lemma Forall2_In_left {A B : Type} (R : A -> B -> Prop) (l : list A) (l' : list B) (x : A) :
  Forall2 R l l' -> In x l -> exists y, In y l' /\ R x y.
Proof.
  induction 1 as [|a b l l' Hab _ IH]; intros Hin; [contradiction|].
  destruct Hin as [<- | Hin].
  - exists b. split; [now left | exact Hab].
  - destruct (IH Hin) as [y [Hy Hxy]]. exists y. split; [now right | exact Hxy].
Qed.

Lemma Forall2_map_right {A B : Type} (P : A -> B -> Prop) (g : A -> B) (l : list A) :
  (forall a, In a l -> P a (g a)) -> Forall2 P l (map g l).
Proof.
  induction l as [|a l IH]; intros H; cbn [map]; constructor.
  - apply H. now left.
  - apply IH. intros b Hb. apply H. now right.
Qed.

Lemma max_length_In {A : Type} (l : list (list A)) (x : list A) :
  In x l -> (length x <= max_length l)%nat.
Proof.
  induction l as [|y l IH]; [contradiction|].
  intros [-> | Hin]; cbn [max_length fold_right].
  - apply Nat.le_max_l.
  - etransitivity; [now apply IH | apply Nat.le_max_r].
Qed.

Lemma combine_map_self {A B : Type} (g : A -> B) (l : list A) :
  combine l (map g l) = map (fun x => (x, g x)) l.
Proof. induction l as [|x l IH]; [reflexivity|]. cbn [map combine]. now rewrite IH. Qed.

Lemma filter_map_comm {A B : Type} (p : B -> bool) (g : A -> B) (l : list A) :
  filter p (map g l) = map g (filter (fun x => p (g x)) l).
Proof.
  induction l as [|x l IH]; [reflexivity|]. cbn [map filter].
  destruct (p (g x)); cbn [map]; now rewrite IH.
Qed.

Lemma forallb_map_comm {A B : Type} (p : B -> bool) (g : A -> B) (l : list A) :
  forallb p (map g l) = forallb (fun x => p (g x)) l.
Proof. induction l as [|x l IH]; [reflexivity|]. cbn [map forallb]. now rewrite IH. Qed.

Lemma astype_int_ok (t : dtype) (ps : list parsed) (days : list Z) :
  astype_int t ps = Ok days ->
  days = map (cast_day t) ps
  /\ (t = Float64 -> forallb (fun p => is_finite (float_of p)) ps = true).
Proof.
  unfold astype_int. destruct t.
  - intros H. injection H as <-. split; [reflexivity | discriminate].
  - intros H. injection H as <-. split; [reflexivity | discriminate].
  - destruct (forallb _ ps) eqn:E; [|discriminate].
    intros H. injection H as <-. split; [reflexivity | reflexivity].
Qed.

(** A column that is not float64 holds integers only. *)
Lemma infer_dtype_int (ps : list parsed) (p : parsed) :
  infer_dtype ps <> Float64 -> In p ps -> saw_float p = false.
Proof.
  unfold infer_dtype. intros H Hin.
  destruct (existsb saw_float ps) eqn:E; [cbn [orb] in H; congruence|].
  destruct (saw_float p) eqn:Ep; [|reflexivity].
  assert (existsb saw_float ps = true) by (apply existsb_exists; now exists p).
  congruence.
Qed.

(** The rows that are not NaN in the day column are the rows whose first
    token is read as a number. *)
Lemma dropna_is_kept (df : list long_row) :
  filter (fun lr => negb (isna (day_dtype df) (first_token_parse lr))) df
  = filter is_kept df.
Proof.
  apply filter_ext_in. intros lr Hin. unfold is_kept, isna.
  destruct (day_dtype df) eqn:Et.
  - assert (Hs : saw_float (first_token_parse lr) = false).
    { apply (infer_dtype_int (map first_token_parse df)); [unfold day_dtype in Et; congruence|].
      now apply in_map. }
    now destruct (first_token_parse lr).
  - assert (Hs : saw_float (first_token_parse lr) = false).
    { apply (infer_dtype_int (map first_token_parse df)); [unfold day_dtype in Et; congruence|].
      now apply in_map. }
    now destruct (first_token_parse lr).
  - unfold first_token_parse. rewrite parse_value_nan.
    now destruct (parse_value _).
Qed.

(** The frame of [split_text] in one expression. *)
Lemma split_text_eq (df : list long_row) :
  split_text df
  = match max_length (map (fun r => split_ws (text r)) df) with
    | O => Raise KeyError
    | S k =>
        days <- astype_int (day_dtype df) (map first_token_parse (filter is_kept df)) ;;
        Ok (mkdayframe k
              (map (fun x : long_row * Z =>
                      mkdayrow (lr_week (fst x)) (snd x)
                               (map (token_at (split_ws (text (fst x)))) (seq 1 k)))
                   (combine (filter is_kept df) days)))
    end.
Proof.
  unfold split_text. rewrite !map_map. cbn [snd].
  destruct (max_length (map (fun r => split_ws (text r)) df)) as [|k]; [reflexivity|].
  unfold to_numeric. rewrite map_map.
  change (map (fun x => parse_value (token_at (split_ws (text x)) 0)) df)
    with (map first_token_parse df).
  fold (day_dtype df).
  rewrite <- (map_map (fun r => (r, split_ws (text r))) (fun x => first_token_parse (fst x))).
  rewrite combine_map_self, filter_map_comm, filter_map_comm. cbn [snd fst].
  rewrite dropna_is_kept. rewrite !map_map. cbn [snd fst].
  destruct (astype_int (day_dtype df) (map first_token_parse (filter is_kept df)))
    as [days|e]; [|reflexivity].
  cbn [bind]. do 2 f_equal.
  generalize (filter is_kept df). intros l. revert days.
  induction l as [|x l IH]; intros [|d days]; try reflexivity.
  cbn [map combine fst snd]. now rewrite IH.
Qed.

Lemma split_text_inv (df : list long_row) (f : day_frame) :
  split_text df = Ok f ->
  S (slot_columns f) = max_length (map (fun r => split_ws (text r)) df)
  /\ day_rows f
     = map (fun lr => mkdayrow (lr_week lr)
                               (cast_day (day_dtype df) (first_token_parse lr))
                               (map (token_at (split_ws (text lr))) (seq 1 (slot_columns f))))
           (filter is_kept df)
  /\ (day_dtype df = Float64 ->
      forallb (fun lr => is_finite (float_of (first_token_parse lr))) (filter is_kept df)
      = true).
Proof.
  rewrite split_text_eq.
  destruct (max_length (map (fun r => split_ws (text r)) df)) as [|k]; [discriminate|].
  destruct (astype_int _ _) as [days|e] eqn:Ea; [|discriminate].
  cbn [bind]. intros H. injection H as <-. cbn [slot_columns day_rows].
  apply astype_int_ok in Ea as [-> Hfin].
  split; [reflexivity|]. split.
  - rewrite map_map, combine_map_self, map_map. reflexivity.
  - intros Et. specialize (Hfin Et). now rewrite forallb_map_comm in Hfin.
Qed.

Lemma split_text_kept (df : list long_row) (f : day_frame) :
  split_text df = Ok f ->
  Forall2 (fun lr dr =>
             kept_as (slot_columns f) lr dr
             /\ dr_day dr = cast_day (day_dtype df) (first_token_parse lr))
          (filter is_kept df) (day_rows f).
Proof.
  intros H. destruct (split_text_inv df f H) as [_ [-> _]].
  apply Forall2_map_right. intros lr _. unfold kept_as. cbn [dr_week dr_day slots]. auto.
Qed.





Example split_text_sample_result :
  split_text split_text_sample
  = Ok (mkdayframe 2
          [ mkdayrow (u "月") 32 [Some (u "A病院(8:30～17:30)"); None];
            mkdayrow (u "月") 7 [Some (u "B病院"); Some (u "C病院(17:30～翌8:30)")] ]).
Proof. vm_compute. reflexivity. Qed.

(** ** Dates past the end of the month (C7) *)

Section CalendarFacts.

Local Open Scope Z_scope.

Lemma days_in_month_ge (y m : Z) : 28 <= days_in_month y m.
Proof.
  unfold days_in_month.
  destruct (m =? 2); [destruct (is_leap y); lia|].
  destruct ((m =? 4) || (m =? 6) || (m =? 9) || (m =? 11)); lia.
Qed.

Lemma next_day_index (d : Calendar.date) :
  valid_month d ->
  valid_month (next_day d) /\ month_index d <= month_index (next_day d).
Proof.
  unfold valid_month, month_index, next_day. intros H.
  destruct (dom d <? days_in_month (year d) (month d)); cbn [year month dom]; [lia|].
  destruct (month d <? 12) eqn:E; cbn [year month dom].
  - apply Z.ltb_lt in E. lia.
  - apply Z.ltb_ge in E. lia.
Qed.

Lemma iter_next_day_index (n : nat) (d : Calendar.date) :
  valid_month d ->
  valid_month (iterate n next_day d)
  /\ month_index d <= month_index (iterate n next_day d).
Proof.
  intros H. induction n as [|n [IH1 IH2]]; cbn [iterate]; [split; [exact H | lia]|].
  destruct (next_day_index _ IH1) as [H1 H2]. split; [exact H1 | lia].
Qed.

(** Inside the month the days are counted up. *)
Lemma iter_next_day_within (y m : Z) (n : nat) :
  Z.of_nat n < days_in_month y m ->
  iterate n next_day (mkdate y m 1) = mkdate y m (1 + Z.of_nat n).
Proof.
  induction n as [|n IH]; intros H; cbn [iterate]; [reflexivity|].
  rewrite IH by lia. unfold next_day. cbn [year month dom].
  replace (1 + Z.of_nat n <? days_in_month y m) with true
    by (symmetry; apply Z.ltb_lt; lia).
  f_equal. lia.
Qed.

Lemma next_day_month_end (y m : Z) :
  1 <= m <= 12 ->
  month_index (next_day (mkdate y m (days_in_month y m))) = 12 * y + m + 1.
Proof.
  intros H. unfold next_day, month_index. cbn [year month dom].
  rewrite Z.ltb_irrefl.
  destruct (m <? 12) eqn:E; cbn [year month dom].
  - lia.
  - apply Z.ltb_ge in E. lia.
Qed.

Lemma iterate_add (n k : nat) (f : Calendar.date -> Calendar.date) (d : Calendar.date) :
  iterate (n + k) f d = iterate n f (iterate k f d).
Proof.
  induction n as [|n IH]; cbn [Nat.add iterate]; [reflexivity|].
  f_equal. exact IH.
Qed.

(** A day past the last day of a month is a date of a later month. *)
Lemma past_month_end (y m k : Z) :
  1 <= m <= 12 ->
  days_in_month y m < k ->
  12 * y + m < month_index (add_days (mkdate y m 1) (k - 1)).
Proof.
  intros Hm Hk. pose proof (days_in_month_ge y m) as Hge.
  unfold add_days. replace (0 <=? k - 1) with true by (symmetry; apply Z.leb_le; lia).
  replace (Z.to_nat (k - 1))
    with (Z.to_nat (k - 1 - days_in_month y m) + S (Z.to_nat (days_in_month y m - 1)))%nat
    by lia.
  rewrite iterate_add. cbn [iterate].
  rewrite iter_next_day_within by lia.
  replace (1 + Z.of_nat (Z.to_nat (days_in_month y m - 1))) with (days_in_month y m) by lia.
  pose proof (next_day_month_end y m Hm) as Hend.
  assert (Hv : valid_month (next_day (mkdate y m (days_in_month y m)))).
  { apply next_day_index. exact Hm. }
  destruct (iter_next_day_index (Z.to_nat (k - 1 - days_in_month y m)) _ Hv) as [_ Hle].
  lia.
Qed.

End CalendarFacts.

(** C7, as stated, fails: June has 30 days; for a row of day 31 the
    pipeline does not fail, it returns a record dated 2024-07-01. *)
Lemma day_31_of_june :
  days_in_month 2024 6 = 30
  /\ classify overflow_grid
       = Ok [mkrow 31 (u "月") 1 (u "A病院") (Some (u "08:30～17:30")) 1]
  /\ load_data overflow_grid june_2024
       = Ok [mkrecord (mkdate 2024 7 1) (u "A病院") 1 (Some (u "08:30～17:30"))].
Proof. repeat split; vm_compute; reflexivity. Qed.

(** C7, amended: a day past the end of the month does not make the
    pipeline fail.  When the grid is classified, the month is read and
    every day offset stays inside pandas' nanosecond time range, the
    pipeline returns one record for each row, dated the first day of the
    month plus (day - 1) days; for a day greater than the number of days of
    the month that date lies in a later month. *)
Theorem date_overflow_rolls_over (table : raw_grid) (ym : year_month) (df : list row) :
  classify table = Ok df ->
  to_datetime ym = Ok (first_day ym) ->
  forallb (day_in_range (first_day ym)) (add_missing_rows df) = true ->
  load_data table ym = Ok (map (record_of (first_day ym)) (add_missing_rows df))
  /\ forall r, In r (add_missing_rows df) ->
       date (record_of (first_day ym) r) = add_days (first_day ym) (day r - 1)
       /\ (days_in_month (ym_year ym) (ym_month ym) < day r ->
           12 * ym_year ym + ym_month ym < month_index (date (record_of (first_day ym) r))
           /\ ~ (year (date (record_of (first_day ym) r)) = ym_year ym
                 /\ month (date (record_of (first_day ym) r)) = ym_month ym)).
Proof.
  intros Hc Hb Hr.
  assert (Hm : 1 <= ym_month ym <= 12).
  { unfold to_datetime in Hb.
    destruct ((1 <=? ym_month ym) && (ym_month ym <=? 12)) eqn:E; [|discriminate].
    apply andb_true_iff in E as [E1 E2]. apply Z.leb_le in E1, E2. lia. }
  split.
  - rewrite load_data_eq, Hc. cbn [bind]. now apply resolve_dates_ok.
  - intros r Hin. split; [reflexivity|].
    intros Hk. unfold record_of. cbn [date]. unfold first_day.
    pose proof (past_month_end (ym_year ym) (ym_month ym) (day r) Hm Hk) as H.
    split; [exact H|].
    intros [Hy Hmo]. unfold month_index in H. rewrite Hy, Hmo in H. lia.
Qed.

Lemma date_overflow_rolls_over_witness :
  load_data overflow_grid june_2024
  = Ok (map (record_of (first_day june_2024))
          (add_missing_rows [mkrow 31 (u "月") 1 (u "A病院") (Some (u "08:30～17:30")) 1])).
Proof.
  apply (date_overflow_rolls_over overflow_grid june_2024
           [mkrow 31 (u "月") 1 (u "A病院") (Some (u "08:30～17:30")) 1]);
    vm_compute; reflexivity.
Defined.

(** * Further properties of the stages *)

(** ** Strings *)

Lemma replace_cases (o : N) (old new s : pystr) :
  s = [] \/
  (exists r, s = (o :: old) ++ r
             /\ replace (o :: old) new s = new ++ replace (o :: old) new r) \/
  (exists c s', s = c :: s'
                /\ startswith (o :: old) s = false
                /\ replace (o :: old) new s = c :: replace (o :: old) new s').
Proof.
  destruct s as [|c s']; [now left | right].
  destruct (startswith (o :: old) (c :: s')) eqn:E.
  - left. apply startswith_spec in E as [r Hr]. exists r. split; [exact Hr|].
    rewrite Hr. apply replace_match.
  - right. exists c, s'. split; [reflexivity|]. split; [reflexivity|].
    now apply replace_nomatch.
Qed.

(** Every character of a rewritten string comes from the string or from
    the replacement. *)
Lemma replace_In (o : N) (old new s : pystr) (x : N) :
  In x (replace (o :: old) new s) -> In x s \/ In x new.
Proof.
  remember (length s) as n eqn:Hn. revert s Hn.
  induction n as [n IH] using lt_wf_ind. intros s Hn.
  destruct (replace_cases o old new s) as [-> | [[r [-> Hr]] | [c [s' [-> [_ Hc]]]]]].
  - intros H. now left.
  - rewrite Hr. intros H. apply in_app_iff in H as [H | H]; [now right|].
    destruct (IH (length r)) with (s := r) as [H' | H']; try reflexivity; try exact H.
    + subst n. rewrite length_app. cbn [length]. lia.
    + left. apply in_app_iff. now right.
    + now right.
  - rewrite Hc. intros [-> | H]; [left; now left|].
    destruct (IH (length s')) with (s := s') as [H' | H']; try reflexivity; try exact H.
    + subst n. cbn [length]. lia.
    + left. now right.
    + now right.
Qed.


Lemma lstrip_by_In (p : N -> bool) (s : pystr) (x : N) :
  In x (lstrip_by p s) -> In x s.
Proof.
  induction s as [|c s IH]; cbn [lstrip_by]; [easy|].
  destruct (p c); [intros H; right; now apply IH | easy].
Qed.

Lemma strip_by_In (p : N -> bool) (s : pystr) (x : N) :
  In x (strip_by p s) -> In x s.
Proof.
  unfold strip_by. intros H. apply in_rev in H. apply lstrip_by_In in H.
  apply in_rev in H. now apply lstrip_by_In in H.
Qed.

(** ** Reshaper *)

Lemma normalize_text_chars (t t' : pystr) (x : N) :
  normalize_text t = Some t' -> In x t' -> x = 40%N \/ x = 65374%N \/ In x t.
Proof.
  unfold normalize_text. destruct (str_eqb t []); [discriminate|].
  intros H. injection H as <-. intros H.
  apply (replace_In 10 [40%N]) in H as [H | H].
  - apply strip_by_In in H. apply (replace_In 32 []) in H as [H | []].
    apply (replace_In 126 []) in H as [H | H]; [auto|].
    cbn in H. intuition auto.
  - cbn in H. intuition auto.
Qed.





Lemma combine_In_nth {A B : Type} (l : list A) (l' : list B) (a : A) (b : B) :
  In (a, b) (combine l l') <->
  exists j, nth_error l j = Some a /\ nth_error l' j = Some b.
Proof.
  revert l'. induction l as [|x l IH]; intros [|y l']; cbn [combine In].
  - split; [easy | intros [[|j] [H _]]; discriminate].
  - split; [easy | intros [[|j] [H _]]; discriminate].
  - split; [easy | intros [[|j] [_ H]]; discriminate].
  - rewrite IH. split.
    + intros [H | [j Hj]].
      * injection H as -> ->. now exists 0%nat.
      * now exists (S j).
    + intros [[|j] [H1 H2]]; cbn [nth_error] in *.
      * left. congruence.
      * right. now exists j.
Qed.

Lemma stack_row_In (header : list cell) (i i' : nat) (cells : list cell) (h : cell) (t : pystr) :
  In (i', h, t) (stack_row header i cells) <->
  i' = i /\ exists j, nth_error header j = Some h /\ nth_error cells j = Some (Some t).
Proof.
  unfold stack_row. rewrite in_flat_map. split.
  - intros [[h' c] [Hin H]]. cbn [fst snd] in H.
    destruct c as [t'|]; [|contradiction].
    destruct H as [H | []]. injection H as <- <- <-.
    split; [reflexivity|]. now apply combine_In_nth.
  - intros [-> Hj]. exists (h, Some t). split; [now apply combine_In_nth|].
    cbn [fst snd]. now left.
Qed.

Lemma stack_from_In (header : list cell) (k i : nat) (rows : list (list cell))
      (h : cell) (t : pystr) :
  In (i, h, t) (stack_from header k rows) <->
  (k <= i)%nat
  /\ exists cells j, nth_error rows (i - k) = Some cells
                     /\ nth_error header j = Some h
                     /\ nth_error cells j = Some (Some t).
Proof.
  revert k. induction rows as [|r rows IH]; intros k; cbn [stack_from].
  - split; [easy|]. intros [_ [cells [j [H _]]]]. now destruct (i - k)%nat.
  - rewrite in_app_iff, stack_row_In, IH. split.
    + intros [[-> [j [Hh Hc]]] | [Hk [cells [j [Hr [Hh Hc]]]]]].
      * split; [lia|]. exists r, j. rewrite Nat.sub_diag. auto.
      * split; [lia|]. exists cells, j.
        replace (i - k)%nat with (S (i - S k)) by lia. auto.
    + intros [Hk [cells [j [Hr [Hh Hc]]]]].
      destruct (Nat.eq_dec i k) as [-> | Hne].
      * left. split; [reflexivity|]. rewrite Nat.sub_diag in Hr.
        injection Hr as ->. now exists j.
      * right. split; [lia|]. exists cells, j.
        replace (i - k)%nat with (S (i - S k)) in Hr by lia. auto.
Qed.

Lemma flat_map_nil {A B : Type} (g : A -> list B) (l : list A) :
  (forall x, In x l -> g x = []) -> flat_map g l = [].
Proof.
  induction l as [|x l IH]; intros H; [reflexivity|].
  cbn [flat_map]. rewrite (H x) by now left.
  apply IH. intros y Hy. apply H. now right.
Qed.

Lemma flat_map_ext_in {A B : Type} (g h : A -> list B) (l : list A) :
  (forall x, In x l -> g x = h x) -> flat_map g l = flat_map h l.
Proof.
  induction l as [|x l IH]; intros H; [reflexivity|].
  cbn [flat_map]. rewrite (H x) by now left. f_equal.
  apply IH. intros y Hy. apply H. now right.
Qed.

Lemma normalize_text_none (t : pystr) : normalize_text t = None <-> t = [].
Proof.
  unfold normalize_text. destruct (str_eqb t []) eqn:E.
  - apply str_eqb_eq in E. now split.
  - apply str_eqb_neq in E. split; [discriminate | contradiction].
Qed.

(** The cells of one data row, column by column. *)
Lemma stack_row_columns (header : list cell) (i o : nat) (cells : list cell)
      (g : nat * cell * pystr -> list long_row) :
  flat_map g (stack_row header i cells)
  = flat_map (fun j => match nth_error header (j - o), nth_error cells (j - o) with
                       | Some h, Some (Some t) => g (i, h, t)
                       | _, _ => []
                       end) (seq o (length header)).
Proof.
  unfold stack_row. revert o cells. induction header as [|h header IH]; intros o cells.
  - reflexivity.
  - destruct cells as [|c cells].
    + cbn [combine flat_map]. symmetry. apply flat_map_nil. intros j _.
      destruct (nth_error (h :: header) (j - o)); [|reflexivity].
      now destruct (j - o)%nat.
    + cbn [combine flat_map length seq fst snd]. rewrite flat_map_app.
      rewrite Nat.sub_diag. cbn [nth_error]. f_equal.
      * destruct c as [t|]; [cbn [flat_map]; apply app_nil_r | reflexivity].
      * rewrite (IH (S o) cells). apply flat_map_ext_in. intros j Hj.
        apply in_seq in Hj.
        replace (j - o)%nat with (S (j - S o)) by lia. reflexivity.
Qed.

Lemma stack_from_rows (header : list cell) (k : nat) (rows : list (list cell))
      (g : nat * cell * pystr -> list long_row) :
  flat_map g (stack_from header k rows)
  = flat_map (fun i => match nth_error rows (i - k) with
                       | Some cells => flat_map g (stack_row header i cells)
                       | None => []
                       end) (seq k (length rows)).
Proof.
  revert k. induction rows as [|r rows IH]; intros k; [reflexivity|].
  cbn [stack_from length seq flat_map]. rewrite flat_map_app.
  rewrite Nat.sub_diag. cbn [nth_error]. f_equal.
  rewrite (IH (S k)). apply flat_map_ext_in. intros i Hi. apply in_seq in Hi.
  replace (i - k)%nat with (S (i - S k)) by lia. reflexivity.
Qed.

(** X2: for a table with a header that is not empty and no data row, or
    whose longest data row is as long as the header, [process_table]
    returns the cells in reading order, data row by data row and column by
    column (the first column like the others), and exactly one row for
    every cell that holds a string other than "": the cell of data row [i]
    and column [j] gives the row numbered [i] with the label of column [j]
    (or "日" when the label is missing) and the cleaned text; a missing
    cell and the empty string give no row. *)
Theorem process_table_rows (header : list cell) (rows : list (list cell)) :
  header <> [] ->
  rows = [] \/ max_length rows = length header ->
  process_table (header :: rows)
  = Ok (flat_map (fun i => flat_map (row_of_cell header rows i) (seq 0 (length header)))
                 (seq 0 (length rows)))
  /\ forall i j,
       (row_of_cell header rows i j = []
        \/ exists lr, row_of_cell header rows i j = [lr] /\ number lr = i)
       /\ (row_of_cell header rows i j <> [] <->
           exists cells h t,
             nth_error rows i = Some cells /\ nth_error header j = Some h
             /\ nth_error cells j = Some (Some t) /\ t <> []).
Proof.
  intros Hh Hw. split.
  - unfold process_table.
    replace (match rows with
             | [] => true
             | _ :: _ => Nat.eqb (max_length rows) (length header)
             end) with true.
    2:{ destruct rows; [reflexivity|]. symmetry. apply Nat.eqb_eq.
        now destruct Hw as [Hw | Hw]. }
    destruct header as [|h0 header]; [congruence|]. f_equal.
    rewrite stack_from_rows. apply flat_map_ext_in. intros i _.
    rewrite Nat.sub_0_r. unfold row_of_cell.
    destruct (nth_error rows i) as [cells|].
    + rewrite (stack_row_columns (h0 :: header) i 0). apply flat_map_ext_in. intros j _.
      rewrite Nat.sub_0_r. reflexivity.
    + symmetry. now apply flat_map_nil.
  - intros i j. unfold row_of_cell.
    destruct (nth_error rows i) as [cells|] eqn:Er.
    2:{ split; [now left|]. split; [congruence | intros [c [h [t [H _]]]]; discriminate]. }
    destruct (nth_error header j) as [h|] eqn:Eh.
    2:{ split; [now left|].
        split; [congruence | intros [c [h [t [_ [H _]]]]]; discriminate]. }
    destruct (nth_error cells j) as [[t|]|] eqn:Ec.
    + destruct (normalize_text t) as [t'|] eqn:En.
      * split; [right; eexists; split; reflexivity|].
        split; [|discriminate]. intros _. exists cells, h, t.
        split; [reflexivity|]. split; [reflexivity|]. split; [exact Ec|].
        intros Ht. apply normalize_text_none in Ht. congruence.
      * apply normalize_text_none in En. subst t.
        split; [now left|]. split; [congruence|].
        intros [c [h' [t [Hc [_ [H Hne]]]]]]. injection Hc as <-.
        rewrite Ec in H. injection H as <-. congruence.
    + split; [now left|]. split; [congruence|].
      intros [c [h' [t [Hc [_ [H _]]]]]]. injection Hc as <-. congruence.
    + split; [now left|]. split; [congruence|].
      intros [c [h' [t [Hc [_ [H _]]]]]]. injection Hc as <-. congruence.
Qed.

Lemma process_table_rows_witness :
  process_table (header_week :: tl scenario_grid)
  = Ok (flat_map (fun i => flat_map (row_of_cell header_week (tl scenario_grid) i)
                                    (seq 0 (length header_week)))
                 (seq 0 (length (tl scenario_grid)))).
Proof.
  apply (process_table_rows header_week (tl scenario_grid)).
  - discriminate.
  - right. reflexivity.
Defined.

(** ** DaySplitter *)

Lemma split_ws_from_tokens (cur s : pystr) :
  no_space cur = true ->
  Forall is_token (split_ws_from cur s).
Proof.
  revert cur. induction s as [|c s IH]; intros cur Hcur; cbn [split_ws_from].
  - destruct cur as [|x cur]; [constructor|].
    constructor; [|constructor]. split.
    + intros H. apply (f_equal (@length N)) in H. rewrite length_rev in H. discriminate.
    + unfold no_space in *. rewrite forallb_forall in *. intros y Hy.
      apply Hcur. now apply in_rev.
  - destruct (isspace c) eqn:Ec.
    + destruct cur as [|x cur]; [now apply IH|].
      constructor; [|now apply IH]. split.
      * intros H. apply (f_equal (@length N)) in H. rewrite length_rev in H. discriminate.
      * unfold no_space in *. rewrite forallb_forall in *. intros y Hy.
        apply Hcur. now apply in_rev.
    + apply IH. unfold no_space in *. cbn [forallb]. now rewrite Ec, Hcur.
Qed.

Lemma split_ws_tokens (s : pystr) : Forall is_token (split_ws s).
Proof. now apply split_ws_from_tokens. Qed.

(** Reading a token that is followed by white space or by the end. *)
Lemma split_ws_from_token (t cur rest : pystr) :
  no_space t = true ->
  split_ws_from cur (t ++ rest) = split_ws_from (rev t ++ cur) rest.
Proof.
  revert cur. induction t as [|c t IH]; intros cur H; [reflexivity|].
  cbn [no_space forallb] in H. apply andb_true_iff in H as [Hc Ht].
  apply negb_true_iff in Hc. cbn [app split_ws_from]. rewrite Hc.
  rewrite IH by exact Ht. cbn [rev]. now rewrite <- app_assoc.
Qed.

Lemma split_ws_join (w : N) (toks : list pystr) :
  isspace w = true ->
  Forall is_token toks ->
  split_ws (join [w] toks) = toks.
Proof.
  intros Hw. unfold split_ws. induction 1 as [|t toks [Hne Hns] Htoks IH]; [reflexivity|].
  destruct toks as [|t' toks].
  - cbn [join]. rewrite <- (app_nil_r t) at 1. rewrite split_ws_from_token by exact Hns.
    rewrite app_nil_r. cbn [split_ws_from].
    destruct (rev t) eqn:Er; [|now rewrite <- Er, rev_involutive].
    apply (f_equal (@length N)) in Er. rewrite length_rev in Er.
    destruct t; [contradiction | discriminate].
  - change (join [w] (t :: t' :: toks)) with (t ++ [w] ++ join [w] (t' :: toks)).
    rewrite split_ws_from_token by exact Hns. rewrite app_nil_r.
    cbn [app split_ws_from]. rewrite Hw.
    destruct (rev t) eqn:Er.
    + apply (f_equal (@length N)) in Er. rewrite length_rev in Er.
      destruct t; [contradiction | discriminate].
    + rewrite <- Er, rev_involutive. f_equal. exact IH.
Qed.

Lemma Forall2_In_right {A B : Type} (R : A -> B -> Prop) (l : list A) (l' : list B) (y : B) :
  Forall2 R l l' -> In y l' -> exists x, In x l /\ R x y.
Proof.
  induction 1 as [|a b l l' Hab _ IH]; intros Hin; [contradiction|].
  destruct Hin as [<- | Hin].
  - exists a. split; [now left | exact Hab].
  - destruct (IH Hin) as [x [Hx Hxy]]. exists x. split; [now right | exact Hxy].
Qed.

(** X3: the frame of [split_text] is rectangular and as wide as the longest
    row of tokens asks for: one more token than slot columns.  Each of its
    rows comes from a row of the input, holds one cell for every slot
    column, its cells are tokens (not empty, without white space), and the
    missing cells are at the end: a row that misses slot [i] misses every
    later one. *)
Theorem split_text_frame (df : list long_row) (f : day_frame) (dr : day_row) :
  split_text df = Ok f ->
  In dr (day_rows f) ->
  S (slot_columns f) = max_length (map (fun r => split_ws (text r)) df)
  /\ length (slots dr) = slot_columns f
  /\ (forall t, In (Some t) (slots dr) -> is_token t)
  /\ (forall i j, (i <= j < slot_columns f)%nat ->
        nth_error (slots dr) i = Some None -> nth_error (slots dr) j = Some None)
  /\ exists lr, In lr df /\ kept_as (slot_columns f) lr dr.
Proof.
  intros H Hin. destruct (split_text_inv df f H) as [Hk _].
  destruct (Forall2_In_right _ _ _ dr (split_text_kept df f H) Hin) as [lr [Hlr [Hkept _]]].
  apply filter_In in Hlr as [Hlr _].
  pose proof Hkept as [_ Hs].
  split; [exact Hk|]. split; [|split; [|split]].
  - rewrite Hs, length_map, length_seq. reflexivity.
  - intros t Ht. rewrite Hs in Ht. apply in_map_iff in Ht as [j [Hj _]].
    unfold token_at in Hj. apply nth_error_In in Hj.
    pose proof (split_ws_tokens (text lr)) as Htok.
    rewrite Forall_forall in Htok. now apply Htok.
  - intros i j Hij. rewrite Hs.
    rewrite !nth_error_map, !nth_error_seq.
    destruct (Nat.ltb_spec i (slot_columns f)) as [_|]; [|lia].
    destruct (Nat.ltb_spec j (slot_columns f)) as [_|]; [|lia].
    cbn [option_map]. unfold token_at. intros Hi.
    assert (Hi' : nth_error (split_ws (text lr)) (1 + i) = None)
      by (injection Hi; intros Hi'; exact Hi').
    f_equal. apply nth_error_None. apply nth_error_None in Hi'. lia.
  - exists lr. split; [exact Hlr | exact Hkept].
Qed.

Lemma split_text_frame_witness :
  S (slot_columns (mkdayframe 2
        [ mkdayrow (u "月") 32 [Some (u "A病院(8:30～17:30)"); None];
          mkdayrow (u "月") 7 [Some (u "B病院"); Some (u "C病院(17:30～翌8:30)")] ]))
  = max_length (map (fun r => split_ws (text r)) split_text_sample).
Proof.
  apply (split_text_frame split_text_sample
           (mkdayframe 2
              [ mkdayrow (u "月") 32 [Some (u "A病院(8:30～17:30)"); None];
                mkdayrow (u "月") 7 [Some (u "B病院"); Some (u "C病院(17:30～翌8:30)")] ])
           (mkdayrow (u "月") 32 [Some (u "A病院(8:30～17:30)"); None])).
  - vm_compute. reflexivity.
  - left. reflexivity.
Defined.

Lemma map_nth_error_seq {A : Type} (l : list A) (k : nat) :
  (length l <= k)%nat ->
  map (nth_error l) (seq 0 k) = map Some l ++ repeat None (k - length l).
Proof.
  revert k. induction l as [|x l IH]; intros k Hk.
  - cbn [map app length]. rewrite Nat.sub_0_r. clear Hk.
    generalize 0%nat. induction k as [|k IHk]; intros a; [reflexivity|].
    cbn [seq map repeat]. rewrite IHk. now destruct a.
  - destruct k as [|k]; [cbn in Hk; lia|].
    cbn [seq map app length Nat.sub]. f_equal.
    rewrite <- seq_shift, map_map. cbn [nth_error]. apply IH. cbn in Hk. lia.
Qed.

(** X4: a cell written one token per line is read back: when the text of a
    row is a day number of at most 15 characters and slot tokens joined by a
    white-space character, [split_text] keeps the row with that day and
    with these tokens as its slots, in their order, followed by missing
    cells up to the width of the frame. *)
Theorem split_text_reads_lines (df : list long_row) (f : day_frame) (lr : long_row)
        (w : N) (d : pystr) (toks : list pystr) (z : Z) :
  split_text df = Ok f ->
  In lr df ->
  isspace w = true ->
  Forall is_token (d :: toks) ->
  text lr = join [w] (d :: toks) ->
  int_literal d = Some z ->
  (length d <= 15)%nat ->
  (length toks <= slot_columns f)%nat
  /\ exists dr,
       In dr (day_rows f)
       /\ dr_week dr = lr_week lr
       /\ dr_day dr = z
       /\ slots dr = map Some toks ++ repeat None (slot_columns f - length toks).
Proof.
  intros H Hin Hw Htoks Htext Hint Hd15.
  destruct (split_text_inv df f H) as [Hk _].
  pose proof (split_text_kept df f H) as HF.
  assert (Hsplit : split_ws (text lr) = d :: toks).
  { rewrite Htext. now apply split_ws_join. }
  assert (Hlen : (length toks <= slot_columns f)%nat).
  { apply le_S_n. rewrite Hk. change (S (length toks)) with (length (d :: toks)).
    rewrite <- Hsplit. apply max_length_In. apply in_map_iff. now exists lr. }
  split; [exact Hlen|].
  destruct (parse_value_int d z Hint Hd15) as [Hv Hz].
  assert (Hp : first_token_parse lr = PInt z (FFin z 0)).
  { unfold first_token_parse. rewrite Hsplit. exact Hv. }
  destruct (Forall2_In_left _ _ _ lr HF) as [dr [Hdr [[Hweek Hs] Hd]]].
  { apply filter_In. split; [exact Hin|]. unfold is_kept. now rewrite Hp. }
  exists dr. split; [exact Hdr|]. split; [exact Hweek|]. split.
  - rewrite Hd, Hp. now apply cast_day_int.
  - rewrite Hs, Hsplit. unfold token_at.
    rewrite <- seq_shift, map_map. cbn [nth_error].
    now apply map_nth_error_seq.
Qed.

Lemma split_text_reads_lines_witness :
  (length [u "B病院"; u "C病院(17:30～翌8:30)"]
   <= slot_columns (mkdayframe 2
        [ mkdayrow (u "月") 32 [Some (u "A病院(8:30～17:30)"); None];
          mkdayrow (u "月") 7 [Some (u "B病院"); Some (u "C病院(17:30～翌8:30)")] ]))%nat.
Proof.
  apply (split_text_reads_lines split_text_sample
           (mkdayframe 2
              [ mkdayrow (u "月") 32 [Some (u "A病院(8:30～17:30)"); None];
                mkdayrow (u "月") 7 [Some (u "B病院"); Some (u "C病院(17:30～翌8:30)")] ])
           (mklong 1 (u "月") (join NL [u "7"; u "B病院"; u "C病院(17:30～翌8:30)"]))
           10%N (u "7") [u "B病院"; u "C病院(17:30～翌8:30)"] 7).
  - vm_compute. reflexivity.
  - right. right. left. reflexivity.
  - reflexivity.
  - repeat constructor; vm_compute; discriminate.
  - reflexivity.
  - reflexivity.
  - cbn. lia.
Defined.

(** ** SlotExpander *)

Lemma re_split_from_nonempty (prev : option N) (cur s : pystr) :
  re_split_from prev cur s <> [].
Proof.
  revert prev cur. induction s as [|c s IH]; intros prev cur; cbn [re_split_from].
  - discriminate.
  - destruct (_ && _); [discriminate | apply IH].
Qed.

Lemma join_cons (sep p : pystr) (rest : list pystr) :
  rest <> [] -> join sep (p :: rest) = p ++ sep ++ join sep rest.
Proof. destruct rest; [congruence | reflexivity]. Qed.

Lemma re_split_from_join (prev : option N) (cur s : pystr) :
  join [40%N] (re_split_from prev cur s) = rev cur ++ s.
Proof.
  revert prev cur. induction s as [|c s IH]; intros prev cur; cbn [re_split_from].
  - cbn [join]. now rewrite app_nil_r.
  - destruct ((c =? 40)%N && _) eqn:E.
    + apply andb_true_iff in E as [E _]. apply N.eqb_eq in E. subst c.
      rewrite join_cons by apply re_split_from_nonempty.
      rewrite IH. reflexivity.
    + rewrite IH. cbn [rev]. now rewrite <- app_assoc.
Qed.

Lemma re_split_join (s : pystr) : join [40%N] (re_split s) = s.
Proof. apply (re_split_from_join None [] s). Qed.

Lemma re_split_from_plain (prev : option N) (cur s : pystr) :
  ~ In 40%N s -> re_split_from prev cur s = [rev cur ++ s].
Proof.
  revert prev cur. induction s as [|c s IH]; intros prev cur Hs; cbn [re_split_from].
  - now rewrite app_nil_r.
  - destruct (N.eqb_spec c 40) as [-> | Hc]; [exfalso; apply Hs; now left|].
    cbn [andb]. rewrite IH by (intros H; apply Hs; now right).
    cbn [rev]. now rewrite <- app_assoc.
Qed.

Lemma melted_values_In (f : day_frame) (d : Z) (w : pystr) (v : Z) (s : pystr) :
  In (d, w, v, s) (melted_values f) <->
  exists dr n,
    In dr (day_rows f) /\ (1 <= n <= slot_columns f)%nat
    /\ v = Z.of_nat n /\ d = dr_day dr /\ w = dr_week dr
    /\ nth (n - 1) (slots dr) None = Some s.
Proof.
  unfold melted_values, melt. rewrite in_flat_map. split.
  - intros [[[[d' w'] v'] c] [Hin Hx]].
    destruct c as [s'|]; [|contradiction].
    destruct Hx as [Hx | []]. injection Hx as -> -> -> ->.
    apply in_flat_map in Hin as [n [Hn Hin]].
    apply in_map_iff in Hin as [dr [Hdr Hin]].
    injection Hdr as Hd Hw Hv Hs.
    apply in_seq in Hn. exists dr, n. repeat split; auto; lia.
  - intros [dr [n [Hdr [Hn [-> [-> [-> Hs]]]]]]].
    exists (dr_day dr, dr_week dr, Z.of_nat n, Some s). split; [|now left].
    apply in_flat_map. exists n. split; [apply in_seq; lia|].
    apply in_map_iff. exists dr. rewrite Hs. auto.
Qed.

Lemma max_length_le {A : Type} (l : list (list A)) (n : nat) :
  (forall x, In x l -> (length x <= n)%nat) -> (max_length l <= n)%nat.
Proof.
  induction l as [|x l IH]; intros H; cbn; [lia|].
  apply Nat.max_lub; [apply H; now left | apply IH; intros y Hy; apply H; now right].
Qed.

Lemma melt_and_split_inv (f : day_frame) (rows : list slot_row) :
  melt_and_split f = Ok rows ->
  slot_columns f <> 0%nat
  /\ (forall x, In x (melted_values f) -> (length (re_split (snd x)) <= 2)%nat)
  /\ rows = map slot_of_value (sort_by le_day_variable (melted_values f)).
Proof.
  unfold melt_and_split. fold (melted_values f).
  destruct (slot_columns f) as [|k]; [discriminate|].
  cbv zeta. rewrite map_map.
  destruct (Nat.eqb_spec (max_length
     (map (fun x : Z * pystr * Z * pystr =>
             snd (let '(d, w, v, s) := x in (d, w, v, re_split s)))
          (sort_by le_day_variable (melted_values f)))) 2) as [E|E]; [|discriminate].
  intros H. injection H as <-. split; [discriminate|]. split.
  - intros x Hx. rewrite <- E. apply max_length_In.
    apply in_map_iff. exists x. split.
    + now destruct x as [[[d w] v] s].
    + now apply sort_by_In.
  - rewrite map_map. apply map_ext. now intros [[[d w] v] s].
Qed.

Lemma list_two_or_less {A : Type} (l : list A) :
  l <> [] -> (length l <= 2)%nat ->
  (exists a, l = [a]) \/ (exists a b, l = [a; b]).
Proof.
  destruct l as [|a [|b [|c l]]]; cbn; intros Hne Hlen.
  - congruence.
  - left. now exists a.
  - right. now exists a, b.
  - lia.
Qed.

(** X5: every row [melt_and_split] returns comes from one slot cell of one
    row of the frame, with the day and the weekday label of that row and
    the number of the slot (counted from 1) as [variable].  The cell is
    either the name alone, and then the time is missing, or the name, "("
    and a rest, and then the time is the cleaned rest.  Every slot cell
    with a value gives such a row. *)
Theorem melt_and_split_rows (f : day_frame) (rows : list slot_row) :
  melt_and_split f = Ok rows ->
  (forall r, In r rows ->
     exists dr n s,
       In dr (day_rows f) /\ (1 <= n <= slot_columns f)%nat
       /\ nth (n - 1) (slots dr) None = Some s
       /\ s_day r = dr_day dr /\ s_week r = dr_week dr /\ s_variable r = Z.of_nat n
       /\ ((s_time r = None /\ s = s_name r)
           \/ exists t, s_time r = Some (clean_time t) /\ s = s_name r ++ 40%N :: t))
  /\ (forall dr n s,
        In dr (day_rows f) -> (1 <= n <= slot_columns f)%nat ->
        nth (n - 1) (slots dr) None = Some s ->
        In (slot_of_value (dr_day dr, dr_week dr, Z.of_nat n, s)) rows).
Proof.
  intros H. destruct (melt_and_split_inv f rows H) as [_ [Hlen ->]]. split.
  - intros r Hr. apply in_map_iff in Hr as [[[[d w] v] s] [<- Hx]].
    apply sort_by_In in Hx. pose proof (Hlen _ Hx) as Hl. cbn [snd] in Hl.
    apply melted_values_In in Hx as [dr [n [Hdr [Hn [-> [-> [-> Hs]]]]]]].
    exists dr, n, s. cbn [slot_of_value s_day s_week s_variable s_name s_time].
    repeat (split; [assumption || reflexivity || lia|]).
    pose proof (re_split_join s) as Hj.
    destruct (list_two_or_less (re_split s)) as [[a Ha] | [a [b Hab]]];
      [apply re_split_from_nonempty | exact Hl | |].
    + left. rewrite Ha in *. cbn in Hj. cbn. now split.
    + right. rewrite Hab in *. cbn in Hj. exists b. cbn. now split.
  - intros dr n s Hdr Hn Hs. apply in_map. apply sort_by_In.
    apply melted_values_In. exists dr, n. auto 10.
Qed.

Lemma melt_and_split_rows_witness :
  In (slot_of_value (dr_day (mkdayrow (u "月") 7 [Some (u "B病院"); Some (u "C病院(17:30～翌8:30)")]),
                     dr_week (mkdayrow (u "月") 7 [Some (u "B病院"); Some (u "C病院(17:30～翌8:30)")]),
                     Z.of_nat 2, u "C病院(17:30～翌8:30)"))
     [ mkslot 7 (u "月") 1 (u "B病院") None;
       mkslot 7 (u "月") 2 (u "C病院") (Some (u "17:30～翌8:30"));
       mkslot 32 (u "月") 1 (u "A病院") (Some (u "8:30～17:30")) ].
Proof.
  apply (melt_and_split_rows
           (mkdayframe 2
              [ mkdayrow (u "月") 32 [Some (u "A病院(8:30～17:30)"); None];
                mkdayrow (u "月") 7 [Some (u "B病院"); Some (u "C病院(17:30～翌8:30)")] ])).
  - vm_compute. reflexivity.
  - right. left. reflexivity.
  - cbn [slot_columns]. lia.
  - reflexivity.
Defined.

Lemma le_day_variable_total (a b : Z * pystr * Z * pystr) :
  le_day_variable a b = false -> le_day_variable b a = true.
Proof.
  destruct a as [[[d1 w1] v1] s1], b as [[[d2 w2] v2] s2]. unfold le_day_variable.
  destruct (d1 <? d2) eqn:E1, (d1 =? d2) eqn:E2, (d2 <? d1) eqn:E3, (d2 =? d1) eqn:E4,
    (v1 <=? v2) eqn:E5, (v2 <=? v1) eqn:E6; cbn; try reflexivity; try discriminate; lia.
Qed.

Lemma le_day_variable_trans (a b c : Z * pystr * Z * pystr) :
  le_day_variable a b = true -> le_day_variable b c = true -> le_day_variable a c = true.
Proof.
  destruct a as [[[d1 w1] v1] s1], b as [[[d2 w2] v2] s2], c as [[[d3 w3] v3] s3].
  unfold le_day_variable.
  rewrite !orb_true_iff, !andb_true_iff.
  rewrite !Z.ltb_lt, !Z.eqb_eq, !Z.leb_le. lia.
Qed.

Lemma StronglySorted_map {A B : Type} (R : A -> A -> Prop) (Q : B -> B -> Prop)
      (g : A -> B) (l : list A) :
  (forall a b, R a b -> Q (g a) (g b)) ->
  StronglySorted R l -> StronglySorted Q (map g l).
Proof.
  intros HRQ. induction 1 as [|a l Hs IH Hall]; cbn [map]; constructor.
  - exact IH.
  - apply Forall_map. revert Hall. apply Forall_impl. intros b. apply HRQ.
Qed.

Lemma StronglySorted_filter {A : Type} (R : A -> A -> Prop) (p : A -> bool) (l : list A) :
  StronglySorted R l -> StronglySorted R (filter p l).
Proof.
  induction 1 as [|a l Hs IH Hall]; cbn [filter]; [constructor|].
  destruct (p a); [|exact IH]. constructor; [exact IH|].
  apply Forall_forall. intros x Hx. apply filter_In in Hx as [Hx _].
  rewrite Forall_forall in Hall. now apply Hall.
Qed.

Lemma melt_and_split_sorted (f : day_frame) (rows : list slot_row) :
  melt_and_split f = Ok rows ->
  StronglySorted (fun a b => le_slot a b = true) rows.
Proof.
  intros H. destruct (melt_and_split_inv f rows H) as [_ [_ ->]].
  apply StronglySorted_map with (R := fun a b => le_day_variable a b = true).
  - now intros [[[d1 w1] v1] s1] [[[d2 w2] v2] s2].
  - apply sort_by_strongly_sorted;
      [apply le_day_variable_total | apply le_day_variable_trans].
Qed.

(** X6: a frame in which no slot cell holds a "(" is refused: every value
    splits into one piece, the split has one column, and the assignment to
    the two columns name and time raises ValueError.  So a month without a
    single time in parentheses gives no rows but an error. *)
Theorem melt_and_split_no_time (f : day_frame) :
  slot_columns f <> 0%nat ->
  (forall dr s, In dr (day_rows f) -> In (Some s) (slots dr) -> ~ In 40%N s) ->
  melt_and_split f = Raise ValueError.
Proof.
  intros Hk Hplain. unfold melt_and_split. fold (melted_values f).
  destruct (slot_columns f) as [|k] eqn:Ek; [congruence|]. cbv zeta.
  rewrite map_map.
  match goal with |- (if Nat.eqb ?m 2 then _ else _) = _ =>
    assert (Hm : (m <= 1)%nat) end.
  { apply max_length_le. intros ps Hps.
    apply in_map_iff in Hps as [[[[d w] v] s] [<- Hx]]. cbn [snd].
    apply sort_by_In in Hx.
    apply melted_values_In in Hx as [dr [n [Hdr [Hn [_ [_ [_ Hs]]]]]]].
    unfold re_split. rewrite re_split_from_plain; [cbn; lia|].
    apply (Hplain dr s Hdr). rewrite <- Hs. apply nth_In.
    destruct (Nat.lt_ge_cases (n - 1) (length (slots dr))) as [Hlt | Hge]; [exact Hlt|].
    rewrite nth_overflow in Hs by exact Hge. discriminate. }
  match goal with |- (if Nat.eqb ?m 2 then _ else _) = _ =>
    destruct (Nat.eqb_spec m 2) as [E|E] end; [lia | reflexivity].
Qed.

Lemma melt_and_split_no_time_witness :
  melt_and_split (mkdayframe 1 [mkdayrow (u "月") 7 [Some (u "B病院")]]) = Raise ValueError.
Proof.
  apply (melt_and_split_no_time (mkdayframe 1 [mkdayrow (u "月") 7 [Some (u "B病院")]])).
  - discriminate.
  - intros dr s [<- | []] [Hs | []]. injection Hs as <-. vm_compute.
    intros H; repeat (destruct H as [H | H]; [discriminate|]); exact H.
Defined.

(** ** Classifier *)

Lemma mask_type_row_mk (cond : row -> bool) (x : Z) d w v n t y :
  mask_type_row cond x (mkrow d w v n t y)
  = mkrow d w v n t (if cond (mkrow d w v n t y) then x else y).
Proof. unfold mask_type_row. now destruct (cond _). Qed.

Lemma mask_time_row_mk (cond : row -> bool) (s : pystr) d w v n t y :
  mask_time_row cond s (mkrow d w v n t y)
  = mkrow d w v n (if cond (mkrow d w v n t y) then Some s else t) y.
Proof. unfold mask_time_row. now destruct (cond _). Qed.

Lemma after_padding_other d w v n t y :
  y <> 8 -> after_padding (mkrow d w v n t y) = mkrow d w v n t y.
Proof.
  intros Hy. apply Z.eqb_neq in Hy. unfold after_padding.
  rewrite (mask_type_row_false rule9)
    by (unfold rule9; cbn [variable type]; rewrite Hy; now rewrite andb_false_r).
  rewrite (mask_type_row_false rule10)
    by (unfold rule10; cbn [variable type]; rewrite Hy; now rewrite andb_false_r).
  rewrite (mask_type_row_false rule11)
    by (unfold rule11; cbn [variable type]; rewrite Hy; now rewrite andb_false_r).
  apply mask_type_row_false.
  unfold rule12; cbn [variable type]; rewrite Hy; now rewrite andb_false_r.
Qed.

Lemma after_padding_default d w v n t :
  after_padding (mkrow d w v n t 8)
  = mkrow d w v n t
      (if rule9 (mkrow d w v n t 8) then 1
       else if rule10 (mkrow d w v n t 8) then 2
       else if rule11 (mkrow d w v n t 8) then 3
       else if rule12 (mkrow d w v n t 8) then 4
       else 8).
Proof.
  destruct (rule9 (mkrow d w v n t 8)) eqn:E9.
  { unfold after_padding. rewrite (mask_type_row_true rule9) by exact E9.
    cbn [day week variable name time type].
    rewrite (mask_type_row_mk rule10), (mask_type_row_mk rule11), (mask_type_row_mk rule12).
    unfold rule10, rule11, rule12. cbn [variable type]. cbn [Z.eqb Pos.eqb].
    now rewrite !andb_false_r. }
  destruct (rule10 (mkrow d w v n t 8)) eqn:E10.
  { unfold after_padding. rewrite (mask_type_row_false rule9) by exact E9.
    rewrite (mask_type_row_true rule10) by exact E10.
    cbn [day week variable name time type].
    rewrite (mask_type_row_mk rule11), (mask_type_row_mk rule12).
    unfold rule11, rule12. cbn [variable type]. cbn [Z.eqb Pos.eqb].
    now rewrite !andb_false_r. }
  destruct (rule11 (mkrow d w v n t 8)) eqn:E11.
  { unfold after_padding. rewrite (mask_type_row_false rule9) by exact E9.
    rewrite (mask_type_row_false rule10) by exact E10.
    rewrite (mask_type_row_true rule11) by exact E11.
    cbn [day week variable name time type].
    rewrite (mask_type_row_mk rule12).
    unfold rule12. cbn [variable type]. cbn [Z.eqb Pos.eqb].
    now rewrite !andb_false_r. }
  unfold after_padding. rewrite (mask_type_row_false rule9) by exact E9.
  rewrite (mask_type_row_false rule10) by exact E10.
  rewrite (mask_type_row_false rule11) by exact E11.
  now rewrite (mask_type_row_mk rule12).
Qed.

Lemma before_padding_with_time d w v n t :
  before_padding (mkslot d w v n (Some t))
  = mkrow d w v n (Some t)
      (if rule3 (mkrow d w v n (Some t) 8) then 7 else if isin n island then 9 else 8).
Proof.
  unfold before_padding.
  change (rule1 (mkslot d w v n (Some t))) with (mkrow d w v n (Some t) 8).
  rewrite (mask_type_row_mk rule2), (mask_type_row_mk rule3).
  rewrite (mask_time_row_false rule4) by reflexivity.
  rewrite (mask_time_row_false rule5) by reflexivity.
  rewrite (mask_type_row_false rule6) by reflexivity.
  change (rule2 (mkrow d w v n (Some t) 8)) with (isin n island).
  change (rule3 (mkrow d w v n (Some t) (if isin n island then 9 else 8)))
    with (rule3 (mkrow d w v n (Some t) 8)).
  apply mask_time_row_false. unfold rule7. cbn [type].
  now destruct (rule3 _), (isin n island).
Qed.

Lemma before_padding_without_time d w v n :
  before_padding (mkslot d w v n None)
  = if rule3 (mkrow d w v n None 8) then mkrow d w v n (Some T_PEDIATRIC) 7
    else if isin n island then mkrow d w v n (Some (u "09:00～17:00")) 9
    else if v =? 1 then mkrow d w v n (Some (u "8:30～翌8:30")) 0
    else mkrow d w v n None 8.
Proof.
  unfold before_padding.
  change (rule1 (mkslot d w v n None)) with (mkrow d w v n None 8).
  rewrite (mask_type_row_mk rule2), (mask_type_row_mk rule3).
  change (rule2 (mkrow d w v n None 8)) with (isin n island).
  change (rule3 (mkrow d w v n None (if isin n island then 9 else 8)))
    with (rule3 (mkrow d w v n None 8)).
  destruct (rule3 (mkrow d w v n None 8)).
  { rewrite (mask_time_row_true rule4) by reflexivity. reflexivity. }
  destruct (isin n island).
  { rewrite (mask_time_row_false rule4) by reflexivity.
    rewrite (mask_time_row_true rule5) by reflexivity. reflexivity. }
  rewrite (mask_time_row_false rule4) by reflexivity.
  rewrite (mask_time_row_false rule5) by reflexivity.
  rewrite (mask_type_row_mk rule6).
  change (rule6 (mkrow d w v n None 8)) with (v =? 1).
  now destruct (v =? 1).
Qed.

Lemma replace_fixed_times :
  replace (u "8:30") (u "08:30") T_PEDIATRIC = T_PEDIATRIC
  /\ replace (u "8:30") (u "08:30") (u "09:00～17:00") = u "09:00～17:00"
  /\ replace (u "8:30") (u "08:30") (u "8:30～翌8:30") = u "08:30～翌08:30".
Proof. repeat split; vm_compute; reflexivity. Qed.

Lemma categorize_row_table (r : slot_row) :
  categorize_row r
  = mkrow (s_day r) (s_week r) (s_variable r) (s_name r) (time_table r) (type_table r).
Proof.
  destruct r as [d w v n [t|]]; unfold categorize_row, time_table, type_table;
    cbn [s_day s_week s_variable s_name s_time].
  - rewrite before_padding_with_time.
    change (rule1 (mkslot d w v n (Some t))) with (mkrow d w v n (Some t) 8).
    unfold replace_time_row. cbn [day week variable name time type option_map].
    change (replace (u "8:30") (u "08:30") t) with (zero_pad t).
    destruct (rule3 (mkrow d w v n (Some t) 8)).
    { rewrite after_padding_other; [reflexivity | lia]. }
    destruct (isin n island).
    { rewrite after_padding_other; [reflexivity | lia]. }
    rewrite after_padding_default. f_equal.
    unfold rule9, rule10, rule11, rule12, time_eq.
    cbn [variable name time type]. cbn [Z.eqb Pos.eqb].
    rewrite !andb_true_r. reflexivity.
  - rewrite before_padding_without_time.
    change (rule1 (mkslot d w v n None)) with (mkrow d w v n None 8).
    destruct (rule3 (mkrow d w v n None 8)).
    { unfold replace_time_row. cbn [day week variable name time type option_map].
      rewrite (proj1 replace_fixed_times).
      rewrite after_padding_other; [reflexivity | lia]. }
    destruct (isin n island).
    { unfold replace_time_row. cbn [day week variable name time type option_map].
      rewrite (proj1 (proj2 replace_fixed_times)).
      rewrite after_padding_other; [reflexivity | lia]. }
    destruct (v =? 1).
    { unfold replace_time_row. cbn [day week variable name time type option_map].
      rewrite (proj2 (proj2 replace_fixed_times)).
      rewrite after_padding_other; [reflexivity | lia]. }
    unfold replace_time_row. cbn [day week variable name time type option_map].
    rewrite after_padding_default. f_equal.
    unfold rule9, rule10, rule11, rule12, time_eq.
    cbn [variable name time type].
    rewrite !andb_false_r. reflexivity.
Qed.

(** ** A time that is already padded (C2) *)

Lemma fixed_fill_no_padded_time (pre post : pystr) :
  T_PEDIATRIC <> pre ++ u "08:30" ++ post
  /\ u "09:00～17:00" <> pre ++ u "08:30" ++ post
  /\ u "8:30～翌8:30" <> pre ++ u "08:30" ++ post.
Proof.
  repeat split; intros E; symmetry in E; revert E;
    apply (@not_contains_neq (u "08:30") _ _ pre post); try reflexivity;
    vm_compute; reflexivity.
Qed.

(** A time that holds "08:30" when the zero-padding step runs is a time of
    the grid: the times the earlier steps fill in do not hold it. *)
Lemma padded_time_from_grid (s : slot_row) (pre post : pystr) :
  time (before_padding s) = Some (pre ++ u "08:30" ++ post) ->
  s_time s = Some (pre ++ u "08:30" ++ post)
  /\ type (before_padding s)
     = (if rule3 (rule1 s) then 7 else if isin (s_name s) island then 9 else 8).
Proof.
  destruct (fixed_fill_no_padded_time pre post) as [H1 [H2 H3]].
  destruct s as [d w v n [t|]]; cbn [s_time s_name].
  - rewrite before_padding_with_time. cbn [time type]. intros H. split; [exact H|].
    reflexivity.
  - rewrite before_padding_without_time.
    destruct (rule3 (mkrow d w v n None 8)); cbn [time]; [congruence|].
    destruct (isin n island); cbn [time]; [congruence|].
    destruct (v =? 1); cbn [time]; [congruence | discriminate].
Qed.

(** C2, as stated, fails: the row of the island facility 片山医院 with the
    time "08:30～17:00" has "08:30" when the zero-padding step runs, the
    step makes it "008:30～17:00", and the row ends with the type 9 of
    rule 2, not 8. *)
Lemma padded_island_row_keeps_type_9 :
  time (before_padding (mkslot 1 (u "月") 1 (u "片山医院") (Some (u "08:30～17:00"))))
  = Some ([] ++ u "08:30" ++ u "～17:00")
  /\ categorize_data [mkslot 1 (u "月") 1 (u "片山医院") (Some (u "08:30～17:00"))]
     = [mkrow 1 (u "月") 1 (u "片山医院") (Some (u "008:30～17:00")) 9]
  /\ 9 <> 8.
Proof. repeat split; try (vm_compute; reflexivity). discriminate. Qed.

(** C2, amended: when the time of the row at position [i] holds "08:30" at
    the moment of the zero-padding step, the time is one read from the
    grid, the step rewrites that occurrence too and the time of the row
    of [categorize_data] at position [i] holds "008:30" there; it equals
    none of the four strings of the rules 9 to 12, so the row never gets
    the type 1, 2, 3 or 4 and keeps the type of the rules 1 to 3: 7 for a
    row of rule 3, else 9 for an island facility, else 8. *)
Theorem padded_time_is_padded_again (df : list slot_row) (i : nat) (s : slot_row)
        (pre post : pystr) :
  nth_error df i = Some s ->
  time (before_padding s) = Some (pre ++ u "08:30" ++ post) ->
  exists r a,
    nth_error (categorize_data df) i = Some r
    /\ s_time s = Some (pre ++ u "08:30" ++ post)
    /\ zero_pad (pre ++ u "0") = a ++ u "0"
    /\ time r = Some (a ++ u "008:30" ++ zero_pad post)
    /\ (forall t, In t fixed_schedule_times -> time r <> Some t)
    /\ ~ In (type r) [1; 2; 3; 4]
    /\ type r = (if rule3 (rule1 s) then 7 else if isin (s_name s) island then 9 else 8).
Proof.
  intros Hi Ht. exists (categorize_row s).
  destruct (padded_row_keeps_type s pre post Ht) as [[a [Ha Htime]] [Hfix [_ [Hty _]]]].
  destruct (padded_time_from_grid s pre post Ht) as [Hs Hbp].
  exists a. split.
  { rewrite categorize_data_map. now apply map_nth_error. }
  split; [exact Hs|]. split; [exact Ha|]. split; [exact Htime|]. split; [exact Hfix|].
  rewrite Hty, Hbp. split; [|reflexivity].
  destruct (rule3 (rule1 s)); [|destruct (isin (s_name s) island)];
    cbn [In]; intros H; repeat (destruct H as [H | H]; [discriminate|]); exact H.
Qed.

Lemma padded_time_is_padded_again_witness :
  exists r a,
    nth_error (categorize_data
                 [ mkslot 1 (u "月") 1 (u "A病院") (Some (u "08:30～17:30"));
                   mkslot 1 (u "月") 2 (u "片山医院") (Some (u "08:30～17:00")) ]) 1
    = Some r
    /\ s_time (mkslot 1 (u "月") 2 (u "片山医院") (Some (u "08:30～17:00")))
       = Some ([] ++ u "08:30" ++ u "～17:00")
    /\ zero_pad ([] ++ u "0") = a ++ u "0"
    /\ time r = Some (a ++ u "008:30" ++ zero_pad (u "～17:00"))
    /\ (forall t, In t fixed_schedule_times -> time r <> Some t)
    /\ ~ In (type r) [1; 2; 3; 4]
    /\ type r = (if rule3 (rule1 (mkslot 1 (u "月") 2 (u "片山医院") (Some (u "08:30～17:00"))))
                 then 7
                 else if isin (s_name (mkslot 1 (u "月") 2 (u "片山医院")
                                              (Some (u "08:30～17:00")))) island
                      then 9 else 8).
Proof.
  apply (padded_time_is_padded_again
           [ mkslot 1 (u "月") 1 (u "A病院") (Some (u "08:30～17:30"));
             mkslot 1 (u "月") 2 (u "片山医院") (Some (u "08:30～17:00")) ]
           1 (mkslot 1 (u "月") 2 (u "片山医院") (Some (u "08:30～17:00")))
           [] (u "～17:00")).
  - reflexivity.
  - vm_compute. reflexivity.
Defined.

(** X7: the twelve steps of [categorize_data] amount to one decision per
    row.  The rows keep their order and their day, weekday label, slot and
    name.  The code is 7 for a pediatric row (a slot after the first, a name
    of the pediatric list, no "翌" in the time), else 9 for a name of the
    island list, else 0 for a first slot without a time, else 1 to 4 for
    the first rule among the rules 9 to 12 that the slot, the zero-padded
    time and the name satisfy, else 8.  A time is zero-padded; a missing
    time becomes the fixed time of the code 7, 9 or 0 and stays missing for
    the code 8. *)
Theorem categorize_data_table (df : list slot_row) :
  categorize_data df
  = map (fun r => mkrow (s_day r) (s_week r) (s_variable r) (s_name r)
                        (time_table r) (type_table r)) df.
Proof.
  rewrite categorize_data_map. apply map_ext. apply categorize_row_table.
Qed.

Lemma island_not_pediatric (n : pystr) :
  isin n island = true -> isin n pediatrics = false.
Proof.
  unfold isin at 1. unfold island. cbn [existsb]. rewrite !orb_true_iff.
  intros H.
  repeat (destruct H as [H | H]; [apply str_eqb_eq in H; subst n; vm_compute; reflexivity|]).
  discriminate.
Qed.

Lemma rule3_slot (s : slot_row) :
  rule3 (rule1 s) = true ->
  1 < s_variable s /\ isin (s_name s) pediatrics = true /\ isin (s_name s) island = false.
Proof.
  unfold rule3, rule1. cbn [variable name time].
  generalize (negb (contains (u "翌") match s_time s with Some t => t | None => [] end)).
  intros b H. apply andb_true_iff in H as [H _]. apply andb_true_iff in H as [Hv Hp].
  apply Z.ltb_lt in Hv. split; [exact Hv|]. split; [exact Hp|].
  destruct (isin (s_name s) island) eqn:Ei; [|reflexivity].
  apply island_not_pediatric in Ei. congruence.
Qed.

(** The codes of the rules 9 to 12, read off the table. *)
Lemma type_table_schedule (s : slot_row) (c : Z) :
  type_table s = c -> 1 <= c <= 4 ->
  exists t, s_time s = Some t
    /\ ((c = 1 /\ s_variable s = 1 /\ zero_pad t = u "08:30～17:30")
        \/ (c = 2 /\ s_variable s = 2 /\ zero_pad t = u "17:30～翌08:30")
        \/ (c = 3 /\ s_variable s = 1 /\ zero_pad t = u "08:30～17:15 / 22:30～翌08:30"
            /\ s_name s = u "県立今治病院")
        \/ (c = 4 /\ s_variable s = 2 /\ zero_pad t = u "17:15～22:30"
            /\ s_name s = u "今治セントラルクリニック")).
Proof.
  unfold type_table.
  destruct (rule3 (rule1 s)); [lia|].
  destruct (isin (s_name s) island); [lia|].
  destruct (s_time s) as [t|]; [|destruct (s_variable s =? 1); lia].
  intros H Hc. exists t. split; [reflexivity|].
  destruct (_ && _) eqn:E1 in H.
  { apply andb_true_iff in E1 as [Ev Et]. apply Z.eqb_eq in Ev. apply str_eqb_eq in Et.
    left. auto. }
  destruct (_ && _) eqn:E2 in H.
  { apply andb_true_iff in E2 as [Ev Et]. apply Z.eqb_eq in Ev. apply str_eqb_eq in Et.
    right. left. auto. }
  destruct (_ && _) eqn:E3 in H.
  { apply andb_true_iff in E3 as [E3 En]. apply andb_true_iff in E3 as [Ev Et].
    apply Z.eqb_eq in Ev. apply str_eqb_eq in Et, En.
    right. right. left. auto. }
  destruct (_ && _) eqn:E4 in H.
  { apply andb_true_iff in E4 as [E4 En]. apply andb_true_iff in E4 as [Ev Et].
    apply Z.eqb_eq in Ev. apply str_eqb_eq in Et, En.
    right. right. right. auto. }
  lia.
Qed.

Lemma type_table_without_time (s : slot_row) :
  rule3 (rule1 s) = false -> isin (s_name s) island = false ->
  type_table s = match s_time s with
                 | None => if s_variable s =? 1 then 0 else 8
                 | Some _ => type_table s
                 end
  /\ (type_table s <> 7 /\ type_table s <> 9)
  /\ (type_table s = 0 -> s_time s = None /\ s_variable s = 1).
Proof.
  intros H3 Hi. unfold type_table. rewrite H3, Hi.
  destruct (s_time s) as [t|].
  - split; [reflexivity|].
    repeat match goal with
           | |- context [str_eqb ?a ?b] => generalize (str_eqb a b); intro
           end.
    repeat (destruct (_ && _); [repeat split; intros; lia|]).
    repeat split; intros; lia.
  - split; [reflexivity|].
    destruct (s_variable s =? 1) eqn:Ev.
    + apply Z.eqb_eq in Ev. repeat split; try discriminate; exact Ev.
    + repeat split; discriminate.
Qed.

Lemma type_table_9 (s : slot_row) :
  type_table s = 9 <-> isin (s_name s) island = true.
Proof.
  pose proof (rule3_slot s) as H3.
  destruct (rule3 (rule1 s)) eqn:E3.
  - destruct (H3 eq_refl) as [_ [_ Hi]]. rewrite Hi.
    unfold type_table. rewrite E3. split; discriminate.
  - destruct (isin (s_name s) island) eqn:Ei.
    + unfold type_table. rewrite E3, Ei. split; reflexivity.
    + destruct (type_table_without_time s E3 Ei) as [_ [[_ H9] _]].
      split; [contradiction | discriminate].
Qed.

Lemma type_table_7 (s : slot_row) :
  type_table s = 7 <-> rule3 (rule1 s) = true.
Proof.
  destruct (rule3 (rule1 s)) eqn:E3.
  - unfold type_table. rewrite E3. split; reflexivity.
  - destruct (isin (s_name s) island) eqn:Ei.
    + unfold type_table. rewrite E3, Ei. split; discriminate.
    + destruct (type_table_without_time s E3 Ei) as [_ [[H7 _] _]].
      split; [contradiction | discriminate].
Qed.

Lemma type_table_0 (s : slot_row) :
  type_table s = 0 <->
  s_time s = None /\ s_variable s = 1 /\ isin (s_name s) island = false.
Proof.
  pose proof (rule3_slot s) as H3.
  destruct (rule3 (rule1 s)) eqn:E3.
  - destruct (H3 eq_refl) as [Hv _].
    unfold type_table. rewrite E3. split; [discriminate | intros [_ [Hv1 _]]; lia].
  - destruct (isin (s_name s) island) eqn:Ei.
    + unfold type_table. rewrite E3, Ei. split; [discriminate | intros [_ [_ H]]; discriminate].
    + destruct (type_table_without_time s E3 Ei) as [Heq [_ H0]]. split.
      * intros H. destruct (H0 H) as [Ht Hv]. auto.
      * intros [Ht [Hv _]]. rewrite Heq, Ht, Hv. reflexivity.
Qed.

Lemma time_table_missing (s : slot_row) :
  time_table s = None <->
  s_time s = None /\ s_variable s <> 1
  /\ isin (s_name s) island = false /\ rule3 (rule1 s) = false.
Proof.
  unfold time_table. destruct (s_time s) as [t|].
  - split; [discriminate | intros [H _]; discriminate].
  - destruct (rule3 (rule1 s)).
    { split; [discriminate | intros [_ [_ [_ H]]]; discriminate]. }
    destruct (isin (s_name s) island).
    { split; [discriminate | intros [_ [_ [H _]]]; discriminate]. }
    destruct (s_variable s =? 1) eqn:Ev.
    + apply Z.eqb_eq in Ev. split; [discriminate | intros [_ [H _]]; contradiction].
    + apply Z.eqb_neq in Ev. split; auto.
Qed.

(** X8: which rows get the codes 9, 7 and 0, and which rows are left
    without a time.  A row gets 9 exactly when its name is in the island
    list (no name is in both lists, so rule 3 never overrides rule 2); it
    gets 7 exactly when it satisfies rule 3; it gets 0 exactly when it has
    no time, is in the first slot and is not an island row.  Its time is
    missing afterwards exactly when it was missing, the slot is not the
    first and neither rule 2 nor rule 3 applies; such a row has the code
    8. *)
Theorem categorize_data_codes (df : list slot_row) :
  Forall2 (fun s r =>
             (type r = 9 <-> isin (s_name s) island = true)
             /\ (type r = 7 <-> rule3 (rule1 s) = true)
             /\ (type r = 0 <->
                 s_time s = None /\ s_variable s = 1 /\ isin (s_name s) island = false)
             /\ (time r = None <->
                 s_time s = None /\ s_variable s <> 1
                 /\ isin (s_name s) island = false /\ rule3 (rule1 s) = false)
             /\ (time r = None -> type r = 8))
          df (categorize_data df).
Proof.
  rewrite categorize_data_map. apply Forall2_map_right. intros s _.
  rewrite categorize_row_table. cbn [type time].
  split; [apply type_table_9|]. split; [apply type_table_7|].
  split; [apply type_table_0|]. split; [apply time_table_missing|].
  intros H. apply time_table_missing in H as [Ht [Hv [Hi Hr]]].
  destruct (type_table_without_time s Hr Hi) as [Heq _].
  rewrite Heq, Ht. apply Z.eqb_neq in Hv. now rewrite Hv.
Qed.

(** X9: the codes 1 to 4 are given to rows with a time only, in the slot
    and with the time (and, for 3 and 4, the name) of their rule: after
    [categorize_data] a row of code 1 is in slot 1 with the time
    "08:30～17:30", a row of code 2 in slot 2 with "17:30～翌08:30", a row of
    code 3 is the row of 県立今治病院 in slot 1 with
    "08:30～17:15 / 22:30～翌08:30", a row of code 4 the row of
    今治セントラルクリニック in slot 2 with "17:15～22:30". *)
Theorem categorize_data_schedule_codes (df : list slot_row) :
  Forall (fun r =>
            (type r = 1 -> variable r = 1 /\ time r = Some (u "08:30～17:30"))
            /\ (type r = 2 -> variable r = 2 /\ time r = Some (u "17:30～翌08:30"))
            /\ (type r = 3 ->
                variable r = 1 /\ time r = Some (u "08:30～17:15 / 22:30～翌08:30")
                /\ name r = u "県立今治病院")
            /\ (type r = 4 ->
                variable r = 2 /\ time r = Some (u "17:15～22:30")
                /\ name r = u "今治セントラルクリニック"))
         (categorize_data df).
Proof.
  rewrite categorize_data_map. apply Forall_map. apply Forall_forall. intros s _.
  rewrite categorize_row_table. cbn [type time variable name].
  split; [|split; [|split]]; intros Hc.
  - destruct (type_table_schedule s 1 Hc) as [t [Ht Hcase]]; [lia|].
    unfold time_table. rewrite Ht.
    destruct Hcase as [[_ [Hv Hz]] | [[Hn _] | [[Hn _] | [Hn _]]]]; try lia.
    rewrite Hz. auto.
  - destruct (type_table_schedule s 2 Hc) as [t [Ht Hcase]]; [lia|].
    unfold time_table. rewrite Ht.
    destruct Hcase as [[Hn _] | [[_ [Hv Hz]] | [[Hn _] | [Hn _]]]]; try lia.
    rewrite Hz. auto.
  - destruct (type_table_schedule s 3 Hc) as [t [Ht Hcase]]; [lia|].
    unfold time_table. rewrite Ht.
    destruct Hcase as [[Hn _] | [[Hn _] | [[_ [Hv [Hz Hname]]] | [Hn _]]]]; try lia.
    rewrite Hz. auto.
  - destruct (type_table_schedule s 4 Hc) as [t [Ht Hcase]]; [lia|].
    unfold time_table. rewrite Ht.
    destruct Hcase as [[Hn _] | [[Hn _] | [[Hn _] | [_ [Hv [Hz Hname]]]]]]; try lia.
    rewrite Hz. auto.
Qed.

(** ** The order of the rows *)

Lemma classify_inv (table : raw_grid) (df : list row) :
  classify table = Ok df ->
  exists long f slots,
    process_table table = Ok long /\ split_text long = Ok f
    /\ melt_and_split f = Ok slots
    /\ df = map categorize_row (filter_data slots).
Proof.
  unfold classify, slot_rows.
  destruct (process_table table) as [long|e] eqn:H1; [|discriminate]. cbn [bind].
  destruct (split_text long) as [f|e] eqn:H2; [|discriminate]. cbn [bind].
  destruct (melt_and_split f) as [slots|e] eqn:H3; [|discriminate]. cbn [bind].
  intros H. injection H as <-. exists long, f, slots.
  rewrite categorize_data_map. auto.
Qed.

Lemma categorize_row_keeps (s : slot_row) :
  day (categorize_row s) = s_day s /\ week (categorize_row s) = s_week s
  /\ variable (categorize_row s) = s_variable s /\ name (categorize_row s) = s_name s.
Proof. rewrite categorize_row_table. repeat split. Qed.

(** X10: the rows that reach the GapFiller are in the order the
    SlotExpander gave them: sorted by day, then by slot.  The Filter and
    the Classifier remove rows and rewrite columns but move no row. *)
Theorem classify_sorted (table : raw_grid) (df : list row) :
  classify table = Ok df ->
  StronglySorted (fun a b => le_row a b = true) df.
Proof.
  intros H. apply classify_inv in H as [long [f [slots [_ [_ [Hm ->]]]]]].
  apply StronglySorted_map with (R := fun a b => le_slot a b = true).
  - intros a b Hab. unfold le_row.
    destruct (categorize_row_keeps a) as [-> [_ [-> _]]].
    destruct (categorize_row_keeps b) as [-> [_ [-> _]]]. exact Hab.
  - apply StronglySorted_filter. now apply melt_and_split_sorted with (f := f).
Qed.

Lemma classify_sorted_witness :
  StronglySorted (fun a b => le_row a b = true)
    [ mkrow 3 (u "月") 1 (u "県立今治病院") (Some (u "08:30～17:15 / 22:30～翌08:30")) 3;
      mkrow 3 (u "月") 2 (u "今治セントラルクリニック") (Some (u "17:15～22:30")) 4;
      mkrow 3 (u "月") 3 (u "あおい小児科") (Some T_PEDIATRIC) 7;
      mkrow 7 (u "日") 1 (u "医師会市民病院") (Some (u "08:30～翌08:30")) 0;
      mkrow 7 (u "日") 2 (u "喜多嶋診療所") (Some (u "09:00～17:00")) 9 ].
Proof.
  apply (classify_sorted sample_grid). vm_compute. reflexivity.
Defined.

Section Stable.
Variable A : Type.
Variable le : A -> A -> bool.
Variable p : A -> bool.
Hypothesis same_key : forall a b, p a = true -> p b = true -> le a b = true.

Lemma insert_by_filter (x : A) (l : list A) :
  filter p (insert_by le x l) = filter p (x :: l).
Proof.
  induction l as [|y l IH]; [reflexivity|].
  cbn [insert_by]. destruct (le x y) eqn:E; [reflexivity|].
  cbn [filter] in *. rewrite IH.
  destruct (p x) eqn:Px, (p y) eqn:Py; try reflexivity.
  rewrite (same_key x y Px Py) in E. discriminate.
Qed.

Lemma sort_by_filter (l : list A) : filter p (sort_by le l) = filter p l.
Proof.
  induction l as [|x l IH]; [reflexivity|].
  cbn [sort_by]. rewrite insert_by_filter. cbn [filter]. now rewrite IH.
Qed.
End Stable.

(** X11: the sort of [add_missing_rows] is stable: the rows with one key
    (day, slot, code) stand in the result in the order they had in the
    frame, followed by the synthesized rows of that key in the order they
    were made. *)
Theorem add_missing_rows_stable (df : list row) (d v t : Z) :
  filter (has_key d v t) (add_missing_rows df)
  = filter (has_key d v t) df
    ++ filter (has_key d v t) (flat_map new_rows_for (island_days df)).
Proof.
  unfold add_missing_rows. cbv zeta. rewrite sort_by_filter; [apply filter_app|].
  intros a b Ha Hb. unfold has_key in Ha, Hb. unfold le_day_variable_type.
  apply andb_true_iff in Ha as [Ha Ha3]. apply andb_true_iff in Ha as [Ha1 Ha2].
  apply andb_true_iff in Hb as [Hb Hb3]. apply andb_true_iff in Hb as [Hb1 Hb2].
  apply Z.eqb_eq in Ha1, Ha2, Ha3, Hb1, Hb2, Hb3.
  rewrite Ha1, Ha2, Ha3, Hb1, Hb2, Hb3.
  rewrite !Z.eqb_refl, Z.leb_refl. cbn [andb]. now rewrite !orb_true_r.
Qed.

(** ** DateResolver *)

Lemma island_days_In (df : list row) (d : Z) :
  In d (island_days df) -> exists r, In r df /\ day r = d.
Proof.
  unfold island_days. intros H. apply in_map_iff in H as [r [Hd Hr]].
  apply filter_In in Hr as [Hr _]. now exists r.
Qed.

Lemma add_missing_rows_day (df : list row) (r : row) :
  In r (add_missing_rows df) -> exists r0, In r0 df /\ day r0 = day r.
Proof.
  intros H. apply add_missing_rows_In in H as [H | [d [Hd Hr]]].
  - now exists r.
  - apply island_days_In in Hd as [r0 [Hr0 Hday]]. exists r0. split; [exact Hr0|].
    destruct Hr as [<- | [<- | []]]; exact Hday.
Qed.

Lemma in_bounds_between (a b n : Z) :
  in_bounds a = true -> in_bounds b = true -> a <= n <= b -> in_bounds n = true.
Proof.
  unfold in_bounds. rewrite !andb_true_iff, !Z.leb_le. lia.
Qed.

(** X12: for a month inside the time range, when every day number of the
    classified rows is a day of that month, [load_data] returns one record
    for every row the GapFiller returns, in the same order, dated with the
    year and the month of the context and the day number of the row. *)
Theorem load_data_dates_in_month (table : raw_grid) (ym : year_month) (df : list row) :
  classify table = Ok df ->
  to_datetime ym = Ok (first_day ym) ->
  in_bounds (day_number (first_day ym) + 30) = true ->
  (forall r, In r df -> 1 <= day r <= days_in_month (ym_year ym) (ym_month ym)) ->
  load_data table ym
  = Ok (map (fun r => mkrecord (mkdate (ym_year ym) (ym_month ym) (day r))
                               (name r) (type r) (time r))
            (add_missing_rows df)).
Proof.
  intros Hc Hb Hend Hdays.
  assert (Hb0 : in_bounds (day_number (first_day ym)) = true).
  { unfold to_datetime in Hb. destruct (_ && _); [|discriminate].
    destruct (in_bounds (day_number (first_day ym))); [reflexivity | discriminate]. }
  assert (Hdim : days_in_month (ym_year ym) (ym_month ym) <= 31).
  { unfold days_in_month. destruct (_ =? 2); [destruct (is_leap _); lia|].
    destruct (_ || _); lia. }
  assert (Hall : forall r, In r (add_missing_rows df) ->
                 1 <= day r <= days_in_month (ym_year ym) (ym_month ym)).
  { intros r Hr. apply add_missing_rows_day in Hr as [r0 [Hr0 <-]]. now apply Hdays. }
  rewrite load_data_eq, Hc. cbn [bind].
  rewrite (resolve_dates_ok ym (first_day ym) _ Hb).
  - f_equal. apply map_ext_in. intros r Hr. specialize (Hall r Hr).
    unfold record_of. f_equal. unfold add_days, first_day.
    replace (0 <=? day r - 1) with true by (symmetry; apply Z.leb_le; lia).
    rewrite iter_next_day_within by lia. f_equal. lia.
  - apply forallb_forall. intros r Hr. specialize (Hall r Hr).
    unfold day_in_range. apply andb_true_iff. split.
    + unfold in_bounds, max_days. apply andb_true_iff. split; apply Z.leb_le; lia.
    + revert Hb0 Hend. generalize (day_number (first_day ym)). intros n Hb0 Hend.
      apply (in_bounds_between n (n + 30)); [exact Hb0 | exact Hend | lia].
Qed.

Lemma load_data_dates_in_month_witness :
  load_data scenario_grid_lines june_2024
  = Ok (map (fun r => mkrecord (mkdate (ym_year june_2024) (ym_month june_2024) (day r))
                               (name r) (type r) (time r))
            (add_missing_rows
               [ mkrow 1 (u "月") 1 (u "A病院") (Some (u "08:30～17:30")) 1;
                 mkrow 1 (u "月") 2 (u "B病院") (Some (u "17:30～翌08:30")) 2 ])).
Proof.
  apply (load_data_dates_in_month scenario_grid_lines june_2024
           [ mkrow 1 (u "月") 1 (u "A病院") (Some (u "08:30～17:30")) 1;
             mkrow 1 (u "月") 2 (u "B病院") (Some (u "17:30～翌08:30")) 2 ]).
  - vm_compute. reflexivity.
  - vm_compute. reflexivity.
  - vm_compute. reflexivity.
  - intros r [<- | [<- | []]]; vm_compute; split; discriminate.
Defined.

Section Chronology.









End Chronology.



(** ** The names of the output *)

Lemma split_text_slot_token (df : list long_row) (f : day_frame) (dr : day_row) (t : pystr) :
  split_text df = Ok f -> In dr (day_rows f) -> In (Some t) (slots dr) -> is_token t.
Proof.
  intros H Hin Ht.
  destruct (Forall2_In_right _ _ _ dr (split_text_kept df f H) Hin) as [lr [_ [[_ Hs] _]]].
  rewrite Hs in Ht. apply in_map_iff in Ht as [j [Hj _]].
  unfold token_at in Hj. apply nth_error_In in Hj.
  pose proof (split_ws_tokens (text lr)) as Htok.
  rewrite Forall_forall in Htok. now apply Htok.
Qed.

Lemma join_head (sep p : pystr) (rest : list pystr) :
  exists tl, join sep (p :: rest) = p ++ tl.
Proof.
  destruct rest as [|q rest].
  - exists []. cbn [join]. now rewrite app_nil_r.
  - now exists (sep ++ join sep (q :: rest)).
Qed.

Lemma melt_and_split_name (f : day_frame) (rows : list slot_row) (r : slot_row) :
  melt_and_split f = Ok rows -> In r rows ->
  exists dr tl, In dr (day_rows f) /\ In (Some (s_name r ++ tl)) (slots dr).
Proof.
  intros H Hr. destruct (melt_and_split_inv f rows H) as [_ [_ ->]].
  apply in_map_iff in Hr as [[[[d w] v] s] [<- Hx]].
  apply sort_by_In in Hx.
  apply melted_values_In in Hx as [dr [n [Hdr [Hn [_ [_ [_ Hs]]]]]]].
  cbn [slot_of_value s_name].
  assert (Hin : In (Some s) (slots dr)).
  { rewrite <- Hs. apply nth_In.
    destruct (Nat.lt_ge_cases (n - 1) (length (slots dr))) as [Hlt | Hge]; [exact Hlt|].
    rewrite nth_overflow in Hs by exact Hge. discriminate. }
  pose proof (re_split_join s) as Hj.
  destruct (re_split s) as [|p rest] eqn:E.
  - exfalso. revert E. apply re_split_from_nonempty.
  - destruct (join_head [40%N] p rest) as [tl Htl].
    exists dr, tl. split; [exact Hdr|]. cbn [nth]. now rewrite <- Htl, Hj.
Qed.

Lemma slot_rows_inv (table : raw_grid) (slots : list slot_row) :
  slot_rows table = Ok slots ->
  exists long f,
    process_table table = Ok long /\ split_text long = Ok f /\ melt_and_split f = Ok slots.
Proof.
  unfold slot_rows.
  destruct (process_table table) as [long|e] eqn:H1; [|discriminate]. cbn [bind].
  destruct (split_text long) as [f|e] eqn:H2; [|discriminate]. cbn [bind].
  intros H3. now exists long, f.
Qed.

Lemma HOSPITAL_name :
  HOSPITAL <> u "献血" /\ HOSPITAL <> u "市民会館前" /\ no_space HOSPITAL = true.
Proof.
  split; [|split].
  - apply str_eqb_neq. vm_compute. reflexivity.
  - apply str_eqb_neq. vm_compute. reflexivity.
  - vm_compute. reflexivity.
Qed.

(** X14: no record [load_data] returns is named "献血" or "市民会館前", and
    no name holds a white-space character: a name is the start of a token
    of a cell, or the name of the rows the GapFiller makes. *)
Theorem load_data_names (table : raw_grid) (ym : year_month)
        (out : list schedule_record) (rec : schedule_record) :
  load_data table ym = Ok out ->
  In rec out ->
  r_name rec <> u "献血" /\ r_name rec <> u "市民会館前" /\ no_space (r_name rec) = true.
Proof.
  intros H Hin. apply load_data_inv in H as [slots [base [Hs [_ ->]]]].
  apply in_map_iff in Hin as [r [<- Hr]].
  change (r_name (record_of base r)) with (name r).
  apply add_missing_rows_In in Hr as [Hr | [d [_ Hr]]].
  - apply in_map_iff in Hr as [s [<- Hs']].
    destruct (categorize_row_keeps s) as [_ [_ [_ ->]]].
    apply filter_In in Hs' as [Hs' Hkeep].
    apply keep_row_true in Hkeep. unfold dropped in Hkeep.
    split; [intros E; apply Hkeep; auto|]. split; [intros E; apply Hkeep; auto|].
    apply slot_rows_inv in Hs as [long [f [_ [H2 H3]]]].
    destruct (melt_and_split_name f slots s H3 Hs') as [dr [tl [Hdr Hcell]]].
    destruct (split_text_slot_token long f dr _ H2 Hdr Hcell) as [_ Hns].
    unfold no_space in *. rewrite forallb_app in Hns.
    now apply andb_true_iff in Hns as [Hns _].
  - destruct Hr as [<- | [<- | []]]; exact HOSPITAL_name.
Qed.

Lemma load_data_names_witness :
  r_name (mkrecord (mkdate 2024 6 1) (u "A病院") 1 (Some (u "08:30～17:30"))) <> u "献血"
  /\ r_name (mkrecord (mkdate 2024 6 1) (u "A病院") 1 (Some (u "08:30～17:30")))
     <> u "市民会館前"
  /\ no_space (r_name (mkrecord (mkdate 2024 6 1) (u "A病院") 1 (Some (u "08:30～17:30"))))
     = true.
Proof.
  apply (load_data_names scenario_grid_lines june_2024 scenario_records).
  - vm_compute. reflexivity.
  - left. reflexivity.
Defined.

(** ** A grid without text *)

(** X15: a grid with a header that is not empty and data rows as long as
    the header but without text is refused in the DaySplitter: when every
    cell is missing or the empty string no row is left after
    [process_table], the split of the texts has no column to call [day],
    and [load_data] raises KeyError. *)
Theorem load_data_without_text (header : list cell) (rows : list (list cell))
        (ym : year_month) :
  header <> [] ->
  rows <> [] ->
  max_length rows = length header ->
  (forall cells c, In cells rows -> In c cells -> c = None \/ c = Some []) ->
  process_table (header :: rows) = Ok []
  /\ load_data (header :: rows) ym = Raise KeyError.
Proof.
  intros Hh Hne Hw Hcells.
  assert (Hp : process_table (header :: rows) = Ok []).
  { unfold process_table. destruct rows as [|r rows']; [congruence|].
    rewrite Hw, Nat.eqb_refl. destruct header as [|h0 header]; [congruence|].
    f_equal. apply flat_map_nil.
    intros [[i h] t] Hin. cbn [fst snd].
    apply stack_from_In in Hin as [_ [cells [j [Hr [_ Hc]]]]].
    apply nth_error_In in Hr, Hc.
    destruct (Hcells cells (Some t) Hr Hc) as [E | E]; [discriminate|].
    injection E as ->. reflexivity. }
  split; [exact Hp|]. unfold load_data. rewrite Hp. reflexivity.
Qed.

Lemma load_data_without_text_witness :
  process_table (header_week :: [[None; Some []; None; None; None; None; None; None]])
  = Ok []
  /\ load_data (header_week :: [[None; Some []; None; None; None; None; None; None]])
               june_2024
     = Raise KeyError.
Proof.
  apply (load_data_without_text header_week
           [[None; Some []; None; None; None; None; None; None]] june_2024).
  - discriminate.
  - discriminate.
  - reflexivity.
  - intros cells c [<- | []] Hc. cbn [In] in Hc.
    repeat (destruct Hc as [<- | Hc]; [auto|]). contradiction.
Defined.

(** ** The year-month of the address *)

Section PathFacts.
Local Open Scope N_scope.

Lemma lstrip_by_stop (p : N -> bool) (c : N) (s : pystr) :
  p c = false -> lstrip_by p (c :: s) = c :: s.
Proof. intros H. cbn [lstrip_by]. now rewrite H. Qed.

Lemma lstrip_by_repeat (p : N -> bool) (c : N) (n : nat) (s : pystr) :
  p c = true -> lstrip_by p (repeat c n ++ s) = lstrip_by p s.
Proof.
  intros H. induction n as [|n IH]; [reflexivity|].
  cbn [repeat app lstrip_by]. now rewrite H.
Qed.

Lemma rev_repeat (c : N) (n : nat) : rev (repeat c n) = repeat c n.
Proof.
  induction n as [|n IH]; [reflexivity|].
  cbn [repeat rev]. rewrite IH. symmetry. apply repeat_cons.
Qed.

Lemma slash_char (c : N) : existsb (N.eqb c) (u "/") = (c =? 47).
Proof. change (u "/") with [47]. cbn [existsb]. apply orb_false_r. Qed.

(** Stripping the slashes leaves the last segment and what stands before
    it, from the first character that is not a slash on. *)
Lemma strip_slashes (pre seg : pystr) (n : nat) :
  seg <> [] -> ~ In 47 seg ->
  pre = [] \/ (exists q, pre = q ++ [47]) ->
  exists pre',
    strip_chars (u "/") (pre ++ seg ++ repeat 47 n) = pre' ++ seg
    /\ (pre' = [] \/ exists q, pre' = q ++ [47]).
Proof.
  intros Hne Hseg Hpre. unfold strip_chars, strip_by.
  set (p := fun c : N => existsb (N.eqb c) (u "/")).
  assert (Hp : forall c, p c = (c =? 47)) by (intros c; apply slash_char).
  assert (Hl : exists pre', lstrip_by p (pre ++ seg ++ repeat 47 n) = pre' ++ seg ++ repeat 47 n
                            /\ (pre' = [] \/ exists q, pre' = q ++ [47])).
  { induction pre as [|x pre IH].
    - exists []. split; [|now left]. cbn [app].
      destruct seg as [|c seg']; [congruence|]. cbn [app]. apply lstrip_by_stop.
      rewrite Hp. apply N.eqb_neq. intros ->. apply Hseg. now left.
    - cbn [app lstrip_by]. destruct (p x) eqn:Px.
      + apply IH. destruct Hpre as [Hpre | [q Hq]]; [discriminate|].
        destruct q as [|y q]; cbn [app] in Hq; injection Hq as _ Hq.
        * now left.
        * right. now exists q.
      + exists (x :: pre). split; [reflexivity | exact Hpre]. }
  destruct Hl as [pre' [-> Hpre']]. exists pre'. split; [|exact Hpre'].
  rewrite !rev_app_distr, rev_repeat, <- app_assoc.
  rewrite lstrip_by_repeat by (rewrite Hp; reflexivity).
  destruct (rev seg) as [|c rs] eqn:E.
  - apply (f_equal (@rev N)) in E. rewrite rev_involutive in E. cbn in E. congruence.
  - cbn [app]. rewrite lstrip_by_stop.
    + change (c :: rs ++ rev pre') with ((c :: rs) ++ rev pre').
      rewrite <- E, rev_app_distr, !rev_involutive. reflexivity.
    + rewrite Hp. apply N.eqb_neq. intros ->. apply Hseg.
      apply in_rev. rewrite E. now left.
Qed.

Lemma split_char_from_plain (sep : N) (cur s : pystr) :
  ~ In sep s -> split_char_from sep cur s = [rev cur ++ s].
Proof.
  revert cur. induction s as [|c s IH]; intros cur Hs; cbn [split_char_from].
  - now rewrite app_nil_r.
  - destruct (N.eqb_spec c sep) as [-> | Hc]; [exfalso; apply Hs; now left|].
    rewrite IH by (intros H; apply Hs; now right).
    cbn [rev]. now rewrite <- app_assoc.
Qed.

Lemma split_char_from_sep (sep : N) (cur q s : pystr) :
  exists pieces,
    split_char_from sep cur (q ++ sep :: s) = pieces ++ split_char_from sep [] s.
Proof.
  revert cur. induction q as [|c q IH]; intros cur; cbn [app split_char_from].
  - rewrite N.eqb_refl. now exists [rev cur].
  - destruct (c =? sep).
    + destruct (IH []) as [pieces Hp]. exists (rev cur :: pieces). now rewrite Hp.
    + apply IH.
Qed.

End PathFacts.

(** X16: the year-month [load_data] reads from the address is the last
    segment of its path: for a path that ends with a segment without "/"
    followed by any number of "/", and in which the segment stands at the
    start or after a "/", the result is that segment. *)
Theorem yyyymm_of_path_last_segment (pre seg : pystr) (n : nat) :
  seg <> [] -> ~ In 47%N seg ->
  pre = [] \/ (exists q, pre = q ++ [47%N]) ->
  yyyymm_of_path (pre ++ seg ++ repeat 47%N n) = seg.
Proof.
  intros Hne Hseg Hpre. unfold yyyymm_of_path.
  destruct (strip_slashes pre seg n Hne Hseg Hpre) as [pre' [-> Hpre']].
  unfold split_char. destruct Hpre' as [-> | [q ->]].
  - cbn [app]. now rewrite split_char_from_plain.
  - rewrite <- app_assoc. cbn [app].
    destruct (split_char_from_sep 47 [] q seg) as [pieces ->].
    rewrite split_char_from_plain by exact Hseg. cbn [rev app].
    apply last_last.
Qed.

Lemma yyyymm_of_path_last_segment_witness :
  yyyymm_of_path (u "/kouhou/koho/" ++ u "202406" ++ repeat 47%N 1) = u "202406".
Proof.
  apply (yyyymm_of_path_last_segment (u "/kouhou/koho/") (u "202406") 1).
  - discriminate.
  - vm_compute. intros H; repeat (destruct H as [H | H]; [discriminate|]); exact H.
  - right. exists (u "/kouhou/koho"). reflexivity.
Defined.

(** ** The day token *)

Lemma isspace_ascii_isspace (c : N) : isspace_ascii c = true -> isspace c = true.
Proof.
  unfold isspace_ascii, isspace. intros H. apply orb_true_iff in H as [H | H].
  - apply N.eqb_eq in H. subst c. reflexivity.
  - rewrite H. reflexivity.
Qed.

Lemma token_not_ascii_space (t : pystr) (c : N) (r : pystr) :
  is_token t -> c_string t = c :: r ->
  lstrip_by isspace_ascii (c_string t) = c_string t /\ exists r', t = c :: r'.
Proof.
  intros [_ Hns] Hc. destruct t as [|x t]; [discriminate|].
  cbn [c_string] in Hc |- *. destruct (x =? 0)%N; [discriminate|].
  injection Hc as -> _. split; [|now exists t].
  apply lstrip_token. unfold no_space in Hns. cbn [forallb] in Hns.
  apply andb_true_iff in Hns as [Hx _]. apply negb_true_iff in Hx.
  destruct (isspace_ascii c) eqn:E; [|reflexivity].
  apply isspace_ascii_isspace in E. congruence.
Qed.

(** X17: every row the DaySplitter keeps comes from a text whose first
    token starts with a digit, a sign or a decimal point.  Texts that start
    otherwise, such as labels and legends, give no row. *)
Theorem split_text_keeps_numbers (df : list long_row) (f : day_frame) (dr : day_row) :
  split_text df = Ok f ->
  In dr (day_rows f) ->
  exists lr c tok toks,
    In lr df /\ kept_as (slot_columns f) lr dr
    /\ split_ws (text lr) = (c :: tok) :: toks
    /\ (isdigit c = true \/ c = 43%N \/ c = 45%N \/ c = 46%N).
Proof.
  intros H Hin.
  destruct (Forall2_In_right _ _ _ dr (split_text_kept df f H) Hin) as [lr [Hlr [Hkept _]]].
  apply filter_In in Hlr as [Hlr Hk].
  assert (Hfin : is_finite (float_of (first_token_parse lr)) = true).
  { destruct (split_text_inv df f H) as [_ [_ Hf]].
    destruct (day_dtype df) eqn:Et.
    - assert (Hs : saw_float (first_token_parse lr) = false).
      { apply (infer_dtype_int (map first_token_parse df));
          [unfold day_dtype in Et; congruence | now apply in_map]. }
      pose proof (parse_value_nan (token_at (split_ws (text lr)) 0)) as Hn.
      unfold first_token_parse in *.
      destruct (parse_value _) as [|z x|x] eqn:Ep; try discriminate.
      apply (parse_value_int_finite _ _ _ Ep).
    - assert (Hs : saw_float (first_token_parse lr) = false).
      { apply (infer_dtype_int (map first_token_parse df));
          [unfold day_dtype in Et; congruence | now apply in_map]. }
      unfold first_token_parse in *.
      destruct (parse_value _) as [|z x|x] eqn:Ep; try discriminate.
      apply (parse_value_int_finite _ _ _ Ep).
    - specialize (Hf eq_refl). rewrite forallb_forall in Hf. apply Hf.
      apply filter_In. auto. }
  unfold first_token_parse in Hfin.
  destruct (split_ws (text lr)) as [|t toks] eqn:E; [discriminate|].
  cbn [token_at nth_error] in Hfin.
  destruct (parse_value_first t Hfin) as [c [r [Hc Hfirst]]].
  assert (Htok : is_token t).
  { pose proof (split_ws_tokens (text lr)) as Ht. rewrite E in Ht. now inversion Ht. }
  destruct (c_string t) as [|c0 r0] eqn:Ecs; [discriminate|].
  destruct (token_not_ascii_space t c0 r0 Htok Ecs) as [Hl [r' ->]].
  rewrite Ecs in Hl. rewrite Hl in Hc. injection Hc as -> _.
  exists lr, c, r', toks. auto.
Qed.

Lemma split_text_keeps_numbers_witness :
  exists lr c tok toks,
    In lr split_text_sample
    /\ kept_as
         (slot_columns
            (mkdayframe 2
               [ mkdayrow (u "月") 32 [Some (u "A病院(8:30～17:30)"); None];
                 mkdayrow (u "月") 7 [Some (u "B病院"); Some (u "C病院(17:30～翌8:30)")] ]))
         lr (mkdayrow (u "月") 7 [Some (u "B病院"); Some (u "C病院(17:30～翌8:30)")])
    /\ split_ws (text lr) = (c :: tok) :: toks
    /\ (isdigit c = true \/ c = 43%N \/ c = 45%N \/ c = 46%N).
Proof.
  apply (split_text_keeps_numbers split_text_sample
           (mkdayframe 2
              [ mkdayrow (u "月") 32 [Some (u "A病院(8:30～17:30)"); None];
                mkdayrow (u "月") 7 [Some (u "B病院"); Some (u "C病院(17:30～翌8:30)")] ])
           (mkdayrow (u "月") 7 [Some (u "B病院"); Some (u "C病院(17:30～翌8:30)")])).
  - vm_compute. reflexivity.
  - right. left. reflexivity.
Defined.

(** ** The zero-padding step *)

Section ZeroPadFixed.
Local Open Scope N_scope.

Local Notation "'PAT'" := [56; 58; 51; 48].
Local Notation "'PADDED'" := [48; 56; 58; 51; 48].

Lemma zero_pad_unchanged (t : pystr) :
  contains PAT t = false -> zero_pad t = t.
Proof.
  induction t as [|c t IH]; intros H; [reflexivity|].
  cbn [contains] in H. apply orb_false_iff in H as [Hs Hc].
  rewrite zero_pad_cons by exact Hs. now rewrite IH.
Qed.

Lemma zero_pad_length (t : pystr) : (length t <= length (zero_pad t))%nat.
Proof.
  remember (length t) as n eqn:Hn. revert t Hn.
  induction n as [n IH] using lt_wf_ind. intros t Hn.
  destruct (zero_pad_cases t) as [-> | [[r [-> Hr]] | [c [t' [-> [_ Hc]]]]]].
  - subst n. cbn. lia.
  - rewrite Hr. rewrite length_app in Hn. rewrite length_app.
    cbn [length] in *.
    pose proof (IH (length r) ltac:(lia) r eq_refl). lia.
  - rewrite Hc. cbn [length] in *.
    pose proof (IH (length t') ltac:(lia) t' eq_refl). lia.
Qed.

Lemma zero_pad_grows (t : pystr) :
  contains PAT t = true -> (length t < length (zero_pad t))%nat.
Proof.
  intros H. apply contains_spec in H as [a [b ->]].
  rewrite zero_pad_app. rewrite !length_app. cbn [length].
  pose proof (zero_pad_length a). pose proof (zero_pad_length b). lia.
Qed.

End ZeroPadFixed.

(** X18: the zero-padding step of the Classifier leaves a time as it is
    exactly when the time does not hold "8:30"; every other time gets
    longer. *)
Theorem zero_pad_fixed_point (t : pystr) :
  (zero_pad t = t <-> contains (u "8:30") t = false)
  /\ (contains (u "8:30") t = true -> (length t < length (zero_pad t))%nat).
Proof.
  change (u "8:30") with [56; 58; 51; 48]%N.
  split; [split|].
  - intros H. destruct (contains [56; 58; 51; 48]%N t) eqn:E; [|reflexivity].
    apply zero_pad_grows in E. rewrite H in E. lia.
  - apply zero_pad_unchanged.
  - apply zero_pad_grows.
Qed.

(** ** Names and times in parentheses *)

Section Parentheses.
Local Open Scope N_scope.

Lemma not_close (c : N) :
  c <> 41 -> match Some c with Some 41 => true | _ => false end = false.
Proof.
  intros H. destruct c as [|p]; [reflexivity|].
  do 6 (destruct p as [p|p|]; try reflexivity); congruence.
Qed.

Lemma re_split_from_name (prev : option N) (cur name rest : pystr) :
  ~ In 40 name -> ~ In 41 name ->
  match prev with Some 41 => true | _ => false end = false ->
  re_split_from prev cur (name ++ 40 :: rest)
  = (rev cur ++ name) :: re_split_from (Some 40) [] rest.
Proof.
  revert prev cur. induction name as [|x name IH]; intros prev cur H40 H41 Hprev.
  - cbn [app re_split_from]. rewrite Hprev. cbn [N.eqb Pos.eqb andb negb].
    now rewrite app_nil_r.
  - cbn [app re_split_from].
    replace (x =? 40) with false
      by (symmetry; apply N.eqb_neq; intros ->; apply H40; now left).
    cbn [andb]. rewrite IH.
    + cbn [rev]. now rewrite <- app_assoc.
    + intros H; apply H40; now right.
    + intros H; apply H41; now right.
    + apply not_close. intros ->. apply H41. now left.
Qed.

Lemma re_split_from_pair (prev : option N) (cur a rest : pystr) :
  ~ In 40 a ->
  re_split_from prev cur (a ++ 41 :: 40 :: rest)
  = re_split_from (Some 40) (40 :: 41 :: rev a ++ cur) rest.
Proof.
  revert prev cur. induction a as [|x a IH]; intros prev cur H40.
  - reflexivity.
  - cbn [app re_split_from].
    replace (x =? 40) with false
      by (symmetry; apply N.eqb_neq; intros ->; apply H40; now left).
    cbn [andb]. rewrite IH by (intros H; apply H40; now right).
    cbn [rev]. now rewrite <- app_assoc.
Qed.

Lemma paren_char (c : N) : existsb (N.eqb c) (u "()") = (c =? 40) || (c =? 41).
Proof. change (u "()") with [40; 41]. cbn [existsb]. now rewrite orb_false_r. Qed.

Lemma strip_by_last (p : N -> bool) (s : pystr) (x : N) :
  p x = true ->
  s = [] \/ ((exists c s', s = c :: s' /\ p c = false)
             /\ (exists s' e, s = s' ++ [e] /\ p e = false)) ->
  strip_by p (s ++ [x]) = s.
Proof.
  intros Hx [-> | [[c [s1 [H1 Hc]]] [s2 [e [H2 He]]]]]; unfold strip_by.
  - cbn [app lstrip_by]. rewrite Hx. reflexivity.
  - rewrite H1 at 1. cbn [app]. rewrite lstrip_by_stop by exact Hc.
    change (c :: s1 ++ [x]) with ((c :: s1) ++ [x]). rewrite <- H1.
    rewrite rev_app_distr. cbn [rev app lstrip_by]. rewrite Hx.
    rewrite H2 at 1. rewrite rev_app_distr. cbn [rev app].
    rewrite lstrip_by_stop by exact He.
    change (e :: rev s2) with (rev [e] ++ rev s2).
    rewrite <- rev_app_distr, <- H2. apply rev_involutive.
Qed.

Lemma replace_skip_prefix (o : N) (old new a s : pystr) :
  ~ In o a -> replace (o :: old) new (a ++ s) = a ++ replace (o :: old) new s.
Proof.
  induction a as [|c a IH]; intros H; [reflexivity|].
  cbn [app]. rewrite replace_nomatch.
  - rewrite IH; [reflexivity|]. intros Hin; apply H; now right.
  - cbn [startswith].
    replace (o =? c) with false; [reflexivity|].
    symmetry. apply N.eqb_neq. intros ->. apply H. now left.
Qed.

Lemma replace_absent (o : N) (old new s : pystr) :
  ~ In o s -> replace (o :: old) new s = s.
Proof.
  intros H. rewrite <- (app_nil_r s) at 1. rewrite replace_skip_prefix by exact H.
  cbn. apply app_nil_r.
Qed.

Lemma no_paren_ends (s : pystr) :
  s <> [] -> ~ In 40 s -> ~ In 41 s ->
  (exists c s', s = c :: s' /\ (c =? 40) || (c =? 41) = false)
  /\ (exists s' e, s = s' ++ [e] /\ (e =? 40) || (e =? 41) = false).
Proof.
  intros Hne H40 H41.
  assert (Hc : forall c, In c s -> (c =? 40) || (c =? 41) = false).
  { intros c Hin. apply orb_false_iff.
    split; apply N.eqb_neq; intros ->; [now apply H40 | now apply H41]. }
  split.
  - destruct s as [|c s']; [congruence|]. exists c, s'. split; [reflexivity|].
    apply Hc. now left.
  - destruct (exists_last Hne) as [s' [e ->]]. exists s', e. split; [reflexivity|].
    apply Hc. apply in_or_app. right. now left.
Qed.

Lemma clean_time_one (body : pystr) :
  ~ In 40 body -> ~ In 41 body -> clean_time (body ++ [41]) = body.
Proof.
  intros H40 H41. unfold clean_time, strip_chars.
  rewrite strip_by_last.
  - change (u ")(") with [41; 40]. now apply replace_absent.
  - rewrite paren_char. reflexivity.
  - destruct body as [|c body']; [now left | right].
    destruct (no_paren_ends (c :: body')) as [[c1 [s1 [E1 P1]]] [s2 [e [E2 P2]]]];
      [discriminate | exact H40 | exact H41 |].
    split.
    + exists c1, s1. split; [exact E1|]. now rewrite paren_char.
    + exists s2, e. split; [exact E2|]. now rewrite paren_char.
Qed.

Lemma clean_time_two (a b : pystr) :
  a <> [] -> b <> [] ->
  ~ In 40 a -> ~ In 41 a -> ~ In 40 b -> ~ In 41 b ->
  clean_time (a ++ 41 :: 40 :: b ++ [41]) = a ++ u " / " ++ b.
Proof.
  intros Ha Hb Ha40 Ha41 Hb40 Hb41. unfold clean_time, strip_chars.
  change (a ++ 41 :: 40 :: b ++ [41]) with (a ++ [41; 40] ++ b ++ [41]).
  rewrite !app_assoc. rewrite strip_by_last.
  - rewrite <- app_assoc. change (u ")(") with [41; 40].
    rewrite replace_skip_prefix by exact Ha41.
    rewrite replace_match. rewrite replace_absent by exact Hb41. apply app_assoc.
  - rewrite paren_char. reflexivity.
  - right.
    destruct (no_paren_ends a Ha Ha40 Ha41) as [[c1 [s1 [E1 P1]]] _].
    destruct (no_paren_ends b Hb Hb40 Hb41) as [_ [s2 [e [E2 P2]]]].
    split.
    + exists c1, (s1 ++ [41; 40] ++ b). split; [|now rewrite paren_char].
      rewrite E1. cbn [app]. now rewrite <- app_assoc.
    + exists (a ++ [41; 40] ++ s2), e. split; [|now rewrite paren_char].
      rewrite E2. now rewrite <- !app_assoc.
Qed.

Lemma re_split_one (name body : pystr) :
  ~ In 40 name -> ~ In 41 name -> ~ In 40 body -> ~ In 41 body ->
  re_split (name ++ 40 :: body ++ [41]) = [name; body ++ [41]].
Proof.
  intros Hn40 Hn41 Hb40 Hb41. unfold re_split.
  rewrite re_split_from_name by (assumption || reflexivity).
  rewrite re_split_from_plain; [reflexivity|].
  intros H. apply in_app_iff in H as [H | [H | []]]; [now apply Hb40 | discriminate].
Qed.

Lemma re_split_two (name a b : pystr) :
  ~ In 40 name -> ~ In 41 name -> ~ In 40 a -> ~ In 40 b ->
  re_split (name ++ 40 :: a ++ 41 :: 40 :: b ++ [41]) = [name; a ++ 41 :: 40 :: b ++ [41]].
Proof.
  intros Hn40 Hn41 Ha40 Hb40. unfold re_split.
  rewrite re_split_from_name by (assumption || reflexivity).
  rewrite re_split_from_pair by exact Ha40.
  rewrite re_split_from_plain.
  - rewrite app_nil_r. cbn [rev]. rewrite rev_involutive.
    rewrite <- !app_assoc. reflexivity.
  - intros H. apply in_app_iff in H as [H | [H | []]]; [now apply Hb40 | discriminate].
Qed.

End Parentheses.

Lemma melt_and_split_has (f : day_frame) (rows : list slot_row)
      (dr : day_row) (n : nat) (s : pystr) :
  melt_and_split f = Ok rows ->
  In dr (day_rows f) -> (1 <= n <= slot_columns f)%nat ->
  nth (n - 1) (slots dr) None = Some s ->
  In (slot_of_value (dr_day dr, dr_week dr, Z.of_nat n, s)) rows.
Proof.
  intros H Hdr Hn Hs. destruct (melt_and_split_inv f rows H) as [_ [_ ->]].
  apply in_map. apply sort_by_In. apply melted_values_In. exists dr, n. auto 10.
Qed.

(** X19: a slot cell of the form name, "(", hours, ")" is read as that name
    with these hours: when neither the name nor the hours hold a
    parenthesis, the row of the cell has the name before the parenthesis and
    the hours between the parentheses as its time. *)
Theorem melt_and_split_one_interval (f : day_frame) (rows : list slot_row)
        (dr : day_row) (n : nat) (nm body : pystr) :
  melt_and_split f = Ok rows ->
  In dr (day_rows f) -> (1 <= n <= slot_columns f)%nat ->
  nth (n - 1) (slots dr) None = Some (nm ++ u "(" ++ body ++ u ")") ->
  ~ In 40%N nm -> ~ In 41%N nm -> ~ In 40%N body -> ~ In 41%N body ->
  In (mkslot (dr_day dr) (dr_week dr) (Z.of_nat n) nm (Some body)) rows.
Proof.
  intros H Hdr Hn Hs Hn40 Hn41 Hb40 Hb41.
  pose proof (melt_and_split_has f rows dr n _ H Hdr Hn Hs) as Hin.
  change (nm ++ u "(" ++ body ++ u ")") with (nm ++ 40%N :: body ++ [41%N]) in Hin.
  unfold slot_of_value in Hin. rewrite re_split_one in Hin by assumption.
  cbn [nth nth_error option_map] in Hin.
  now rewrite clean_time_one in Hin by assumption.
Qed.

Lemma melt_and_split_one_interval_witness :
  In (mkslot (dr_day (mkdayrow (u "月") 7 [Some (u "B病院"); Some (u "C病院(17:30～翌8:30)")]))
             (dr_week (mkdayrow (u "月") 7 [Some (u "B病院"); Some (u "C病院(17:30～翌8:30)")]))
             (Z.of_nat 2) (u "C病院") (Some (u "17:30～翌8:30")))
     [ mkslot 7 (u "月") 1 (u "B病院") None;
       mkslot 7 (u "月") 2 (u "C病院") (Some (u "17:30～翌8:30"));
       mkslot 32 (u "月") 1 (u "A病院") (Some (u "8:30～17:30")) ].
Proof.
  apply (melt_and_split_one_interval
           (mkdayframe 2
              [ mkdayrow (u "月") 32 [Some (u "A病院(8:30～17:30)"); None];
                mkdayrow (u "月") 7 [Some (u "B病院"); Some (u "C病院(17:30～翌8:30)")] ])).
  - vm_compute. reflexivity.
  - right. left. reflexivity.
  - cbn [slot_columns]. lia.
  - vm_compute. reflexivity.
  - vm_compute. intros H; repeat (destruct H as [H | H]; [discriminate|]); exact H.
  - vm_compute. intros H; repeat (destruct H as [H | H]; [discriminate|]); exact H.
  - vm_compute. intros H; repeat (destruct H as [H | H]; [discriminate|]); exact H.
  - vm_compute. intros H; repeat (destruct H as [H | H]; [discriminate|]); exact H.
Defined.

(** X20: a slot cell of the form name, "(", hours, ")(", hours, ")" is read
    as that name with the two spans of hours joined by " / ": the
    parenthesis that follows a closing one does not split the cell. *)
Theorem melt_and_split_two_intervals (f : day_frame) (rows : list slot_row)
        (dr : day_row) (n : nat) (nm a b : pystr) :
  melt_and_split f = Ok rows ->
  In dr (day_rows f) -> (1 <= n <= slot_columns f)%nat ->
  nth (n - 1) (slots dr) None = Some (nm ++ u "(" ++ a ++ u ")(" ++ b ++ u ")") ->
  ~ In 40%N nm -> ~ In 41%N nm ->
  a <> [] -> ~ In 40%N a -> ~ In 41%N a ->
  b <> [] -> ~ In 40%N b -> ~ In 41%N b ->
  In (mkslot (dr_day dr) (dr_week dr) (Z.of_nat n) nm (Some (a ++ u " / " ++ b))) rows.
Proof.
  intros H Hdr Hn Hs Hn40 Hn41 Ha Ha40 Ha41 Hb Hb40 Hb41.
  pose proof (melt_and_split_has f rows dr n _ H Hdr Hn Hs) as Hin.
  change (nm ++ u "(" ++ a ++ u ")(" ++ b ++ u ")")
    with (nm ++ 40%N :: a ++ 41%N :: 40%N :: b ++ [41%N]) in Hin.
  unfold slot_of_value in Hin. rewrite re_split_two in Hin by assumption.
  cbn [nth nth_error option_map] in Hin.
  now rewrite clean_time_two in Hin by assumption.
Qed.

Lemma melt_and_split_two_intervals_witness :
  In (mkslot (dr_day (mkdayrow (u "月") 3 [Some (u "県立今治病院(8:30～17:15)(22:30～翌8:30)")]))
             (dr_week (mkdayrow (u "月") 3 [Some (u "県立今治病院(8:30～17:15)(22:30～翌8:30)")]))
             (Z.of_nat 1) (u "県立今治病院")
             (Some (u "8:30～17:15" ++ u " / " ++ u "22:30～翌8:30")))
     [ mkslot 3 (u "月") 1 (u "県立今治病院") (Some (u "8:30～17:15 / 22:30～翌8:30")) ].
Proof.
  apply (melt_and_split_two_intervals
           (mkdayframe 1
              [ mkdayrow (u "月") 3 [Some (u "県立今治病院(8:30～17:15)(22:30～翌8:30)")] ])).
  - vm_compute. reflexivity.
  - left. reflexivity.
  - cbn [slot_columns]. lia.
  - vm_compute. reflexivity.
  - vm_compute. intros H; repeat (destruct H as [H | H]; [discriminate|]); exact H.
  - vm_compute. intros H; repeat (destruct H as [H | H]; [discriminate|]); exact H.
  - discriminate.
  - vm_compute. intros H; repeat (destruct H as [H | H]; [discriminate|]); exact H.
  - vm_compute. intros H; repeat (destruct H as [H | H]; [discriminate|]); exact H.
  - discriminate.
  - vm_compute. intros H; repeat (destruct H as [H | H]; [discriminate|]); exact H.
  - vm_compute. intros H; repeat (destruct H as [H | H]; [discriminate|]); exact H.
Defined.
